(** * EduViz-AI core: context compression, model routing, streaming validation

    A shallow embedding of four TypeScript classes of the repository and
    of the methods of the orchestrator that call them:

    - [SemanticCompressionEngine]  (app/lib/ai/educational-validator.ts, l.483-821)
    - [EducationalModelRouter]     (unnamed/part_002)
    - [StreamingValidator]         (unnamed/part_004)
    - [EducationalValidator]       (app/lib/ai/educational-validator.ts, l.1-421)
    - [AdvancedEducationalOrchestrator] (app/lib/ai/advanced-orchestrator.ts)

    Conventions.  JavaScript strings are modelled as [string] (sequences of
    8-bit characters); a JavaScript [Map] or [Set] is an association list or a
    list kept in insertion order, because the code iterates over them and the
    order decides which candidate fits a budget first.  JavaScript numbers that
    carry money, confidence or ratios of counts are exact rationals ([Q]); the
    scores of the two validators are binary64 numbers ([float]), computed as
    the code computes them; token counts are [nat].  Library functions that are not part of the repository (the tokenizer
    [encode], the parser [acorn.parse], [JSON.stringify], the clock [Date.now])
    are parameters of the sections that use them. *)

From Stdlib Require Import List String Ascii Bool Arith ZArith QArith Qminmax Lia.
From Stdlib Require Import DecimalString Permutation.
From Stdlib Require Import Floats Uint63.
Import ListNotations.

Local Close Scope Q_scope.
Local Open Scope string_scope.
Local Open Scope list_scope.
Local Open Scope nat_scope.

Local Notation "a +++ b" := (String.append a b) (at level 60, right associativity).

(* ================================================================== *)
(** * Strings as the JavaScript code uses them *)
(* ================================================================== *)

Module Js.

(** The double-quote character. *)
Definition dquote : ascii := ascii_of_nat 34.
Definition newline : string := String (ascii_of_nat 10) EmptyString.

Definition code (c : ascii) : nat := nat_of_ascii c.

Definition is_upper (c : ascii) : bool := (65 <=? code c) && (code c <=? 90).
Definition is_lower (c : ascii) : bool := (97 <=? code c) && (code c <=? 122).
Definition is_digit (c : ascii) : bool := (48 <=? code c) && (code c <=? 57).
Definition is_alpha (c : ascii) : bool := is_upper c || is_lower c.

(** [\w] : letters, digits and underscore. *)
Definition is_word (c : ascii) : bool := is_alpha c || is_digit c || (code c =? 95).

(** [\s], and what [trim] strips, among the 8-bit characters: TAB, LF, VT,
    FF, CR, space and the no-break space. *)
Definition is_space (c : ascii) : bool :=
  ((9 <=? code c) && (code c <=? 13)) || (code c =? 32) || (code c =? 160).

Definition lower_char (c : ascii) : ascii :=
  if is_upper c then ascii_of_nat (code c + 32) else c.

(** [String.prototype.toLowerCase]. *)
Fixpoint toLowerCase (s : string) : string :=
  match s with
  | EmptyString => EmptyString
  | String c s' => String (lower_char c) (toLowerCase s')
  end.

Fixpoint rev_string_acc (s acc : string) : string :=
  match s with
  | EmptyString => acc
  | String c s' => rev_string_acc s' (String c acc)
  end.

Definition rev_string (s : string) : string := rev_string_acc s EmptyString.

Fixpoint trimStart (s : string) : string :=
  match s with
  | String c s' => if is_space c then trimStart s' else s
  | EmptyString => EmptyString
  end.

(** [String.prototype.trim]. *)
Definition trim (s : string) : string :=
  rev_string (trimStart (rev_string (trimStart s))).

(** [s.startsWith(p)]. *)
Fixpoint startsWith (p s : string) : bool :=
  match p, s with
  | EmptyString, _ => true
  | String a p', String b s' => Ascii.eqb a b && startsWith p' s'
  | String _ _, EmptyString => false
  end.

(** [s.includes(p)]. *)
Fixpoint includes (p s : string) : bool :=
  startsWith p s ||
  match s with
  | EmptyString => false
  | String _ s' => includes p s'
  end.

(** [parts.join(sep)]. *)
Fixpoint join (sep : string) (parts : list string) : string :=
  match parts with
  | [] => EmptyString
  | [p] => p
  | p :: rest => p +++ sep +++ join sep rest
  end.

(** [s.split(' ')] : always at least one piece. *)
Fixpoint split_on (d : ascii) (s : string) (cur : string) : list string :=
  match s with
  | EmptyString => [rev_string cur]
  | String c s' =>
      if Ascii.eqb c d then rev_string cur :: split_on d s' EmptyString
      else split_on d s' (String c cur)
  end.

Definition split_space (s : string) : list string :=
  split_on " "%char s EmptyString.

(** Decimal rendering of a natural number, as in a template literal. *)
Definition nat_to_string (n : nat) : string :=
  NilEmpty.string_of_uint (Nat.to_uint n).

(** A JavaScript [Set<string>] in insertion order. *)
Definition set_has (x : string) (s : list string) : bool :=
  existsb (String.eqb x) s.

Definition set_add (x : string) (s : list string) : list string :=
  if set_has x s then s else s ++ [x].

(** [new Set(xs)]. *)
Definition set_of_list (xs : list string) : list string :=
  fold_left (fun s x => set_add x s) xs [].

(** A JavaScript [Map<string, V>] in insertion order: [set] on a key that
    is present overwrites the value in place, a new key goes last. *)
Fixpoint map_get {V : Type} (k : string) (m : list (string * V)) : option V :=
  match m with
  | [] => None
  | (k', v) :: m' => if String.eqb k' k then Some v else map_get k m'
  end.

Definition map_has {V : Type} (k : string) (m : list (string * V)) : bool :=
  match map_get k m with Some _ => true | None => false end.

Fixpoint map_set {V : Type} (k : string) (v : V) (m : list (string * V))
  : list (string * V) :=
  match m with
  | [] => [(k, v)]
  | (k', v') :: m' =>
      if String.eqb k' k then (k, v) :: m' else (k', v') :: map_set k v m'
  end.

Definition map_keys {V : Type} (m : list (string * V)) : list string :=
  map fst m.

(** One iteration of a loop over the entries [(k, x)] of a map that stores
    [value x] under [k] in another map when [wanted x] holds. *)
Definition writeStep {V X : Type} (wanted : X -> bool) (value : X -> V)
           (m : list (string * V)) (entry : string * X) : list (string * V) :=
  if wanted (snd entry) then map_set (fst entry) (value (snd entry)) m else m.

(** [a < b] on exact rationals. *)
Definition Qltb (a b : Q) : bool := negb (Qle_bool b a).

(** The result of a JavaScript division of two token counts. *)
Inductive Number : Type :=
| Finite (q : Q)
| Infinity
| NaN.

Definition div_counts (a b : nat) : Number :=
  match b with
  | O => match a with O => NaN | S _ => Infinity end
  | S _ => Finite (Z.of_nat a # Pos.of_nat b)
  end.

(** [Math.max(0, x)] on binary64 numbers. *)
Definition max0 (x : float) : float :=
  if PrimFloat.is_nan x then x
  else if PrimFloat.ltb 0%float x then x else 0%float.

(** [s.endsWith(p)]. *)
Definition endsWith (p s : string) : bool :=
  startsWith (rev_string p) (rev_string s).

(** The line terminators among the 8-bit characters: LF and CR. *)
Definition is_line_terminator (c : ascii) : bool :=
  (code c =? 10) || (code c =? 13).

(** [s.slice(n)] for [n <= s.length], and nothing beyond the end. *)
Fixpoint dropChars (n : nat) (s : string) : option string :=
  match n, s with
  | O, _ => Some s
  | S _, EmptyString => None
  | S k, String _ s' => dropChars k s'
  end.

End Js.

(* ================================================================== *)
(** * Regular expressions, by derivatives *)
(* ================================================================== *)

Module Re.

Inductive regex : Type :=
| Void
| Eps
| Cls (p : ascii -> bool)
| Cat (r1 r2 : regex)
| Alt (r1 r2 : regex)
| Star (r : regex).

Fixpoint nullable (r : regex) : bool :=
  match r with
  | Void => false
  | Eps => true
  | Cls _ => false
  | Cat r1 r2 => nullable r1 && nullable r2
  | Alt r1 r2 => nullable r1 || nullable r2
  | Star _ => true
  end.

Definition is_void (r : regex) : bool :=
  match r with Void => true | _ => false end.

Definition is_eps (r : regex) : bool :=
  match r with Eps => true | _ => false end.

Definition cat (r1 r2 : regex) : regex :=
  if is_void r1 || is_void r2 then Void
  else if is_eps r1 then r2
  else if is_eps r2 then r1
  else Cat r1 r2.

Definition alt (r1 r2 : regex) : regex :=
  if is_void r1 then r2 else if is_void r2 then r1 else Alt r1 r2.

Fixpoint deriv (c : ascii) (r : regex) : regex :=
  match r with
  | Void => Void
  | Eps => Void
  | Cls p => if p c then Eps else Void
  | Cat r1 r2 =>
      if nullable r1 then alt (cat (deriv c r1) r2) (deriv c r2)
      else cat (deriv c r1) r2
  | Alt r1 r2 => alt (deriv c r1) (deriv c r2)
  | Star r1 => cat (deriv c r1) (Star r1)
  end.

(** The whole string is in the language: a pattern written [/^...$/]. *)
Fixpoint matches (r : regex) (s : string) : bool :=
  match s with
  | EmptyString => nullable r
  | String c s' => if is_void r then false else matches (deriv c r) s'
  end.

(** Some prefix of the string is in the language. *)
Fixpoint matches_prefix (r : regex) (s : string) : bool :=
  nullable r ||
  match s with
  | EmptyString => false
  | String c s' => if is_void r then false else matches_prefix (deriv c r) s'
  end.

(** [re.test(s)] for a pattern without anchors: a match starts somewhere. *)
Fixpoint test (r : regex) (s : string) : bool :=
  matches_prefix r s ||
  match s with
  | EmptyString => false
  | String _ s' => test r s'
  end.

Definition chr (a : ascii) : regex := Cls (Ascii.eqb a).

(** With the [i] flag a letter matches in either case. *)
Definition chr_i (a : ascii) : regex :=
  Cls (fun c => Ascii.eqb (Js.lower_char c) (Js.lower_char a)).

Fixpoint lit (s : string) : regex :=
  match s with
  | EmptyString => Eps
  | String a s' => Cat (chr a) (lit s')
  end.

Fixpoint lit_i (s : string) : regex :=
  match s with
  | EmptyString => Eps
  | String a s' => Cat (chr_i a) (lit_i s')
  end.

Fixpoint alts (rs : list regex) : regex :=
  match rs with
  | [] => Void
  | [r] => r
  | r :: rs' => Alt r (alts rs')
  end.

Definition opt (r : regex) : regex := Alt r Eps.
Definition spaces : regex := Star (Cls Js.is_space).
Definition any : regex := Cls (fun _ => true).

(** The class of the two quote characters, single and double. *)
Definition quote : regex :=
  Cls (fun c => Ascii.eqb c "'"%char || Ascii.eqb c Js.dquote).

Fixpoint seq (rs : list regex) : regex :=
  match rs with
  | [] => Eps
  | [r] => r
  | r :: rs' => Cat r (seq rs')
  end.

(** [.] : any character but a line terminator. *)
Definition dot : regex := Cls (fun c => negb (Js.is_line_terminator c)).
Definition digit : regex := Cls Js.is_digit.

(** The length of the longest prefix of [s] in the language, [n] characters
    having been read already. *)
Fixpoint longest (r : regex) (s : string) (n : nat) (best : option nat) : option nat :=
  let best' := if nullable r then Some n else best in
  match s with
  | EmptyString => best'
  | String c s' => if is_void r then best' else longest (deriv c r) s' (S n) best'
  end.

Definition longest_prefix (r : regex) (s : string) : option nat := longest r s 0 None.

(** The end of the match at the first position of [s] where one starts, [i]
    being the index of [s] in the whole subject. *)
Fixpoint search_end (r : regex) (s : string) (i : nat) : option nat :=
  match longest_prefix r s with
  | Some n => Some (i + n)
  | None =>
      match s with
      | EmptyString => None
      | String _ s' => search_end r s' (S i)
      end
  end.

(** [re.test(s)] for a pattern with the [g] flag whose match at a position
    is the longest one there: the search starts at [lastIndex]; the answer
    comes with the new [lastIndex], the end of the match or 0. *)
Definition test_global (r : regex) (lastIndex : nat) (s : string) : bool * nat :=
  match Js.dropChars lastIndex s with
  | None => (false, 0)
  | Some rest =>
      match search_end r rest lastIndex with
      | Some e => (true, e)
      | None => (false, 0)
      end
  end.

(** A prefix of [s] is in the language and what follows it passes [ahead]:
    a pattern that ends in a lookahead. *)
Fixpoint matches_prefix_then (r : regex) (ahead : string -> bool) (s : string) : bool :=
  (nullable r && ahead s) ||
  match s with
  | EmptyString => false
  | String c s' =>
      if is_void r then false else matches_prefix_then (deriv c r) ahead s'
  end.

Fixpoint test_then (r : regex) (ahead : string -> bool) (s : string) : bool :=
  matches_prefix_then r ahead s ||
  match s with
  | EmptyString => false
  | String _ s' => test_then r ahead s'
  end.

End Re.

(* ================================================================== *)
(** * SemanticCompressionEngine *)
(* ================================================================== *)

Module Compression.

Inductive Role : Type := user | assistant | system.

Definition role_name (r : Role) : string :=
  match r with
  | user => "user"
  | assistant => "assistant"
  | system => "system"
  end.

Record Metadata : Type := mkMetadata {
  concept : option string;
  subject : option string;
  visualizationType : option string;
  importance : option Q
}.

Record ConversationTurn : Type := mkTurn {
  role : Role;
  content : string;
  timestamp : Z;
  metadata : option Metadata
}.

(** One entry of the array [extractKeyDecisions] builds. *)
Record Decision : Type := mkDecision {
  dec_content : string;
  dec_type : Role;
  dec_importance : Q
}.

Record MemoryLayer : Type := mkMemory {
  activeContext : list ConversationTurn;
  projectMemory : list (string * list Decision);
  semanticCache : list (string * string);
  educationalConcepts : list string
}.

Record CompressionResult : Type := mkResult {
  compressed : list ConversationTurn;
  compressionRatio : Js.Number;
  preservedConcepts : list string;
  tokenCount : nat
}.

Definition MAX_ACTIVE_TURNS : nat := 10.

(** The state of a freshly constructed engine. *)
Definition emptyMemory : MemoryLayer := mkMemory [] [] [] [].

(** ** Topic segmentation *)

Definition words_i (ws : list string) : Re.regex := Re.alts (map Re.lit_i ws).

Definition topicPatterns : list (string * Re.regex) :=
  [ ("physics", words_i ["pendulum"; "wave"; "motion"; "force"; "energy"; "momentum"]);
    ("math", words_i ["derivative"; "integral"; "calculus"; "algebra"; "geometry"; "vector"]);
    ("chemistry", words_i ["molecule"; "reaction"; "element"; "compound"; "periodic"]);
    ("visualization", words_i ["d3"; "chart"; "graph"; "animation"; "interactive"]) ].

Fixpoint firstPattern (ps : list (string * Re.regex)) (text : string) : string :=
  match ps with
  | [] => "general"
  | (topic, pattern) :: ps' =>
      if Re.test pattern text then topic else firstPattern ps' text
  end.

(** [turn.metadata?.concept], when it is a non-empty string. *)
Definition metadataConcept (turn : ConversationTurn) : option string :=
  match metadata turn with
  | Some m =>
      match concept m with
      | Some c => if String.eqb c EmptyString then None else Some c
      | None => None
      end
  | None => None
  end.

Definition extractTopic (turn : ConversationTurn) : string :=
  match metadataConcept turn with
  | Some c => c
  | None => firstPattern topicPatterns (content turn)
  end.

Definition Segments : Type := list (string * list ConversationTurn).

Definition segmentStep (segments : Segments) (turn : ConversationTurn) : Segments :=
  let currentTopic := extractTopic turn in
  let segments1 :=
    if Js.map_has currentTopic segments then segments
    else Js.map_set currentTopic [] segments in
  match Js.map_get currentTopic segments1 with
  | Some turns => Js.map_set currentTopic (turns ++ [turn]) segments1
  | None => segments1
  end.

Definition segmentByTopics (history : list ConversationTurn) : Segments :=
  fold_left segmentStep history [].

(** ** Key decisions *)

Definition fillers : list string :=
  ["basically"; "actually"; "just"; "really"; "very"; "quite"].

(** When [s] starts with [w] in either case, what follows [w]. *)
Fixpoint stripPrefix_i (w s : string) : option string :=
  match w, s with
  | EmptyString, _ => Some s
  | String a w', String b s' =>
      if Ascii.eqb (Js.lower_char a) (Js.lower_char b) then stripPrefix_i w' s'
      else None
  | String _ _, EmptyString => None
  end.

Definition wordEndsHere (rest : string) : bool :=
  match rest with
  | EmptyString => true
  | String c _ => negb (Js.is_word c)
  end.

(** The length of the filler word that starts at [s] and ends at a word
    boundary, if there is one. *)
Fixpoint fillerAt (ws : list string) (s : string) : option nat :=
  match ws with
  | [] => None
  | w :: ws' =>
      match stripPrefix_i w s with
      | Some rest => if wordEndsHere rest then Some (String.length w) else fillerAt ws' s
      | None => fillerAt ws' s
      end
  end.

(** [.replace(/\b(basically|actually|just|really|very|quite)\b/gi, '')]:
    [skip] characters of a matched word remain to be dropped, [prevWord]
    tells whether the character before [s] is a word character. *)
Fixpoint removeFillers (skip : nat) (prevWord : bool) (s : string) : string :=
  match s with
  | EmptyString => EmptyString
  | String c s' =>
      match skip with
      | S k => removeFillers k (Js.is_word c) s'
      | O =>
          match (if prevWord then None else fillerAt fillers s) with
          | Some (S k) => removeFillers k (Js.is_word c) s'
          | _ => String c (removeFillers 0 (Js.is_word c) s')
          end
      end
  end.

(** [.replace(/\s+/g, ' ')]. *)
Fixpoint collapseSpaces (inRun : bool) (s : string) : string :=
  match s with
  | EmptyString => EmptyString
  | String c s' =>
      if Js.is_space c
      then (if inRun then collapseSpaces true s'
            else String " "%char (collapseSpaces true s'))
      else String c (collapseSpaces false s')
  end.

Definition isTerminator (c : ascii) : bool :=
  Ascii.eqb c "."%char || Ascii.eqb c "!"%char || Ascii.eqb c "?"%char.

(** [.split(/[.!?]+/)]. *)
Fixpoint splitSentences (inSep : bool) (s cur : string) : list string :=
  match s with
  | EmptyString => [Js.rev_string cur]
  | String c s' =>
      if isTerminator c
      then (if inSep then splitSentences true s' EmptyString
            else Js.rev_string cur :: splitSentences true s' EmptyString)
      else splitSentences false s' (String c cur)
  end.

Definition nonBlank (s : string) : bool :=
  negb (String.eqb (Js.trim s) EmptyString).

Definition extractCoreInformation (text : string) : string :=
  let compressed := Js.trim (collapseSpaces false (removeFillers 0 false text)) in
  let sentences := filter nonBlank (splitSentences false compressed EmptyString) in
  if 3 <? List.length sentences
  then hd EmptyString sentences +++ ". [...] " +++ last sentences EmptyString +++ "."
  else compressed.

Definition isParameterDefinition : Re.regex :=
  words_i ["set"; "define"; "configure"; "parameter"].
Definition isFormulaExplanation : Re.regex :=
  words_i ["formula"; "equation"; "calculate"].
Definition isVisualizationSpec : Re.regex :=
  words_i ["create"; "generate"; "show"; "display"].

(** [turn.metadata?.importance || 0.8]. *)
Definition decisionImportance (turn : ConversationTurn) : Q :=
  match metadata turn with
  | Some m =>
      match importance m with
      | Some q => if Qeq_bool q 0 then (8 # 10)%Q else q
      | None => (8 # 10)%Q
      end
  | None => (8 # 10)%Q
  end.

Definition isKeyTurn (turn : ConversationTurn) : bool :=
  Re.test isParameterDefinition (content turn)
  || Re.test isFormulaExplanation (content turn)
  || Re.test isVisualizationSpec (content turn).

Fixpoint extractKeyDecisions (turns : list ConversationTurn) : list Decision :=
  match turns with
  | [] => []
  | turn :: rest =>
      if isKeyTurn turn
      then mkDecision (extractCoreInformation (content turn)) (role turn)
                      (decisionImportance turn)
           :: extractKeyDecisions rest
      else extractKeyDecisions rest
  end.

(** ** Redundancy compression *)

Definition keepWordOrSpace (c : ascii) : bool := Js.is_word c || Js.is_space c.

Fixpoint filterChars (p : ascii -> bool) (s : string) : string :=
  match s with
  | EmptyString => EmptyString
  | String c s' => if p c then String c (filterChars p s') else filterChars p s'
  end.

Definition simplifyContent (text : string) : string :=
  Js.trim (collapseSpaces false (filterChars keepWordOrSpace (Js.toLowerCase text))).

Definition wordSet (s : string) : list string := Js.set_of_list (Js.split_space s).

(** The sizes of the intersection and of the union of the two word sets. *)
Definition similarityCounts (str1 str2 : string) : nat * nat :=
  let words1 := wordSet str1 in
  let words2 := wordSet str2 in
  let intersection := Js.set_of_list (filter (fun x => Js.set_has x words2) words1) in
  let union := Js.set_of_list (words1 ++ words2) in
  (List.length intersection, List.length union).

Definition calculateSimilarity (str1 str2 : string) : Js.Number :=
  let '(i, u) := similarityCounts str1 str2 in Js.div_counts i u.

(** [calculateSimilarity(str1, str2) > 0.85]; a comparison with [NaN] is
    false.  The quotient of two set sizes is compared exactly: a quotient
    other than 17/20 differs from it by at least 1/(20 * size), far more than
    the rounding of a double. *)
Definition exceeds085 (x : Js.Number) : bool :=
  match x with
  | Js.Finite q => Js.Qltb (85 # 100) q
  | Js.Infinity => true
  | Js.NaN => false
  end.

Definition similar (str1 str2 : string) : bool :=
  exceeds085 (calculateSimilarity str1 str2).

Definition isDuplicate (simplified : string) (uniqueContents : list string) : bool :=
  existsb (fun existing => similar simplified existing) uniqueContents.

(** The inner loop of [compressRedundantInfo]: the set [uniqueContents] and
    the array [compressed] after all [turns] of one topic. *)
Fixpoint dedupLoop (turns : list ConversationTurn)
         (uniqueContents : list string) (kept : list ConversationTurn)
  : list string * list ConversationTurn :=
  match turns with
  | [] => (uniqueContents, kept)
  | turn :: rest =>
      let simplified := simplifyContent (content turn) in
      if isDuplicate simplified uniqueContents
      then dedupLoop rest uniqueContents kept
      else dedupLoop rest (Js.set_add simplified uniqueContents) (kept ++ [turn])
  end.

(** The turns of one topic that redundancy compression retains. *)
Definition retained (turns : list ConversationTurn) : list ConversationTurn :=
  snd (dedupLoop turns [] []).

Definition cacheStep (cache : list (string * string))
           (entry : string * list ConversationTurn) : list (string * string) :=
  let '(topic, turns) := entry in
  let kept := retained turns in
  if List.length kept <? List.length turns
  then Js.map_set topic (Js.join Js.newline (map content kept)) cache
  else cache.

Definition compressRedundantInfo (segments : Segments)
           (cache : list (string * string)) : list (string * string) :=
  fold_left cacheStep segments cache.

(** ** Memory layers *)

(** [xs.slice(-n)]. *)
Definition lastN {A : Type} (n : nat) (xs : list A) : list A :=
  skipn (List.length xs - n) xs.

Definition memoryStep (acc : list (string * list Decision) * list string)
           (entry : string * list ConversationTurn)
  : list (string * list Decision) * list string :=
  let '(topic, turns) := entry in
  let keyDecisions := extractKeyDecisions turns in
  let project :=
    if 0 <? List.length keyDecisions
    then Js.map_set topic keyDecisions (fst acc) else fst acc in
  let concepts :=
    if negb (String.eqb topic "general")
    then Js.set_add topic (snd acc) else snd acc in
  (project, concepts).

Definition updateMemoryLayers (segments : Segments) (mem : MemoryLayer) : MemoryLayer :=
  let allTurns := List.concat (map snd segments) in
  let pc := fold_left memoryStep segments (projectMemory mem, educationalConcepts mem) in
  mkMemory (lastN MAX_ACTIVE_TURNS allTurns)
           (fst pc)
           (compressRedundantInfo segments (semanticCache mem))
           (snd pc).

(** ** The same loops, one layer at a time

    [memoryStep] writes two layers in one pass and [cacheStep] a third; each
    is an instance of [Js.writeStep] or of [conceptStep] below. *)

Definition wantsDecisions (turns : list ConversationTurn) : bool :=
  0 <? List.length (extractKeyDecisions turns).

Definition conceptStep (concepts : list string)
           (entry : string * list ConversationTurn) : list string :=
  if negb (String.eqb (fst entry) "general")
  then Js.set_add (fst entry) concepts else concepts.

Definition wantsCache (turns : list ConversationTurn) : bool :=
  List.length (retained turns) <? List.length turns.

Definition cacheValue (turns : list ConversationTurn) : string :=
  Js.join Js.newline (map content (retained turns)).

(** ** Notions used to state what redundancy compression retains *)

Inductive Subsequence {A : Type} : list A -> list A -> Prop :=
| sub_nil : Subsequence [] []
| sub_skip x l1 l2 : Subsequence l1 l2 -> Subsequence l1 (x :: l2)
| sub_take x l1 l2 : Subsequence l1 l2 -> Subsequence (x :: l1) (x :: l2).

Definition simplified (t : ConversationTurn) : string := simplifyContent (content t).

(** Neither of the two turns is more than 0.85 similar to the other. *)
Definition distinctEnough (a b : ConversationTurn) : Prop :=
  similar (simplified a) (simplified b) = false.

(** A turn without its timestamp. *)
Definition untimed (t : ConversationTurn) : ConversationTurn :=
  mkTurn (role t) (content t) 0%Z (metadata t).

(** ** Assembly under the token budget *)

Section Budget.

(** [encode(text).length] of the gpt-tokenizer package. *)
Variable encode_length : string -> nat.

(** [JSON.stringify] on an array of decisions. *)
Variable JSON_stringify : list Decision -> string.

Definition turnLine (t : ConversationTurn) : string :=
  role_name (role t) +++ ": " +++ content t.

Definition countTokens (turns : list ConversationTurn) : nat :=
  encode_length (Js.join Js.newline (map turnLine turns)).

(** The local variables of [priorityBasedCompression]: the array
    [compressed], the counter [currentTokens], and how many times
    [Date.now()] has been read so far in this call. *)
Record Assembly : Type := mkAssembly {
  out : list ConversationTurn;
  currentTokens : nat;
  clockReads : nat
}.

Definition accept (a : Assembly) (turn : ConversationTurn) (tokens : nat) : Assembly :=
  mkAssembly (out a ++ [turn]) (currentTokens a + tokens) (clockReads a).

Definition tick (a : Assembly) : Assembly :=
  mkAssembly (out a) (currentTokens a) (S (clockReads a)).

Definition activeStep (maxTokens : Z) (a : Assembly) (turn : ConversationTurn) : Assembly :=
  let tokens := countTokens [turn] in
  if (Z.of_nat (currentTokens a + tokens) <=? maxTokens)%Z
  then accept a turn tokens else a.

Definition summaryTurn (now : Z) (topic : string) (decisions : list Decision)
  : ConversationTurn :=
  mkTurn system
         ("[" +++ topic +++ " context]: " +++ JSON_stringify decisions)
         now
         (Some (mkMetadata (Some topic) None None (Some (9 # 10)%Q))).

Definition projectStep (now : nat -> Z) (maxTokens : Z) (a : Assembly)
           (entry : string * list Decision) : Assembly :=
  let '(topic, decisions) := entry in
  let turn := summaryTurn (now (clockReads a)) topic decisions in
  let a1 := tick a in
  let tokens := countTokens [turn] in
  if (Z.of_nat (currentTokens a1 + tokens) <=? maxTokens)%Z
  then accept a1 turn tokens else a1.

Definition cacheTurn (now : Z) (topic cachedContent : string) : ConversationTurn :=
  mkTurn system
         ("[" +++ topic +++ " summary]: " +++ cachedContent)
         now
         (Some (mkMetadata (Some topic) None None (Some (7 # 10)%Q))).

(** The bound of the third tier is [maxTokens * 0.9].  With an integer on the
    left the comparison is [10 * (currentTokens + tokens) <= 9 * maxTokens]:
    the double nearest to 0.9 lies above 0.9 by less than 3e-17, so for
    budgets below 2^49 the rounded product falls on the same side of every
    integer as the exact one. *)
Definition cacheTierStep (now : nat -> Z) (maxTokens : Z) (a : Assembly)
           (entry : string * string) : Assembly :=
  let '(topic, cachedContent) := entry in
  let turn := cacheTurn (now (clockReads a)) topic cachedContent in
  let a1 := tick a in
  let tokens := countTokens [turn] in
  if (10 * Z.of_nat (currentTokens a1 + tokens) <=? 9 * maxTokens)%Z
  then accept a1 turn tokens else a1.

Definition assemble (now : nat -> Z) (maxTokens : Z) (mem : MemoryLayer) : Assembly :=
  let a1 := fold_left (activeStep maxTokens) (activeContext mem) (mkAssembly [] 0 0) in
  let a2 := fold_left (projectStep now maxTokens) (projectMemory mem) a1 in
  fold_left (cacheTierStep now maxTokens) (semanticCache mem) a2.

(** [now k] is the value of the [k]-th reading of [Date.now()] in the call. *)
Definition priorityBasedCompression (now : nat -> Z) (maxTokens : Z)
           (mem : MemoryLayer) : list ConversationTurn :=
  out (assemble now maxTokens mem).

(** [compressContext]: the result and the engine's memory after the call. *)
Definition compressContext (now : nat -> Z)
           (conversationHistory : list ConversationTurn) (maxTokens : Z)
           (mem : MemoryLayer) : CompressionResult * MemoryLayer :=
  let segments := segmentByTopics conversationHistory in
  let mem' := updateMemoryLayers segments mem in
  let compressed := priorityBasedCompression now maxTokens mem' in
  let originalTokens := countTokens conversationHistory in
  let compressedTokens := countTokens compressed in
  (mkResult compressed
            (Js.div_counts compressedTokens originalTokens)
            (educationalConcepts mem')
            compressedTokens,
   mem').

(** The token sizes the budget loop adds up: each turn counted on its own. *)
Definition perTurnTokens (turns : list ConversationTurn) : nat :=
  fold_right (fun t n => countTokens [t] + n) 0 turns.

(** What every iteration of the three loops preserves: the counter is the
    sum of the sizes of the accepted turns, and it is within the budget. *)
Definition withinBudget (maxTokens : Z) (a : Assembly) : Prop :=
  perTurnTokens (out a) = currentTokens a
  /\ (Z.of_nat (currentTokens a) <= maxTokens)%Z.

(** Two states of the loop that differ at most in timestamps. *)
Definition sameButTimes (a b : Assembly) : Prop :=
  map untimed (out a) = map untimed (out b)
  /\ currentTokens a = currentTokens b.

(** A turn that [priorityBasedCompression] builds itself, before the clock
    stamps it: the summary of the decisions stored under a topic, or of the
    text cached under a topic. *)
Inductive Synthetic : Type :=
| DecisionSummary (topic : string) (decisions : list Decision)
| CacheSummary (topic cachedContent : string).

Definition stamped (now : Z) (s : Synthetic) : ConversationTurn :=
  match s with
  | DecisionSummary topic decisions => summaryTurn now topic decisions
  | CacheSummary topic cachedContent => cacheTurn now topic cachedContent
  end.

(** The synthetic turns of a run whose [k]-th reading of the clock is
    [now k]: each planned turn, stamped with the reading planned for it. *)
Definition stampAll (now : nat -> Z) (plan : list (nat * Synthetic))
  : list ConversationTurn :=
  map (fun p => stamped (now (fst p)) (snd p)) plan.

(** Two states of the loop in two runs, one with the clock [now1] and one
    with [now2]: the same turns [kept] of the history, followed by the same
    planned turns, stamped by the clock of each run. *)
Definition sameButStamps (now1 now2 : nat -> Z) (kept : list ConversationTurn)
           (a b : Assembly) : Prop :=
  clockReads a = clockReads b
  /\ currentTokens a = currentTokens b
  /\ exists plan,
      out a = kept ++ stampAll now1 plan /\ out b = kept ++ stampAll now2 plan.

(** No turn that [priorityBasedCompression] considers fits the budget on its
    own: no turn of the active context, no summary of a project-memory
    entry, and no summary of a cache entry under its bound of nine tenths.
    The size of a summary does not depend on its timestamp. *)
Definition nothingFits (maxTokens : Z) (mem : MemoryLayer) : Prop :=
  (forall t, In t (activeContext mem) -> (maxTokens < Z.of_nat (countTokens [t]))%Z)
  /\ (forall topic decisions,
        In (topic, decisions) (projectMemory mem) ->
        (maxTokens < Z.of_nat (countTokens [summaryTurn 0 topic decisions]))%Z)
  /\ (forall topic cachedContent,
        In (topic, cachedContent) (semanticCache mem) ->
        (9 * maxTokens
         < 10 * Z.of_nat (countTokens [cacheTurn 0 topic cachedContent]))%Z).

(** While nothing has been accepted the counter is 0. *)
Definition emptyHanded (a : Assembly) : Prop :=
  out a = [] -> currentTokens a = 0.

End Budget.

(** ** Persistence of the memory *)

(** A [Partial<MemoryLayer>]: every layer is present or missing. *)
Record PartialMemory : Type := mkPartial {
  savedActiveContext : option (list ConversationTurn);
  savedProjectMemory : option (list (string * list Decision));
  savedSemanticCache : option (list (string * string));
  savedEducationalConcepts : option (list string)
}.

(** [getMemoryState]: the layers, with the maps and the set copied. *)
Definition getMemoryState (mem : MemoryLayer) : MemoryLayer :=
  mkMemory (activeContext mem) (projectMemory mem) (semanticCache mem)
           (educationalConcepts mem).

(** A complete state handed to [restoreMemoryState]. *)
Definition allLayers (state : MemoryLayer) : PartialMemory :=
  mkPartial (Some (activeContext state)) (Some (projectMemory state))
            (Some (semanticCache state)) (Some (educationalConcepts state)).

Definition restoreMemoryState (state : PartialMemory) (mem : MemoryLayer) : MemoryLayer :=
  mkMemory
    (match savedActiveContext state with Some a => a | None => activeContext mem end)
    (match savedProjectMemory state with Some p => p | None => projectMemory mem end)
    (match savedSemanticCache state with Some c => c | None => semanticCache mem end)
    (match savedEducationalConcepts state with
     | Some e => e | None => educationalConcepts mem end).

(** The turns of a history that [extractTopic] files under [topic]. *)
Definition hasTopic (topic : string) (turn : ConversationTurn) : bool :=
  String.eqb (extractTopic turn) topic.

(** [segments.get(topic)], with no turns for a topic that is absent. *)
Definition segmentOf (segments : Segments) (topic : string) : list ConversationTurn :=
  match Js.map_get topic segments with Some turns => turns | None => [] end.

(** ** The shape of a simplified text *)

(** A lower-case letter, a digit, an underscore or a blank. *)
Definition plainChar (c : ascii) : bool :=
  Js.is_lower c || Js.is_digit c || (Js.code c =? 95) || Ascii.eqb c " "%char.

Fixpoint allChars (p : ascii -> bool) (s : string) : bool :=
  match s with
  | EmptyString => true
  | String c s' => p c && allChars p s'
  end.

Definition headIs (p : ascii -> bool) (s : string) : bool :=
  match s with
  | String c _ => p c
  | EmptyString => false
  end.

End Compression.

(* ================================================================== *)
(** * EducationalModelRouter *)
(* ================================================================== *)

Module Router.

Inductive ModelType : Type := fast | educational | validation | custom.

Inductive OptimizationGoal : Type := cost_optimized | balanced | quality_focused.

Inductive TaskType : Type :=
| simple_parameter_adjustment
| visualization_generation
| complex_educational_concept
| scientific_validation
| interactive_features.

Inductive Provider : Type := openai | anthropic | local.

Definition ModelType_eqb (a b : ModelType) : bool :=
  match a, b with
  | fast, fast | educational, educational
  | validation, validation | custom, custom => true
  | _, _ => false
  end.

Definition TaskType_eqb (a b : TaskType) : bool :=
  match a, b with
  | simple_parameter_adjustment, simple_parameter_adjustment
  | visualization_generation, visualization_generation
  | complex_educational_concept, complex_educational_concept
  | scientific_validation, scientific_validation
  | interactive_features, interactive_features => true
  | _, _ => false
  end.

Definition taskName (t : TaskType) : string :=
  match t with
  | simple_parameter_adjustment => "simple_parameter_adjustment"
  | visualization_generation => "visualization_generation"
  | complex_educational_concept => "complex_educational_concept"
  | scientific_validation => "scientific_validation"
  | interactive_features => "interactive_features"
  end.

Record ModelConfig : Type := mkModel {
  name : string;
  provider : Provider;
  model : string;
  costPerToken : Q;
  latency : nat;
  capabilities : list TaskType
}.

Record RoutingDecision : Type := mkDecision {
  chosen : ModelConfig;
  reason : string;
  estimatedCost : Q;
  estimatedLatency : nat;
  confidence : Q
}.

Record UsageMetrics : Type := mkMetrics {
  totalRequests : nat;
  totalCost : Q;
  modelUsage : list (string * nat);
  averageLatency : Q
}.

Definition initialMetrics : UsageMetrics := mkMetrics 0 0%Q [] 0%Q.

(** [capabilities.has(taskType)]. *)
Definition has (caps : list TaskType) (t : TaskType) : bool :=
  existsb (TaskType_eqb t) caps.

Definition routingThresholds (g : OptimizationGoal) : Q :=
  match g with
  | cost_optimized => (11593 # 100000)%Q
  | balanced => (8 # 100)%Q
  | quality_focused => (5 # 100)%Q
  end.

Definition taskComplexityScores (t : TaskType) : Q :=
  match t with
  | simple_parameter_adjustment => (2 # 10)%Q
  | visualization_generation => (5 # 10)%Q
  | complex_educational_concept => (8 # 10)%Q
  | scientific_validation => (9 # 10)%Q
  | interactive_features => (6 # 10)%Q
  end.

(** The catalog, in the order the constructor inserts the tiers. *)
Definition initializeModels : list (ModelType * ModelConfig) :=
  [ (fast,
     mkModel "gpt-3.5-turbo" openai "gpt-3.5-turbo" (5 # 10000)%Q 300
             [simple_parameter_adjustment; visualization_generation]);
    (educational,
     mkModel "gpt-3.5-turbo-16k" openai "gpt-3.5-turbo-16k" (1 # 1000)%Q 400
             [visualization_generation; complex_educational_concept;
              interactive_features]);
    (validation,
     mkModel "gpt-4" openai "gpt-4" (3 # 100)%Q 800
             [scientific_validation; complex_educational_concept]) ].

Fixpoint models_get (models : list (ModelType * ModelConfig)) (k : ModelType)
  : option ModelConfig :=
  match models with
  | [] => None
  | (k', m) :: rest => if ModelType_eqb k' k then Some m else models_get rest k
  end.

Record PromptAnalysis : Type := mkAnalysis {
  requiresHighAccuracy : bool;
  isVisualizationTask : bool;
  hasComplexMath : bool
}.

Definition words_i (ws : list string) : Re.regex := Re.alts (map Re.lit_i ws).

Definition visualise_i : Re.regex :=
  Re.seq [Re.lit_i "visuali";
          Re.Alt (Re.chr_i "s"%char) (Re.chr_i "z"%char);
          Re.chr_i "e"%char].

Definition analyzePrompt (prompt : string) : PromptAnalysis :=
  mkAnalysis
    (Re.test (words_i ["scientifically accurate"; "precise"; "exact"; "formula"]) prompt)
    (Re.test (Re.Alt visualise_i
                     (words_i ["show"; "display"; "animate"; "interactive"])) prompt)
    (Re.test (words_i ["integral"; "derivative"; "differential"; "quantum";
                       "relativity"]) prompt).

Fixpoint findCapableModel (models : list (ModelType * ModelConfig)) (taskType : TaskType)
  : option ModelConfig :=
  match models with
  | [] => None
  | (_, m) :: rest =>
      if has (capabilities m) taskType then Some m else findCapableModel rest taskType
  end.

(** [Math.ceil(text.length / 4)]. *)
Definition estimateTokens (text : string) : nat :=
  (String.length text + 3) / 4.

Definition calculateConfidence (m : ModelConfig) (taskType : TaskType) (complexity : Q) : Q :=
  let c0 := (5 # 10)%Q in
  let c1 := if has (capabilities m) taskType then (c0 + (3 # 10))%Q else c0 in
  let c2 :=
    if Js.Qltb complexity (3 # 10) && Js.includes "fast" (name m)
    then (c1 + (2 # 10))%Q
    else if Js.Qltb (7 # 10) complexity && Js.includes "validation" (name m)
    then (c1 + (2 # 10))%Q
    else c1 in
  Qmin c2 1.

Definition usageOf (modelName : string) (usage : list (string * nat)) : nat :=
  match Js.map_get modelName usage with Some n => n | None => 0 end.

Definition updateMetrics (modelName : string) (cost : Q) (u : UsageMetrics) : UsageMetrics :=
  mkMetrics (S (totalRequests u))
            (totalCost u + cost)%Q
            (Js.map_set modelName (usageOf modelName (modelUsage u) + 1) (modelUsage u))
            (averageLatency u).

(** The tier picked before the capability check, with its justification. *)
Definition firstChoice (taskType : TaskType) (userPrompt : string)
           (optimizationGoal : OptimizationGoal) : ModelType * string :=
  let complexity := taskComplexityScores taskType in
  let threshold := routingThresholds optimizationGoal in
  let promptAnalysis := analyzePrompt userPrompt in
  if Js.Qltb threshold complexity || requiresHighAccuracy promptAnalysis
  then (validation, "Complex educational concept requiring high accuracy")
  else if isVisualizationTask promptAnalysis && Js.Qltb (3 # 10) complexity
  then (educational, "D3.js visualization generation task")
  else (fast, "Simple parameter adjustment or basic task").

(** [routeRequest]; [None] stands for the exception raised when the picked
    tier is missing from the catalog. *)
Definition routeRequest (models : list (ModelType * ModelConfig))
           (taskType : TaskType) (userPrompt context : string)
           (optimizationGoal : OptimizationGoal) (usage : UsageMetrics)
  : option (RoutingDecision * UsageMetrics) :=
  let complexity := taskComplexityScores taskType in
  let '(tier, reason0) := firstChoice taskType userPrompt optimizationGoal in
  match models_get models tier with
  | None => None
  | Some selected0 =>
      let '(selectedModel, reason) :=
        if negb (has (capabilities selected0) taskType)
        then (match findCapableModel models taskType with
              | Some m => m
              | None => selected0
              end,
              "Fallback: original model not capable of " +++ taskName taskType)
        else (selected0, reason0) in
      let estimatedTokens := estimateTokens (userPrompt +++ context) in
      let estimatedCost := (inject_Z (Z.of_nat estimatedTokens) * costPerToken selectedModel)%Q in
      Some (mkDecision selectedModel reason estimatedCost (latency selectedModel)
                       (calculateConfidence selectedModel taskType complexity),
            updateMetrics (name selectedModel) estimatedCost usage)
  end.

(** The router as constructed: the built-in catalog. *)
Definition route (taskType : TaskType) (userPrompt context : string)
           (optimizationGoal : OptimizationGoal) (usage : UsageMetrics)
  : option (RoutingDecision * UsageMetrics) :=
  routeRequest initializeModels taskType userPrompt context optimizationGoal usage.

(** The reason string says that a fallback occurred. *)
Definition indicatesFallback (reason : string) : bool :=
  Js.startsWith "Fallback:" reason.

End Router.

(* ================================================================== *)
(** * StreamingValidator *)
(* ================================================================== *)

Module Validator.

Inductive ErrorType : Type := syntax | semantic | educational | performance.

Inductive Severity : Type := error | warning | info.

Record ValidationError : Type := mkError {
  type : ErrorType;
  severity : Severity;
  message : string;
  line : option nat;
  column : option nat;
  suggestion : option string
}.

Record ValidationResult : Type := mkValidation {
  isValid : bool;
  errors : list ValidationError;
  warnings : list ValidationError;
  suggestions : list string;
  scientificAccuracy : option float;
  pedagogicalQuality : option float
}.

(** ** What the parser hands back *)

Record ParseOptions : Type := mkOptions {
  ecmaVersion : nat;
  sourceType : string;
  allowImportExportEverywhere : bool;
  locations : bool
}.

(** [node.arguments[0]?.value] of a call: absent (no argument, or an argument
    that is not a literal, or the literal [null]), a string, or a literal of
    another kind (number, boolean, regular expression). *)
Inductive ArgumentValue : Type :=
| NoValue
| StringValue (s : string)
| OtherValue.

(** The fields of a [CallExpression] node that the visitor reads. *)
Record CallExpression : Type := mkCall {
  calleeProperty : option string;   (* node.callee.property?.name *)
  firstArgument : ArgumentValue;
  startLine : option nat            (* node.loc?.start.line *)
}.

(** [acorn.parse] either throws a [SyntaxError] or returns a tree; of the tree
    the code only walks the [CallExpression] nodes, here in the order the simple
    walker of acorn-walk reaches them. *)
Inductive ParseOutcome : Type :=
| Parsed (calls : list CallExpression)
| SyntaxError (msg : string) (loc : option (nat * nat)).

(** ** Patterns

    Two suggestion texts of the source carry non-ASCII symbols (a superscript
    two, pi and a root sign); they are spelled in ASCII below. *)

Definition hasVisualizationContainer : Re.regex :=
  Re.Alt (Re.lit "#visualization")
         (Re.seq [Re.lit ".select("; Re.quote; Re.lit "#visualization"]).

Definition usesD3 : Re.regex :=
  Re.Alt (Re.lit "d3.") (Re.seq [Re.lit "import"; Re.Star Re.dot; Re.lit "d3"]).

Definition hasInteractivity : Re.regex :=
  Re.seq [Re.lit ".on("; Re.quote;
          Re.alts [Re.lit "click"; Re.lit "mouseover"; Re.lit "mousemove"; Re.lit "drag"]].

Definition hasAnimation : Re.regex :=
  Re.alts [Re.lit "transition("; Re.lit "requestAnimationFrame"; Re.lit "animate"].

Definition hasLabels : Re.regex :=
  Re.Alt (Re.lit ".text(") (Re.seq [Re.lit ".append("; Re.quote; Re.lit "text"]).

Definition hasScales : Re.regex :=
  Re.Cat (Re.lit "scale")
         (Re.alts [Re.lit "Linear"; Re.lit "Log"; Re.lit "Time"; Re.lit "Ordinal"]).

Definition hasAccessibility : Re.regex :=
  Re.Alt (Re.lit "aria-") (Re.lit "role=").

Definition zeroOrOne : Re.regex :=
  Re.Cls (fun c => Ascii.eqb c "0"%char || Ascii.eqb c "1"%char).

Definition gravity : Re.regex :=
  Re.seq [Re.chr "g"%char; Re.spaces; Re.chr "="%char; Re.spaces;
          Re.Alt (Re.Cat (Re.lit "9.8") (Re.opt zeroOrOne)) (Re.lit "10")].

Definition pendulumFormula : Re.regex :=
  Re.seq [Re.chr "2"%char; Re.spaces; Re.chr "*"%char; Re.spaces; Re.lit "Math.PI";
          Re.spaces; Re.chr "*"%char; Re.spaces; Re.lit "Math.sqrt"].

(** [/^#[a-zA-Z][\w-]*$/] *)
Definition idSelector : Re.regex :=
  Re.seq [Re.chr "#"%char; Re.Cls Js.is_alpha;
          Re.Star (Re.Cls (fun c => Js.is_word c || Ascii.eqb c "-"%char))].

(** ** The validator object *)

Record StreamingValidator : Type := mkValidator {
  codeBuffer : string;
  validationResults : ValidationResult
}.

Definition emptyResults : ValidationResult := mkValidation true [] [] [] None None.

Definition reset (_ : StreamingValidator) : StreamingValidator :=
  mkValidator EmptyString emptyResults.

Section Passes.

(** [acorn.parse(code, options)]. *)
Variable acorn_parse : ParseOptions -> string -> ParseOutcome.

Definition syntaxOptions : ParseOptions := mkOptions 2020 "module" true false.
Definition walkOptions : ParseOptions := mkOptions 2020 "module" false true.

Definition checkSyntax (code : string) : bool * list ValidationError :=
  match acorn_parse syntaxOptions code with
  | Parsed _ => (true, [])
  | SyntaxError msg loc =>
      (false, [mkError syntax error msg (option_map fst loc) (option_map snd loc) None])
  end.

Definition isName (n : string) (p : option string) : bool :=
  match p with Some s => String.eqb s n | None => false end.

(** The [CallExpression] visitor: the warnings after the node, or [None] when
    the visitor throws (calling [startsWith] on a value that has none). *)
Definition visitCall (code : string) (node : CallExpression)
           (warnings : list ValidationError) : option (list ValidationError) :=
  let afterSelect :=
    if isName "select" (calleeProperty node) then
      match firstArgument node with
      | NoValue => Some warnings
      | OtherValue => None
      | StringValue selector =>
          if Js.startsWith "#" selector && negb (Re.matches idSelector selector)
          then Some (warnings ++
                     [mkError semantic warning ("Invalid ID selector: " +++ selector)
                              (startLine node) None
                              (Some "Use valid CSS ID selector syntax")])
          else Some warnings
      end
    else Some warnings in
  match afterSelect with
  | None => None
  | Some w =>
      if isName "data" (calleeProperty node)
         && negb (Js.includes ".join(" code) && negb (Js.includes ".enter(" code)
      then Some (w ++
                 [mkError semantic warning "Data binding without enter/update/exit pattern"
                          (startLine node) None
                          (Some "Consider using .join() for proper data binding")])
      else Some w
  end.

(** The walk stops at the first node whose visitor throws; the enclosing
    [try] keeps what was pushed before. *)
Fixpoint walkCalls (code : string) (nodes : list CallExpression)
         (warnings : list ValidationError) : list ValidationError :=
  match nodes with
  | [] => warnings
  | node :: rest =>
      match visitCall code node warnings with
      | Some w => walkCalls code rest w
      | None => warnings
      end
  end.

Definition performASTValidation (code : string)
  : list ValidationError * list ValidationError :=
  match acorn_parse walkOptions code with
  | Parsed calls => ([], walkCalls code calls [])
  | SyntaxError _ _ => ([], [])
  end.

(** The scores are binary64 numbers; the decrements 0.1, 0.2 and 0.3 are the
    doubles nearest to them. *)
Definition tenth : float := 0x1.999999999999ap-4.
Definition fifth : float := 0x1.999999999999ap-3.
Definition threeTenths : float := 0x1.3333333333333p-2.

Definition checkEducationalQuality (this : StreamingValidator)
  : list ValidationError * list string * float :=
  let buf := codeBuffer this in
  let '(w1, q1) :=
    if negb (Re.test hasVisualizationContainer buf)
    then ([mkError educational error "No #visualization container found" None None
                   (Some "Ensure code targets the #visualization element")],
          (1 - threeTenths)%float)
    else ([], 1%float) in
  let '(s2, q2) :=
    if negb (Re.test hasInteractivity buf)
    then (["Consider adding interactive elements for better engagement"],
          (q1 - tenth)%float)
    else ([], q1) in
  let '(w3, q3) :=
    if negb (Re.test hasLabels buf)
    then (w1 ++ [mkError educational warning "No text labels found" None None
                         (Some "Add labels to explain the visualization")],
          (q2 - fifth)%float)
    else (w1, q2) in
  let s4 :=
    if negb (Re.test hasScales buf)
    then s2 ++ ["Consider using D3 scales for proper data mapping"]
    else s2 in
  (w3, s4, Js.max0 q3).

Definition checkScientificAccuracy (this : StreamingValidator)
  : list ValidationError * float :=
  let buf := codeBuffer this in
  let '(w1, a1) :=
    if (Js.includes "gravity" buf || Js.includes "9.8" buf)
       && negb (Re.test gravity buf)
    then ([mkError educational warning "Gravity constant may be inaccurate" None None
                   (Some "Use g = 9.81 m/s^2 for Earth's gravity")],
          (1 - fifth)%float)
    else ([], 1%float) in
  let w2 :=
    if Js.includes "pendulum" buf && negb (Re.test pendulumFormula buf)
    then w1 ++ [mkError educational info "Pendulum period formula not found" None None
                        (Some "Period T = 2*pi*sqrt(L/g) for small angles")]
    else w1 in
  (w2, Js.max0 a1).

(** The number of matches of [/\.append\(/g]; two matches cannot overlap. *)
Fixpoint countOccurrences (p s : string) : nat :=
  (if Js.startsWith p s then 1 else 0) +
  match s with
  | EmptyString => 0
  | String _ s' => countOccurrences p s'
  end.

Definition appendCount (buf : string) : nat := countOccurrences ".append(" buf.

Definition checkPerformanceComplete (this : StreamingValidator) : list ValidationError :=
  let n := appendCount (codeBuffer this) in
  if 100 <? n
  then [mkError performance warning
                ("High number of append operations (" +++ Js.nat_to_string n +++ ")")
                None None
                (Some "Consider using enter/update/exit pattern for efficiency")]
  else [].

Definition checkAccessibility (this : StreamingValidator) : list string :=
  let buf := codeBuffer this in
  (if negb (Re.test hasAccessibility buf)
   then ["Consider adding ARIA labels for screen reader accessibility"] else [])
  ++
  (if Js.includes "fill" buf || Js.includes "stroke" buf
   then ["Ensure sufficient color contrast for visibility"] else []).

Definition validateComplete (this : StreamingValidator) : ValidationResult :=
  let '(syntaxOk, syntaxErrors) := checkSyntax (codeBuffer this) in
  if negb syntaxOk
  then mkValidation false syntaxErrors [] [] (Some 1%float) (Some 1%float)
  else
    let '(semErrors, semWarnings) := performASTValidation (codeBuffer this) in
    let '(eduWarnings, eduSuggestions, quality) := checkEducationalQuality this in
    let '(sciWarnings, accuracy) := checkScientificAccuracy this in
    let perfWarnings := checkPerformanceComplete this in
    let accessibility := checkAccessibility this in
    let errs := semErrors in
    mkValidation (Nat.eqb (List.length errs) 0)
                 errs
                 (semWarnings ++ eduWarnings ++ sciWarnings ++ perfWarnings)
                 (eduSuggestions ++ accessibility)
                 (Some accuracy)
                 (Some quality).

(** ** The stream *)

Inductive ChunkType : Type := code | validation | complete.

Record StreamValidationChunk : Type := mkChunk {
  chunkType : ChunkType;
  chunkContent : option string;
  chunkValidation : option ValidationResult;
  position : option nat
}.

(** What [transform] does to the validator for one chunk, and the final
    verdict it emits on the completion signal.  The per-chunk feedback that is
    attached to a code chunk reads the buffer but does not write it. *)
Definition transform (this : StreamingValidator) (chunk : StreamValidationChunk)
  : StreamingValidator * option ValidationResult :=
  match chunkType chunk, chunkContent chunk with
  | code, Some (String c s) =>
      (mkValidator (codeBuffer this +++ String c s) (validationResults this), None)
  | complete, _ => (this, Some (validateComplete this))
  | _, _ => (this, None)
  end.

(** A whole session: [reset], the code fragments in order, then the
    completion signal. *)
Definition ingest (this : StreamingValidator) (fragment : string) : StreamingValidator :=
  fst (transform this (mkChunk code (Some fragment) None None)).

Definition finalize (this : StreamingValidator) : ValidationResult :=
  validateComplete this.

Definition session (fragments : list string) : ValidationResult :=
  finalize (fold_left ingest fragments (reset (mkValidator EmptyString emptyResults))).

End Passes.

(** ** Feedback while the code arrives *)

(** [/d3\.select.*d3\.select/g]; the greedy [.*] is its only quantifier, so
    the match at a position is the longest one there. *)
Definition inefficientSelections : Re.regex :=
  Re.seq [Re.lit "d3.select"; Re.Star Re.dot; Re.lit "d3.select"].

(** [(?!\d)] *)
Definition noDigitAhead (s : string) : bool :=
  match s with
  | String c _ => negb (Js.is_digit c)
  | EmptyString => true
  end.

(** [/setInterval|setTimeout.*\d{1,2}(?!\d)/] *)
Definition heavyAnimations (s : string) : bool :=
  Re.test (Re.lit "setInterval") s
  || Re.test_then (Re.seq [Re.lit "setTimeout"; Re.Star Re.dot; Re.digit;
                           Re.opt Re.digit])
                  noDigitAhead s.

Definition looksLikeCompleteStatement (fragment : string) : bool :=
  let trimmed := Js.trim fragment in
  Js.endsWith ";" trimmed || Js.endsWith "}" trimmed || Js.endsWith ")" trimmed.

(** The validator together with the one piece of state that lives in a
    pattern object: the [lastIndex] of [inefficientSelections]. *)
Record Stream : Type := mkStream {
  validator : StreamingValidator;
  selectionsLastIndex : nat
}.

Definition newStream : Stream := mkStream (mkValidator EmptyString emptyResults) 0.

(** [reset] assigns the buffer and the stored results; the pattern object
    is not touched. *)
Definition resetStream (this : Stream) : Stream :=
  mkStream (reset (validator this)) (selectionsLastIndex this).

(** [getCurrentValidation]. *)
Definition getCurrentValidation (this : Stream) : ValidationResult :=
  validationResults (validator this).

Definition checkPerformancePatterns (lastIndex : nat) (codeFragment : string)
  : list ValidationError * nat :=
  let '(found, lastIndex') := Re.test_global inefficientSelections lastIndex codeFragment in
  ((if found
    then [mkError performance warning "Multiple D3 selections detected" None None
                  (Some "Chain selections or cache them in variables")]
    else [])
   ++
   (if heavyAnimations codeFragment
    then [mkError performance warning "Potentially heavy animation loop" None None
                  (Some "Use requestAnimationFrame for smooth animations")]
    else []),
   lastIndex').

Section Streaming.

Variable acorn_parse : ParseOptions -> string -> ParseOutcome.

(** [validateIncremental], called once the fragment is in the buffer. *)
Definition validateIncremental (this : Stream) (codeFragment : string)
  : ValidationResult * Stream :=
  let buf := codeBuffer (validator this) in
  let '(syntaxOk, syntaxErrors) :=
    if looksLikeCompleteStatement codeFragment
    then checkSyntax acorn_parse buf else (true, []) in
  let d3Warnings :=
    if negb (Re.test usesD3 buf) && (100 <? String.length buf)
    then [mkError semantic warning "No D3.js usage detected yet" None None None]
    else [] in
  let '(perfIssues, lastIndex') :=
    checkPerformancePatterns (selectionsLastIndex this) codeFragment in
  (mkValidation syntaxOk syntaxErrors (d3Warnings ++ perfIssues) [] None None,
   mkStream (validator this) lastIndex').

(** The [transform] of [createValidationStream]: the validator after the
    chunk and the chunk passed on. *)
Definition transformStream (this : Stream) (chunk : StreamValidationChunk)
  : Stream * StreamValidationChunk :=
  match chunkType chunk, chunkContent chunk with
  | code, Some (String c s) =>
      let appended :=
        mkStream (mkValidator (codeBuffer (validator this) +++ String c s)
                              (validationResults (validator this)))
                 (selectionsLastIndex this) in
      let '(feedback, after) := validateIncremental appended (String c s) in
      (after, mkChunk code (chunkContent chunk) (Some feedback) (position chunk))
  | complete, _ =>
      (this, mkChunk validation None
                     (Some (validateComplete acorn_parse (validator this))) None)
  | _, _ => (this, chunk)
  end.

(** Writing chunks in order: the validator at the end and what came out. *)
Fixpoint writeAll (this : Stream) (chunks : list StreamValidationChunk)
  : Stream * list StreamValidationChunk :=
  match chunks with
  | [] => (this, [])
  | chunk :: rest =>
      let '(this1, emitted) := transformStream this chunk in
      let '(this2, more) := writeAll this1 rest in
      (this2, emitted :: more)
  end.

End Streaming.

End Validator.

(* ================================================================== *)
(** * AdvancedEducationalOrchestrator: the callers *)
(* ================================================================== *)

Module Orchestrator.

Import Validator.

Definition analyzeTaskType (prompt : string) : Router.TaskType :=
  let lowerPrompt := Js.toLowerCase prompt in
  if Js.includes "adjust" lowerPrompt || Js.includes "change parameter" lowerPrompt
  then Router.simple_parameter_adjustment
  else if Js.includes "interactive" lowerPrompt || Js.includes "animation" lowerPrompt
  then Router.interactive_features
  else if Js.includes "prove" lowerPrompt || Js.includes "derive" lowerPrompt
  then Router.scientific_validation
  else if Js.includes "complex" lowerPrompt || Js.includes "advanced" lowerPrompt
  then Router.complex_educational_concept
  else Router.visualization_generation.

(** [fullCode.match(/.{1,100}/g) || []]: [cur] holds, reversed, the [n]
    characters of the chunk being read. *)
Fixpoint chunksFrom (s cur : string) (n : nat) : list string :=
  match s with
  | EmptyString => if n =? 0 then [] else [Js.rev_string cur]
  | String c s' =>
      if Js.is_line_terminator c
      then (if n =? 0 then chunksFrom s' EmptyString 0
            else Js.rev_string cur :: chunksFrom s' EmptyString 0)
      else if n =? 100
      then Js.rev_string cur :: chunksFrom s' (String c EmptyString) 1
      else chunksFrom s' (String c cur) (S n)
  end.

Definition codeChunks (fullCode : string) : list string :=
  chunksFrom fullCode EmptyString 0.

(** What [simulateStreamingGeneration] writes for the text the model
    returned. *)
Definition written (fullCode : string) : list StreamValidationChunk :=
  map (fun chunk => mkChunk code (Some chunk) None None) (codeChunks fullCode)
  ++ [mkChunk complete None None None].

(** The [data] handler of [generateWithStreaming]. *)
Definition onData (acc : string * option ValidationResult)
           (chunk : StreamValidationChunk) : string * option ValidationResult :=
  match chunkType chunk, chunkContent chunk, chunkValidation chunk with
  | code, Some (String c s), _ => (fst acc +++ String c s, snd acc)
  | validation, _, Some v => (fst acc, Some v)
  | _, _, _ => acc
  end.

(** [generateWithStreaming], given the text the model returns: the code and
    the verdict it resolves with, and the validator afterwards. *)
Definition generateWithStreaming
           (acorn_parse : ParseOptions -> string -> ParseOutcome)
           (this : Stream) (fullCode : string)
  : (string * option ValidationResult) * Stream :=
  let '(after, emitted) := writeAll acorn_parse this (written fullCode) in
  (fold_left onData emitted (EmptyString, None), after).

End Orchestrator.

(* ================================================================== *)
(** * EducationalValidator *)
(* ================================================================== *)

Module Educational.

Inductive ErrorType : Type := security | syntax | educational | scientific.
Inductive WarningType : Type := complexity | accessibility | performance.
Inductive Severity : Type := low | medium | high.

Record ValidationError : Type := mkError {
  errorType : ErrorType;
  errorMessage : string
}.

Record ValidationWarning : Type := mkWarning {
  warningType : WarningType;
  warningMessage : string;
  severity : Severity
}.

Record ValidationScore : Type := mkScore {
  overall : nat;
  scientificAccuracy : nat;
  pedagogicalQuality : nat;
  interactivity : nat;
  codeQuality : nat
}.

Record ValidationResult : Type := mkValidation {
  isValid : bool;
  errors : list ValidationError;
  warnings : list ValidationWarning;
  score : ValidationScore;
  suggestions : list string
}.

Definition DANGEROUS_PATTERNS : list string :=
  ["eval("; "Function("; "setTimeout("; "setInterval("; "document.write";
   "innerHTML"; "__proto__"; "constructor.constructor"].

Definition dq : string := String Js.dquote EmptyString.

Definition interactivityElements : list string :=
  ["on(" +++ dq; "addEventListener"; "drag"; "zoom"; "click"].
Definition clarityElements : list string := ["// "; "/* "; "text("; "label"].
Definition scientificElements : list string :=
  ["Math."; "formula"; "equation"; "calculate"].

Definition hasComments : Re.regex := Re.Alt (Re.lit "//") (Re.lit "/*").

Definition hasLabels : Re.regex :=
  Re.Alt (Re.lit ".text(")
         (Re.seq [Re.lit ".append("; Re.chr Js.dquote; Re.lit "text";
                  Re.chr Js.dquote; Re.lit ")"]).

(** The last but one unit of the source is the two characters with codes
    194 and 176. *)
Definition unitNames : list Re.regex :=
  [Re.lit "m"; Re.lit "s"; Re.lit "kg"; Re.lit "N"; Re.lit "J";
   Re.Cat (Re.chr (ascii_of_nat 194)) (Re.chr (ascii_of_nat 176)); Re.lit "rad"].

Definition hasUnits : Re.regex :=
  Re.seq [Re.chr "+"%char; Re.opt (Re.chr " "%char); Re.opt (Re.chr Js.dquote);
          Re.alts unitNames].

Definition words_i (ws : list string) : Re.regex := Re.alts (map Re.lit_i ws).

Definition hasAnimation : Re.regex :=
  Re.Alt (Re.lit "transition(") (Re.lit "duration(").
Definition hasResponsiveDesign : Re.regex :=
  Re.Alt (Re.lit "window.innerWidth") (Re.lit "resize").

Definition externalLoading : Re.regex :=
  Re.alts [Re.lit "fetch("; Re.lit "XMLHttpRequest";
           Re.seq [Re.lit "import"; Re.spaces; Re.chr "("%char]].

Definition word : Re.regex := Re.Cls Js.is_word.
Definition space1 : Re.regex := Re.Cat (Re.Cls Js.is_space) Re.spaces.
Definition word1 : Re.regex := Re.Cat word (Re.Star word).
Definition digit1 : Re.regex := Re.Cat Re.digit (Re.Star Re.digit).

Definition declares (keyword : string) : Re.regex :=
  Re.seq [Re.lit keyword; space1; word1; Re.spaces; Re.chr "="%char; Re.spaces; digit1].

Definition hasParameters : Re.regex := Re.Alt (declares "let") (declares "const").

Definition interactivePatterns : list Re.regex :=
  [ Re.Alt (Re.lit_i "slider") (Re.seq [Re.lit_i "input"; Re.Star Re.dot; Re.lit_i "range"]);
    words_i ["button"; "btn"];
    Re.lit_i "drag";
    Re.lit_i "zoom";
    words_i ["mouseover"; "mouseenter"; "hover"];
    words_i ["click"; "mousedown"] ].

(** [.replace(/<fence>\n?/g, '')] for a literal [fence]. *)
Definition followedByNewline (fence s : string) : bool :=
  match Js.dropChars (String.length fence) s with
  | Some (String c _) => Js.code c =? 10
  | _ => false
  end.

Fixpoint removeFences (fence : string) (skip : nat) (s : string) : string :=
  match s with
  | EmptyString => EmptyString
  | String c s' =>
      match skip with
      | S k => removeFences fence k s'
      | O =>
          if Js.startsWith fence s
          then removeFences fence
                 (String.length fence + (if followedByNewline fence s then 1 else 0) - 1)
                 s'
          else String c (removeFences fence 0 s')
      end
  end.

Definition cleanCode (text : string) : string :=
  Js.trim (removeFences "```" 0 (removeFences "```javascript" 0 text)).

Definition validateSecurity (text : string) (errors : list ValidationError)
  : list ValidationError :=
  let errors1 :=
    fold_left
      (fun errs pattern =>
         if Js.includes pattern text
         then errs ++ [mkError security
                               ("Potentially dangerous pattern detected: " +++ pattern)]
         else errs)
      DANGEROUS_PATTERNS errors in
  if Re.test externalLoading text
  then errors1 ++ [mkError security "External resource loading is not allowed"]
  else errors1.

Fixpoint countChar (c : ascii) (s : string) : nat :=
  match s with
  | EmptyString => 0
  | String x s' => (if Ascii.eqb x c then 1 else 0) + countChar c s'
  end.

Definition validateSyntax (text : string) (errors : list ValidationError)
  : list ValidationError :=
  let errors1 :=
    if negb (Js.includes "d3." text) && negb (Js.includes "d3[" text)
    then errors ++ [mkError syntax "Code does not appear to use D3.js library"]
    else errors in
  let errors2 :=
    if negb (Js.includes "#visualization" text)
    then errors1 ++ [mkError syntax "Code must target the #visualization container"]
    else errors1 in
  if negb (countChar "{"%char text =? countChar "}"%char text)
  then errors2 ++ [mkError syntax "Mismatched brackets detected"]
  else errors2.

Definition someIncluded (patterns : list string) (text : string) : bool :=
  existsb (fun pattern => Js.includes pattern text) patterns.

Definition validateEducationalRequirements (text : string)
           (warnings : list ValidationWarning) : list ValidationWarning :=
  let w1 :=
    if negb (someIncluded interactivityElements text)
    then warnings ++ [mkWarning complexity "Visualization lacks interactive elements" medium]
    else warnings in
  let w2 :=
    if negb (someIncluded clarityElements text)
    then w1 ++ [mkWarning accessibility "Code lacks comments or labels for clarity" medium]
    else w1 in
  if negb (someIncluded scientificElements text) && (500 <? String.length text)
  then w2 ++ [mkWarning complexity
                        "Complex visualization without clear mathematical foundations" low]
  else w2.

(** The optional [context] argument of [validate].  Its [complexity] field
    is named [level] here, [complexity] being a warning type; [targetAge] is
    never read. *)
Record Context : Type := mkContext {
  subject : option string;
  level : option string;
  targetAge : option nat
}.

Definition isPhysics (context : option Context) : bool :=
  match context with
  | Some c => match subject c with Some s => String.eqb s "physics" | None => false end
  | None => false
  end.

Definition validateScientificAccuracy (text : string) (context : option Context) : nat :=
  let s0 := 100 in
  let s1 :=
    if isPhysics context then
      let a := if Js.includes "pendulum" text && negb (Js.includes "Math.sqrt" text)
               then s0 - 20 else s0 in
      if negb (Re.test hasUnits text) then a - 15 else a
    else s0 in
  if Js.includes "Math." text then Nat.min (s1 + 10) 100 else s1.

Definition assessPedagogicalQuality (text : string) (suggestions : list string)
  : nat * list string :=
  let '(a, sg1) :=
    if Re.test hasComments text then (60 + 10, suggestions)
    else (60, suggestions ++ ["Add comments to explain the visualization logic"]) in
  let '(b, sg2) :=
    if Re.test hasLabels text then (a + 10, sg1)
    else (a, sg1 ++ ["Add labels to axes and important elements"]) in
  let c := if Re.test hasParameters text then b + 10 else b in
  let d := if Re.test hasAnimation text then c + 10 else c in
  (Nat.min d 100, sg2).

Definition interactiveCount (text : string) : nat :=
  List.length (filter (fun pattern => Re.test pattern text) interactivePatterns).

Definition assessInteractivity (text : string) (suggestions : list string)
  : nat * list string :=
  let n := interactiveCount text in
  (Nat.min (40 + 10 * n) 100,
   if n <? 2
   then suggestions
        ++ ["Consider adding more interactive elements (sliders, zoom, drag)"]
   else suggestions).

(** [text.split('\n')]. *)
Definition lines (text : string) : list string :=
  Js.split_on (ascii_of_nat 10) text EmptyString.

Definition tab : string := String (ascii_of_nat 9) EmptyString.

(** The average line length [text.length / lines.length] exceeds 100 exactly
    when the length exceeds 100 times the number of lines. *)
Definition assessCodeQuality (text : string) (warnings : list ValidationWarning)
  : nat * list ValidationWarning :=
  let ls := lines text in
  let '(a, w) :=
    if 100 * List.length ls <? String.length text
    then (70 - 10,
          warnings ++ [mkWarning complexity
                                 "Code has very long lines, consider breaking them up" low])
    else (70, warnings) in
  let b := if existsb (fun l => Js.startsWith "  " l || Js.startsWith tab l) ls
           then a + 10 else a in
  let c := if Re.test hasResponsiveDesign text then b + 10 else b in
  let d := if Js.includes "try" text || Js.includes "catch" text then c + 10 else c in
  (Nat.min d 100, w).

(** ** The overall score, in binary64 arithmetic *)

Definition toNumber (n : nat) : float := PrimFloat.of_uint63 (Uint63.of_Z (Z.of_nat n)).

(** The weights 0.3, 0.3, 0.25 and 0.15 as the doubles nearest to them. *)
Definition weightedSum (s p i c : nat) : float :=
  (toNumber s * 0x1.3333333333333p-2 + toNumber p * 0x1.3333333333333p-2
   + toNumber i * 0x1p-2 + toNumber c * 0x1.3333333333333p-3)%float.

(** [Math.round] on a number between 0 and [fuel]: the least integer [n] with
    [x < n + 0.5]. *)
Fixpoint roundFrom (fuel n : nat) (x : float) : nat :=
  match fuel with
  | O => n
  | S k =>
      if PrimFloat.ltb x (toNumber n + 0x1p-1)%float then n else roundFrom k (S n) x
  end.

Definition calculateOverallScore (s p i c : nat) : nat :=
  roundFrom 100 0 (weightedSum s p i c).

Definition validate (text : string) (context : option Context) : ValidationResult :=
  let cleaned := cleanCode text in
  let errors1 := validateSecurity cleaned [] in
  let errors2 := validateSyntax cleaned errors1 in
  let warnings1 := validateEducationalRequirements cleaned [] in
  let scientificScore := validateScientificAccuracy cleaned context in
  let '(pedagogicalScore, suggestions1) := assessPedagogicalQuality cleaned [] in
  let '(interactivityScore, suggestions2) := assessInteractivity cleaned suggestions1 in
  let '(codeQualityScore, warnings2) := assessCodeQuality cleaned warnings1 in
  let overallScore :=
    calculateOverallScore scientificScore pedagogicalScore interactivityScore
                          codeQualityScore in
  let suggestions3 :=
    match context with
    | Some c =>
        match level c with
        | Some l =>
            if String.eqb l "basic" && (overallScore <? 70)
            then suggestions2 ++ ["Consider simplifying the visualization for basic level"]
            else suggestions2
        | None => suggestions2
        end
    | None => suggestions2
    end in
  mkValidation (Nat.eqb (List.length errors2) 0) errors2 warnings2
               (mkScore overallScore scientificScore pedagogicalScore
                        interactivityScore codeQualityScore)
               suggestions3.

Definition improvements (r : ValidationResult) : list string :=
  (if scientificAccuracy (score r) <? 80
   then ["Ensure all calculations are scientifically accurate with proper formulas"]
   else [])
  ++ (if pedagogicalQuality (score r) <? 80
      then ["Add more educational elements like labels, comments, and explanations"]
      else [])
  ++ (if interactivity (score r) <? 70
      then ["Include interactive controls such as sliders or buttons for parameter adjustment"]
      else [])
  ++ (if 0 <? List.length (errors r)
      then ["Fix the following errors: "
            +++ Js.join ", " (map errorMessage (errors r))]
      else []).

Definition getImprovementPrompt (r : ValidationResult) : string :=
  let items := improvements r in
  if 0 <? List.length items
  then "Please improve the visualization by: " +++ Js.join "; " items
  else EmptyString.

(** The overall score lies between the least and the greatest of the four
    scores it averages. *)
Definition within (s p i c : nat) : bool :=
  let o := calculateOverallScore s p i c in
  (Nat.min (Nat.min s p) (Nat.min i c) <=? o)
  && (o <=? Nat.max (Nat.max s p) (Nat.max i c)).

End Educational.

(* ================================================================== *)
(** * Concrete collaborators and inputs for the scenarios *)
(* ================================================================== *)

Module Scenario.

Import Compression.

(** ** A serializer in the layout of [JSON.stringify] *)

Definition q1 : string := String Js.dquote EmptyString.

Definition hexDigit (n : nat) : ascii :=
  if n <? 10 then ascii_of_nat (48 + n) else ascii_of_nat (87 + n).

Definition escapeChar (c : ascii) : string :=
  let n := Js.code c in
  if n =? 34 then "\" +++ q1
  else if n =? 92 then "\\"
  else if n =? 8 then "\b"
  else if n =? 9 then "\t"
  else if n =? 10 then "\n"
  else if n =? 12 then "\f"
  else if n =? 13 then "\r"
  else if n <? 32
       then "\u00" +++ String (hexDigit (n / 16)) (String (hexDigit (n mod 16)) EmptyString)
  else String c EmptyString.

Fixpoint escape (s : string) : string :=
  match s with
  | EmptyString => EmptyString
  | String c s' => escapeChar c +++ escape s'
  end.

Definition jsonString (s : string) : string := q1 +++ escape s +++ q1.

(** Decimal digits of a fraction [r / d] by long division, at most [fuel]
    places, without trailing zeros. *)
Fixpoint fractionDigits (fuel : nat) (r d : Z) : string :=
  match fuel with
  | O => EmptyString
  | S k =>
      if (r =? 0)%Z then EmptyString
      else String (ascii_of_nat (48 + Z.to_nat ((10 * r) / d)))
                  (fractionDigits k ((10 * r) mod d) d)
  end.

Definition showNumber (q : Q) : string :=
  let n := Qnum q in
  let d := Z.pos (Qden q) in
  let a := Z.abs n in
  let whole := Js.nat_to_string (Z.to_nat (a / d)) in
  let frac := fractionDigits 17 (a mod d) d in
  (if (n <? 0)%Z then "-" else EmptyString)
  +++ whole
  +++ (if String.eqb frac EmptyString then EmptyString else "." +++ frac).

Definition jsonField (k v : string) : string := q1 +++ k +++ q1 +++ ":" +++ v.

Definition jsonDecision (d : Decision) : string :=
  "{" +++ jsonField "content" (jsonString (dec_content d))
  +++ "," +++ jsonField "type" (jsonString (role_name (dec_type d)))
  +++ "," +++ jsonField "importance" (showNumber (dec_importance d))
  +++ "}".

Definition stringifyDecisions (ds : list Decision) : string :=
  "[" +++ Js.join "," (map jsonDecision ds) +++ "]".

(** ** An engine with concrete collaborators

    The tokenizer is the router's estimate of one token per four characters. *)
Definition compress (now : nat -> Z) (history : list ConversationTurn)
           (maxTokens : Z) (mem : MemoryLayer) : CompressionResult * MemoryLayer :=
  compressContext Router.estimateTokens stringifyDecisions now history maxTokens mem.

Definition tokens (turns : list ConversationTurn) : nat :=
  countTokens Router.estimateTokens turns.

(** A word-level tokenizer in the manner of the package's pre-tokenization:
    a run of letters and digits is one token and takes the blank before it
    along, every other character is a token of its own. *)
Definition isAlnum (c : ascii) : bool := Js.is_alpha c || Js.is_digit c.

Definition startsWord (s : string) : bool :=
  match s with
  | String c _ => isAlnum c
  | EmptyString => false
  end.

Fixpoint wordTokensFrom (inWord : bool) (s : string) : nat :=
  match s with
  | EmptyString => 0
  | String c s' =>
      if isAlnum c then (if inWord then 0 else 1) + wordTokensFrom true s'
      else if Ascii.eqb c " "%char && startsWord s' then 1 + wordTokensFrom true s'
      else 1 + wordTokensFrom false s'
  end.

Definition wordTokens (s : string) : nat := wordTokensFrom false s.

Definition compressByWords (now : nat -> Z) (history : list ConversationTurn)
           (maxTokens : Z) (mem : MemoryLayer) : CompressionResult * MemoryLayer :=
  compressContext wordTokens stringifyDecisions now history maxTokens mem.

Definition say (text : string) : ConversationTurn := mkTurn user text 0%Z None.

(** Ten short turns, and a budget that all of them fit one by one. *)
Definition tenGreetings : list ConversationTurn := repeat (say "hi") 10.

(** The same request fifty times, sent at successive instants. *)
Definition fiftyRequests : list ConversationTurn :=
  map (fun i => mkTurn user "set length to 2m" (Z.of_nat i) None) (List.seq 0 50).

Definition clockAt (t : Z) : nat -> Z := fun k => (t + Z.of_nat k)%Z.

Definition firstAsk : list ConversationTurn := [say "set the pendulum length to 2m"].
Definition secondAsk : list ConversationTurn := [say "show the pendulum period"].

(** ** Outcomes of the parser on the buffers used below *)

Import Validator.

Definition bodyDiv : string := "d3.select('body').append('div')".

Definition unclosed : string :=
  "function draw() { d3.select('#visualization').append('svg');".

Definition parserTable : list (string * ParseOutcome) :=
  [ (bodyDiv,
     Parsed [ mkCall (Some "select") (StringValue "body") (Some 1);
              mkCall (Some "append") (StringValue "div") (Some 1) ]);
    (unclosed, SyntaxError "Unexpected token (1:60)" (Some (1, 60))) ].

(** A parser that answers from the table and rejects everything else. *)
Definition tabulated (_ : ParseOptions) (text : string) : ParseOutcome :=
  match Js.map_get text parserTable with
  | Some outcome => outcome
  | None => SyntaxError "not tabulated" None
  end.

Definition holding (buffer : string) : StreamingValidator :=
  mkValidator buffer emptyResults.

End Scenario.

(* ================================================================== *)
(** * Searching for a literal is a substring test *)
(* ================================================================== *)

Module ReFacts.

Import Re.

Lemma lit_not_void (p : string) : is_void (lit p) = false.
Proof. destruct p; reflexivity. Qed.

Lemma matches_prefix_void (s : string) : matches_prefix Void s = false.
Proof. destruct s; reflexivity. Qed.

Lemma matches_prefix_lit (p s : string) :
  matches_prefix (lit p) s = Js.startsWith p s.
Proof.
  revert s; induction p as [| a p IH]; intros s.
  - destruct s; reflexivity.
  - destruct s as [| c s]; [reflexivity |].
    cbn [lit matches_prefix nullable chr is_void deriv andb orb Js.startsWith].
    destruct (Ascii.eqb a c); cbn [andb].
    + unfold cat. cbn [is_void is_eps orb]. rewrite lit_not_void. apply IH.
    + apply matches_prefix_void.
Qed.

Lemma test_lit (p s : string) : test (lit p) s = Js.includes p s.
Proof.
  induction s as [| c s IH].
  - cbn [test Js.includes]. now rewrite matches_prefix_lit.
  - cbn [test Js.includes]. now rewrite matches_prefix_lit, IH.
Qed.

End ReFacts.

(* ================================================================== *)
(** * The definitions at work *)
(* ================================================================== *)

Module Checks.

Import Compression.

Example gravity_pattern :
  Re.test Validator.gravity "const g  = 9.81;" = true
  /\ Re.test Validator.gravity "const g = 9.7;" = false.
Proof. split; reflexivity. Qed.

Example selector_pattern :
  Re.matches Validator.idSelector "#visualization" = true
  /\ Re.matches Validator.idSelector "#9lives" = false
  /\ Re.matches Validator.idSelector "#chart area" = false.
Proof. repeat split; reflexivity. Qed.

Example topic_of_a_turn :
  extractTopic (Scenario.say "Explain the Pendulum") = "physics"
  /\ extractTopic (Scenario.say "set length to 2m") = "general"
  /\ extractTopic (mkTurn user "hello" 0%Z
                          (Some (mkMetadata (Some "optics") None None None)))
     = "optics".
Proof. repeat split; reflexivity. Qed.

Example simplified_content :
  simplifyContent "Set  Length, to 2m!! " = "set length to 2m".
Proof. reflexivity. Qed.

Example similarity_of_two_requests :
  similarityCounts "set length to 2m" "set length to 2m now" = (4, 5)
  /\ similar "set length to 2m" "set length to 2m now" = false
  /\ similar "set length to 2m" "set length to 2m" = true.
Proof. repeat split; reflexivity. Qed.

Example core_information :
  extractCoreInformation "Just set it. Really? Justice is very  good! ok. fine"
  = "set it. [...]  fine.".
Proof. reflexivity. Qed.

Example segments_keep_first_appearance_order :
  Js.map_keys (segmentByTopics [Scenario.say "a pendulum"; Scenario.say "hi";
                                Scenario.say "a wave"])
  = ["physics"; "general"].
Proof. reflexivity. Qed.

Example serialized_decision :
  Scenario.stringifyDecisions [mkDecision "set x" user (8 # 10)%Q]
  = "[{" +++ Scenario.q1 +++ "content" +++ Scenario.q1 +++ ":"
    +++ Scenario.q1 +++ "set x" +++ Scenario.q1 +++ ","
    +++ Scenario.q1 +++ "type" +++ Scenario.q1 +++ ":"
    +++ Scenario.q1 +++ "user" +++ Scenario.q1 +++ ","
    +++ Scenario.q1 +++ "importance" +++ Scenario.q1 +++ ":0.8}]".
Proof. reflexivity. Qed.

Example word_tokens : Scenario.wordTokens "user: hi" = 3.
Proof. reflexivity. Qed.

(** The alignment bonus is granted to a tier whose name holds the tier word. *)
Example confidence_of_a_tier_named_validation :
  (Router.calculateConfidence
     (Router.mkModel "validation" Router.openai "gpt-4" (3 # 100)%Q 800
                     [Router.scientific_validation])
     Router.scientific_validation (9 # 10)%Q == 1)%Q.
Proof. reflexivity. Qed.

(** With the three decrements the quality is the double just below 0.4,
    printed 0.39999999999999997. *)
Example body_div_scores :
  let r := Validator.finalize Scenario.tabulated (Scenario.holding Scenario.bodyDiv) in
  Validator.scientificAccuracy r = Some 1%float
  /\ Validator.pedagogicalQuality r = Some 0x1.9999999999999p-2%float.
Proof. split; vm_compute; reflexivity. Qed.

(** A session feeds its fragments to the buffer in order. *)
Example session_of_two_fragments :
  Validator.session Scenario.tabulated ["d3.select('body')"; ".append('div')"]
  = Validator.finalize Scenario.tabulated (Scenario.holding Scenario.bodyDiv).
Proof. reflexivity. Qed.

End Checks.

(* ================================================================== *)
(** * Properties of the streaming validator *)
(* ================================================================== *)

Module ValidatorFacts.

Import Validator.

Section AnyParser.

Variable acorn_parse : ParseOptions -> string -> ParseOutcome.

Lemma performASTValidation_no_errors (text : string) :
  fst (performASTValidation acorn_parse text) = [].
Proof.
  unfold performASTValidation.
  destruct (acorn_parse walkOptions text); reflexivity.
Qed.

(** The verdict on a buffer that the parser accepts, pass by pass. *)
Lemma validateComplete_accepted (this : StreamingValidator) (calls : list CallExpression) :
  acorn_parse syntaxOptions (codeBuffer this) = Parsed calls ->
  validateComplete acorn_parse this =
  mkValidation true []
    (snd (performASTValidation acorn_parse (codeBuffer this))
     ++ fst (fst (checkEducationalQuality this))
     ++ fst (checkScientificAccuracy this)
     ++ checkPerformanceComplete this)
    (snd (fst (checkEducationalQuality this)) ++ checkAccessibility this)
    (Some (snd (checkScientificAccuracy this)))
    (Some (snd (checkEducationalQuality this))).
Proof.
  intros Hparse.
  unfold validateComplete, checkSyntax.
  rewrite Hparse; cbn [negb].
  pose proof (performASTValidation_no_errors (codeBuffer this)) as Hsem.
  destruct (performASTValidation acorn_parse (codeBuffer this)) as [semErrors semWarnings].
  cbn [fst snd] in *; subst semErrors.
  destruct (checkEducationalQuality this) as [[eduW eduS] quality].
  destruct (checkScientificAccuracy this) as [sciW accuracy].
  reflexivity.
Qed.

(** The verdict on a buffer that the parser rejects. *)
Lemma validateComplete_rejected (this : StreamingValidator) (msg : string)
      (loc : option (nat * nat)) :
  acorn_parse syntaxOptions (codeBuffer this) = SyntaxError msg loc ->
  validateComplete acorn_parse this =
  mkValidation false
    [mkError syntax error msg (option_map fst loc) (option_map snd loc) None]
    [] [] (Some 1%float) (Some 1%float).
Proof.
  intros Hparse.
  unfold validateComplete, checkSyntax.
  rewrite Hparse; reflexivity.
Qed.

(** A buffer without the container pattern gets the container finding first
    among the educational findings. *)
Lemma container_finding_first (this : StreamingValidator) :
  Re.test hasVisualizationContainer (codeBuffer this) = false ->
  exists more,
    fst (fst (checkEducationalQuality this)) =
    mkError educational error "No #visualization container found" None None
            (Some "Ensure code targets the #visualization element") :: more.
Proof.
  intros Hno.
  unfold checkEducationalQuality.
  rewrite Hno; cbn [negb].
  destruct (negb (Re.test hasInteractivity (codeBuffer this)));
    destruct (negb (Re.test hasLabels (codeBuffer this)));
    cbn [fst snd app]; eexists; reflexivity.
Qed.

End AnyParser.

(** C8.  Whenever the full parse of the finalized buffer fails, the verdict is
    invalid, its error list holds a syntax-category error, no later pass has
    contributed a warning or a suggestion, and both sub-scores keep the value
    1.0 they are created with. *)
Theorem C8_syntax_failure_short_circuits
        (acorn_parse : ParseOptions -> string -> ParseOutcome)
        (this : StreamingValidator) (msg : string) (loc : option (nat * nat)) :
  acorn_parse syntaxOptions (codeBuffer this) = SyntaxError msg loc ->
  let r := finalize acorn_parse this in
  isValid r = false
  /\ (exists e, In e (errors r) /\ type e = syntax /\ severity e = error)
  /\ warnings r = []
  /\ suggestions r = []
  /\ scientificAccuracy r = Some 1%float
  /\ pedagogicalQuality r = Some 1%float.
Proof.
  intros Hparse r; subst r; unfold finalize.
  rewrite (validateComplete_rejected acorn_parse this msg loc Hparse).
  cbn [isValid errors warnings suggestions scientificAccuracy pedagogicalQuality].
  repeat split.
  eexists; split; [left; reflexivity | split; reflexivity].
Qed.

Lemma C8_witness :
  Scenario.tabulated syntaxOptions (codeBuffer (Scenario.holding Scenario.unclosed))
  = SyntaxError "Unexpected token (1:60)" (Some (1, 60))
  /\ isValid (finalize Scenario.tabulated (Scenario.holding Scenario.unclosed)) = false.
Proof.
  split.
  - reflexivity.
  - apply (C8_syntax_failure_short_circuits Scenario.tabulated
             (Scenario.holding Scenario.unclosed)
             "Unexpected token (1:60)" (Some (1, 60))).
    reflexivity.
Defined.

(** C10.  Whenever the finalized buffer parses, the verdict is valid and its
    error list is empty; what the structural, educational, scientific and
    performance passes found is in the warning list, what the educational and
    accessibility passes advise is in the suggestion list.  Whatever the
    buffer, an entry of the error list is a syntax error. *)
Theorem C10_parsed_buffer_is_valid
        (acorn_parse : ParseOptions -> string -> ParseOutcome)
        (this : StreamingValidator) :
  (forall calls,
      acorn_parse syntaxOptions (codeBuffer this) = Parsed calls ->
      let r := finalize acorn_parse this in
      isValid r = true
      /\ errors r = []
      /\ warnings r =
           snd (performASTValidation acorn_parse (codeBuffer this))
           ++ fst (fst (checkEducationalQuality this))
           ++ fst (checkScientificAccuracy this)
           ++ checkPerformanceComplete this
      /\ suggestions r =
           snd (fst (checkEducationalQuality this)) ++ checkAccessibility this)
  /\ (forall e, In e (errors (finalize acorn_parse this)) -> type e = syntax).
Proof.
  split.
  - intros calls Hparse r; subst r; unfold finalize.
    rewrite (validateComplete_accepted acorn_parse this calls Hparse).
    repeat split.
  - intros e. unfold finalize.
    destruct (acorn_parse syntaxOptions (codeBuffer this)) as [calls | msg loc] eqn:Hparse.
    + rewrite (validateComplete_accepted acorn_parse this calls Hparse).
      intros [].
    + rewrite (validateComplete_rejected acorn_parse this msg loc Hparse).
      intros [<- | []]; reflexivity.
Qed.

Lemma C10_witness :
  (exists calls,
      Scenario.tabulated syntaxOptions (codeBuffer (Scenario.holding Scenario.bodyDiv))
      = Parsed calls)
  /\ isValid (finalize Scenario.tabulated (Scenario.holding Scenario.bodyDiv)) = true.
Proof.
  split.
  - eexists; reflexivity.
  - eapply (proj1 (C10_parsed_buffer_is_valid Scenario.tabulated
                     (Scenario.holding Scenario.bodyDiv))).
    reflexivity.
Defined.

(** C1.  The code does not do here what the specification asks of it: on
    the buffer [d3.select('body').append('div')], which parses, the verdict
    has no educational-category entry in its error list and is valid. *)
Lemma C1_counterexample :
  let r := finalize Scenario.tabulated (Scenario.holding Scenario.bodyDiv) in
  ~ ((exists e, In e (errors r) /\ type e = educational) /\ isValid r = false).
Proof.
  intros r [_ Hvalid].
  vm_compute in Hvalid.
  discriminate Hvalid.
Qed.

(** C1.  What the code does instead, a defect of checkEducationalQuality:
    it gives the finding "No #visualization container found" the severity
    error and yet returns it among its warnings, and validateComplete
    decides validity by the error list alone.  So for the buffer
    [d3.select('body').append('div')], whenever it parses, the finding is in
    the warning list, the error list is empty and the verdict is valid,
    where the specification has an educational error and an invalid verdict. *)
Theorem C1_container_finding_is_a_warning
        (acorn_parse : ParseOptions -> string -> ParseOutcome)
        (this : StreamingValidator) (calls : list CallExpression) :
  codeBuffer this = Scenario.bodyDiv ->
  acorn_parse syntaxOptions (codeBuffer this) = Parsed calls ->
  let r := finalize acorn_parse this in
  (exists e, In e (warnings r) /\ type e = educational /\ severity e = error
             /\ message e = "No #visualization container found")
  /\ errors r = []
  /\ isValid r = true.
Proof.
  intros Hbuf Hparse r; subst r; unfold finalize.
  rewrite (validateComplete_accepted acorn_parse this calls Hparse).
  cbn [isValid errors warnings].
  split; [| split; reflexivity].
  destruct (container_finding_first this) as [more Hmore].
  { rewrite Hbuf. vm_compute. reflexivity. }
  eexists; split.
  - apply in_or_app; right. apply in_or_app; left.
    rewrite Hmore. left; reflexivity.
  - repeat split.
Qed.

Lemma C1_witness :
  let this := Scenario.holding Scenario.bodyDiv in
  codeBuffer this = Scenario.bodyDiv
  /\ (exists calls, Scenario.tabulated syntaxOptions (codeBuffer this) = Parsed calls)
  /\ isValid (finalize Scenario.tabulated this) = true.
Proof.
  split; [reflexivity |].
  split; [eexists; reflexivity |].
  eapply (C1_container_finding_is_a_warning Scenario.tabulated
            (Scenario.holding Scenario.bodyDiv)).
  - reflexivity.
  - reflexivity.
Defined.

End ValidatorFacts.

(* ================================================================== *)
(** * Properties of the model router *)
(* ================================================================== *)

Module RouterFacts.

Import Router.

(** With the built-in catalog every complexity score lies above every
    threshold, so the first pick is always the validation tier. *)
Lemma firstChoice_validation (taskType : TaskType) (userPrompt : string)
      (optimizationGoal : OptimizationGoal) :
  firstChoice taskType userPrompt optimizationGoal =
  (validation, "Complex educational concept requiring high accuracy").
Proof.
  unfold firstChoice.
  assert (Js.Qltb (routingThresholds optimizationGoal)
                  (taskComplexityScores taskType) = true) as ->
      by (destruct taskType, optimizationGoal; reflexivity).
  reflexivity.
Qed.

(** Runs [route] on a request whose task type is a constructor: the goal
    [exists d u, route ... = Some (d, u) /\ P d] becomes [P] at the decision
    the code builds. *)
Ltac run_route :=
  unfold route, routeRequest;
  rewrite firstChoice_validation;
  cbn [models_get initializeModels ModelType_eqb];
  cbv [has capabilities existsb TaskType_eqb negb orb findCapableModel
       initializeModels];
  eexists; eexists; (split; [reflexivity |]);
  cbn [chosen reason confidence capabilities name].

(** C6.  Every request is answered with a decision, and the decision either
    names a tier whose capability set holds the task type or carries a reason
    that starts with "Fallback:". *)
Theorem C6_capable_or_fallback (taskType : TaskType) (userPrompt context : string)
        (optimizationGoal : OptimizationGoal) (usage : UsageMetrics) :
  exists d u,
    route taskType userPrompt context optimizationGoal usage = Some (d, u)
    /\ (has (capabilities (chosen d)) taskType = true
        \/ indicatesFallback (reason d) = true).
Proof.
  destruct taskType; run_route; first [left; reflexivity | right; reflexivity].
Qed.

(** C7, as the code computes it: no tier of the catalog has a name that
    contains "fast" or "validation", so the alignment bonus is never granted
    and every request is answered with confidence 0.8; in particular a
    scientific_validation task on the validation tier gets 0.8, not 1.0. *)
Theorem C7_confidence_without_alignment_bonus :
  (forall taskType userPrompt context optimizationGoal usage,
      exists d u,
        route taskType userPrompt context optimizationGoal usage = Some (d, u)
        /\ (confidence d == 8 # 10)%Q)
  /\ (forall userPrompt context optimizationGoal usage,
         exists d u,
           route scientific_validation userPrompt context optimizationGoal usage
           = Some (d, u)
           /\ models_get initializeModels validation = Some (chosen d)
           /\ has (capabilities (chosen d)) scientific_validation = true
           /\ (taskComplexityScores scientific_validation == 9 # 10)%Q
           /\ ~ (confidence d == 1)%Q).
Proof.
  split.
  - intros taskType userPrompt context optimizationGoal usage.
    destruct taskType; run_route; reflexivity.
  - intros userPrompt context optimizationGoal usage.
    run_route.
    repeat split.
    intro Habs; vm_compute in Habs; discriminate Habs.
Qed.

End RouterFacts.

(* ================================================================== *)
(** * Insertion-ordered maps and sets *)
(* ================================================================== *)

Module MapFacts.

Import Js.

Section Maps.

Context {V : Type}.
Implicit Types (k : string) (v : V) (m : list (string * V)).

Lemma map_get_set_same k v m : map_get k (map_set k v m) = Some v.
Proof.
  induction m as [| [k' v'] m IH]; simpl.
  - now rewrite String.eqb_refl.
  - destruct (String.eqb k' k) eqn:E; simpl.
    + now rewrite String.eqb_refl.
    + now rewrite E.
Qed.

Lemma map_get_set_other k k' v m :
  k <> k' -> map_get k (map_set k' v m) = map_get k m.
Proof.
  intros Hne.
  induction m as [| [k0 v0] m IH]; simpl.
  - destruct (String.eqb k' k) eqn:E; [| reflexivity].
    apply String.eqb_eq in E; congruence.
  - destruct (String.eqb k0 k') eqn:E; simpl.
    + apply String.eqb_eq in E; subst k0.
      destruct (String.eqb k' k) eqn:E'; [| reflexivity].
      apply String.eqb_eq in E'; congruence.
    + now rewrite IH.
Qed.

Lemma map_set_id k v m : map_get k m = Some v -> map_set k v m = m.
Proof.
  induction m as [| [k' v'] m IH]; simpl; [discriminate |].
  destruct (String.eqb k' k) eqn:E.
  - intros [= ->]. apply String.eqb_eq in E; now subst.
  - intros H; now rewrite IH.
Qed.

Lemma map_get_in_keys k m : map_get k m <> None <-> In k (map_keys m).
Proof.
  induction m as [| [k' v'] m IH]; simpl.
  - split; [congruence | tauto].
  - destruct (String.eqb k' k) eqn:E.
    + apply String.eqb_eq in E; split; [now left | congruence].
    + apply String.eqb_neq in E; rewrite IH; split; [now right | tauto].
Qed.

Lemma map_keys_set k v m :
  map_keys (map_set k v m) = if map_has k m then map_keys m else map_keys m ++ [k].
Proof.
  unfold map_has.
  induction m as [| [k' v'] m IH]; simpl; [reflexivity |].
  destruct (String.eqb k' k) eqn:E; simpl.
  - apply String.eqb_eq in E; now subst.
  - rewrite IH. now destruct (map_get k m).
Qed.

Lemma map_set_keeps_keys k k' v m :
  In k (map_keys m) -> In k (map_keys (map_set k' v m)).
Proof.
  rewrite map_keys_set; destruct (map_has k' m); [tauto |].
  intros H; apply in_or_app; now left.
Qed.

Lemma map_set_NoDup k v m : NoDup (map_keys m) -> NoDup (map_keys (map_set k v m)).
Proof.
  intros Hnd; rewrite map_keys_set; unfold map_has.
  destruct (map_get k m) eqn:E; [exact Hnd |].
  apply NoDup_app; [exact Hnd | repeat constructor; simpl; tauto |].
  intros x Hx [<- | []].
  apply map_get_in_keys in Hx; congruence.
Qed.

Lemma map_get_only_key k v m :
  NoDup (map_keys m) -> In (k, v) m -> map_get k m = Some v.
Proof.
  induction m as [| [k' v'] m IH]; simpl; [tauto |].
  intros Hnd [Hin | Hin].
  - injection Hin as -> ->. now rewrite String.eqb_refl.
  - inversion Hnd as [| ? ? Hnotin Hnd']; subst.
    destruct (String.eqb k' k) eqn:E.
    + apply String.eqb_eq in E; subst k'.
      exfalso; apply Hnotin. apply (in_map fst) in Hin; exact Hin.
    + now apply IH.
Qed.

(** A loop that writes [value x] under the key of every entry [(k, x)] that
    passes [wanted]. *)
Section WritingLoop.

Context {X : Type} (wanted : X -> bool) (value : X -> V).

Local Abbreviation writeStep := (Js.writeStep wanted value).

Lemma write_untouched k (l : list (string * X)) m :
  ~ In k (map_keys l) -> map_get k (fold_left writeStep l m) = map_get k m.
Proof.
  revert m; induction l as [| [k' x] l IH]; intros m Hnotin; simpl; [reflexivity |].
  simpl in Hnotin.
  rewrite IH by tauto.
  unfold writeStep; simpl.
  destruct (wanted x); [| reflexivity].
  apply map_get_set_other; intros ->; tauto.
Qed.

Lemma write_keeps_keys k (l : list (string * X)) m :
  In k (map_keys m) -> In k (map_keys (fold_left writeStep l m)).
Proof.
  revert m; induction l as [| [k' x] l IH]; intros m Hin; simpl; [exact Hin |].
  apply IH. unfold writeStep; simpl.
  destruct (wanted x); [now apply map_set_keeps_keys | exact Hin].
Qed.

Lemma write_written k x (l : list (string * X)) m :
  NoDup (map_keys l) -> In (k, x) l -> wanted x = true ->
  map_get k (fold_left writeStep l m) = Some (value x).
Proof.
  revert m; induction l as [| [k' x'] l IH]; intros m Hnd Hin Hw; simpl; [destruct Hin |].
  inversion Hnd as [| ? ? Hnotin Hnd']; subst.
  destruct Hin as [Heq | Hin].
  - injection Heq as -> ->.
    rewrite write_untouched by exact Hnotin.
    unfold writeStep; simpl; rewrite Hw.
    apply map_get_set_same.
  - now apply IH.
Qed.

Lemma write_skipped k x (l : list (string * X)) m :
  NoDup (map_keys l) -> In (k, x) l -> wanted x = false ->
  map_get k (fold_left writeStep l m) = map_get k m.
Proof.
  revert m; induction l as [| [k' x'] l IH]; intros m Hnd Hin Hw; simpl; [destruct Hin |].
  inversion Hnd as [| ? ? Hnotin Hnd']; subst.
  destruct Hin as [Heq | Hin].
  - injection Heq as -> ->.
    rewrite write_untouched by exact Hnotin.
    unfold writeStep; simpl; now rewrite Hw.
  - rewrite IH by assumption.
    unfold writeStep; simpl.
    destruct (wanted x'); [| reflexivity].
    apply map_get_set_other; intros ->.
    apply Hnotin. apply (in_map fst) in Hin; exact Hin.
Qed.

Lemma write_fixed (l : list (string * X)) m :
  (forall k x, In (k, x) l -> wanted x = true -> map_get k m = Some (value x)) ->
  fold_left writeStep l m = m.
Proof.
  induction l as [| [k x] l IH]; intros H; simpl; [reflexivity |].
  assert (writeStep m (k, x) = m) as ->.
  { unfold writeStep; simpl. destruct (wanted x) eqn:E; [| reflexivity].
    apply map_set_id. apply H; [now left | exact E]. }
  apply IH. intros k' x' Hin; apply H; now right.
Qed.

(** Running the loop a second time over the same entries changes nothing. *)
Lemma write_twice (l : list (string * X)) m :
  NoDup (map_keys l) ->
  fold_left writeStep l (fold_left writeStep l m) = fold_left writeStep l m.
Proof.
  intros Hnd. apply write_fixed.
  intros k x Hin Hw. now apply write_written.
Qed.

End WritingLoop.

End Maps.

(** ** Sets *)

Lemma set_has_In x s : set_has x s = true <-> In x s.
Proof.
  unfold set_has. rewrite existsb_exists. split.
  - intros (y & Hy & E). apply String.eqb_eq in E; now subst.
  - intros H; exists x; split; [exact H | apply String.eqb_refl].
Qed.

Lemma set_add_id x s : In x s -> set_add x s = s.
Proof.
  intros H; unfold set_add. apply set_has_In in H; now rewrite H.
Qed.

Lemma set_add_In x y s : In y (set_add x s) <-> y = x \/ In y s.
Proof.
  unfold set_add. destruct (set_has x s) eqn:E.
  - apply set_has_In in E. split; [tauto | intros [-> | H]; assumption].
  - rewrite in_app_iff; simpl; split; intros H.
    + destruct H as [H | [H | []]]; [now right | now left].
    + destruct H as [-> | H]; [right; now left | now left].
Qed.

Lemma set_add_NoDup x s : NoDup s -> NoDup (set_add x s).
Proof.
  intros Hnd; unfold set_add. destruct (set_has x s) eqn:E; [exact Hnd |].
  apply NoDup_app; [exact Hnd | repeat constructor; simpl; tauto |].
  intros y Hy [<- | []].
  apply set_has_In in Hy; congruence.
Qed.

Lemma fold_set_add_In (xs : list string) (s : list string) y :
  In y (fold_left (fun s x => set_add x s) xs s) <-> In y xs \/ In y s.
Proof.
  revert s; induction xs as [| x xs IH]; intros s; simpl; [tauto |].
  rewrite IH, set_add_In. intuition congruence.
Qed.

Lemma fold_set_add_NoDup (xs : list string) (s : list string) :
  NoDup s -> NoDup (fold_left (fun s x => set_add x s) xs s).
Proof.
  revert s; induction xs as [| x xs IH]; intros s Hnd; simpl; [exact Hnd |].
  apply IH, set_add_NoDup, Hnd.
Qed.

Lemma set_of_list_In xs y : In y (set_of_list xs) <-> In y xs.
Proof. unfold set_of_list. rewrite fold_set_add_In; simpl; tauto. Qed.

Lemma set_of_list_NoDup xs : NoDup (set_of_list xs).
Proof. apply fold_set_add_NoDup; constructor. Qed.

(** Two sets with the same members have the same size. *)
Lemma same_members_same_size (s1 s2 : list string) :
  NoDup s1 -> NoDup s2 -> (forall x, In x s1 <-> In x s2) ->
  List.length s1 = List.length s2.
Proof.
  intros H1 H2 Hiff.
  apply Nat.le_antisymm; apply NoDup_incl_length; try assumption;
    intros x Hx; now apply Hiff.
Qed.

End MapFacts.

(* ================================================================== *)
(** * Properties of the compression engine *)
(* ================================================================== *)

Module CompressionFacts.

Import Compression.
Import MapFacts.

Lemma fold_left_invariant {A B : Type} (P : A -> Prop) (f : A -> B -> A)
      (l : list B) (a : A) :
  (forall a x, P a -> P (f a x)) -> P a -> P (fold_left f l a).
Proof.
  intros Hstep; revert a; induction l as [| x l IH]; intros a Ha; simpl; auto.
Qed.

(** ** Segmentation yields a map: every topic occurs once *)

Lemma segmentStep_NoDup (segments : Segments) (turn : ConversationTurn) :
  NoDup (Js.map_keys segments) -> NoDup (Js.map_keys (segmentStep segments turn)).
Proof.
  intros Hnd; unfold segmentStep.
  set (segments1 := if Js.map_has _ segments then segments else _).
  assert (NoDup (Js.map_keys segments1)) as Hnd1.
  { subst segments1. destruct (Js.map_has _ segments); [exact Hnd |].
    now apply map_set_NoDup. }
  destruct (Js.map_get _ segments1); [now apply map_set_NoDup | exact Hnd1].
Qed.

Lemma segmentByTopics_NoDup (history : list ConversationTurn) :
  NoDup (Js.map_keys (segmentByTopics history)).
Proof.
  unfold segmentByTopics.
  apply fold_left_invariant; [apply segmentStep_NoDup | constructor].
Qed.

(** A run of turns of one topic is appended to that topic's segment. *)
Lemma segment_one_topic (topic : string) (turns before : list ConversationTurn) :
  (forall t, In t turns -> extractTopic t = topic) ->
  fold_left segmentStep turns [(topic, before)] = [(topic, before ++ turns)].
Proof.
  revert before; induction turns as [| t turns IH]; intros before Hall; simpl.
  - now rewrite app_nil_r.
  - assert (segmentStep [(topic, before)] t = [(topic, before ++ [t])]) as ->.
    { unfold segmentStep. rewrite (Hall t) by now left.
      unfold Js.map_has; simpl. rewrite String.eqb_refl; simpl.
      now rewrite String.eqb_refl. }
    rewrite IH by (intros; apply Hall; now right).
    now rewrite <- app_assoc.
Qed.

Lemma segmentByTopics_one_topic (t : ConversationTurn) (rest : list ConversationTurn) :
  (forall x, In x rest -> extractTopic x = extractTopic t) ->
  segmentByTopics (t :: rest) = [(extractTopic t, t :: rest)].
Proof.
  intros Hall. unfold segmentByTopics; simpl.
  assert (segmentStep [] t = [(extractTopic t, [t])]) as ->.
  { unfold segmentStep, Js.map_has; simpl. now rewrite String.eqb_refl. }
  now rewrite (segment_one_topic (extractTopic t) rest [t] Hall).
Qed.

(** ** The memory update, one layer at a time *)

Lemma memoryStep_layers (segments : Segments)
      (project : list (string * list Decision)) (concepts : list string) :
  fold_left memoryStep segments (project, concepts) =
  (fold_left (Js.writeStep wantsDecisions extractKeyDecisions) segments project,
   fold_left conceptStep segments concepts).
Proof.
  revert project concepts; induction segments as [| [topic turns] segments IH];
    intros project concepts; simpl; [reflexivity |].
  rewrite <- IH. reflexivity.
Qed.

Lemma compressRedundantInfo_writes (segments : Segments) (cache : list (string * string)) :
  compressRedundantInfo segments cache =
  fold_left (Js.writeStep wantsCache cacheValue) segments cache.
Proof.
  unfold compressRedundantInfo.
  revert cache; induction segments as [| [topic turns] segments IH];
    intros cache; simpl; [reflexivity |].
  rewrite IH. reflexivity.
Qed.

Lemma conceptStep_In (segments : Segments) (concepts : list string) (x : string) :
  In x concepts -> In x (fold_left conceptStep segments concepts).
Proof.
  revert concepts; induction segments as [| e segments IH]; intros concepts H; simpl;
    [exact H |].
  apply IH. unfold conceptStep.
  destruct (negb _); [apply set_add_In; now right | exact H].
Qed.

Lemma conceptStep_recorded (segments : Segments) (concepts : list string)
      (topic : string) (turns : list ConversationTurn) :
  In (topic, turns) segments -> topic <> "general" ->
  In topic (fold_left conceptStep segments concepts).
Proof.
  revert concepts; induction segments as [| e segments IH]; intros concepts Hin Hne;
    simpl; [destruct Hin |].
  destruct Hin as [-> | Hin]; [| now apply IH].
  apply conceptStep_In. unfold conceptStep; simpl.
  apply String.eqb_neq in Hne. rewrite Hne; simpl.
  apply set_add_In; now left.
Qed.

Lemma conceptStep_fixed (segments : Segments) (concepts : list string) :
  (forall topic turns, In (topic, turns) segments -> topic <> "general" ->
                       In topic concepts) ->
  fold_left conceptStep segments concepts = concepts.
Proof.
  induction segments as [| [topic turns] segments IH]; intros H; simpl; [reflexivity |].
  assert (conceptStep concepts (topic, turns) = concepts) as ->.
  { unfold conceptStep; simpl.
    destruct (String.eqb topic "general") eqn:E; simpl; [reflexivity |].
    apply set_add_id. apply (H topic turns); [now left |].
    now apply String.eqb_neq. }
  apply IH. intros topic' turns' Hin; apply (H topic' turns'); now right.
Qed.

(** Updating the memory twice with the same segments is updating it once. *)
Lemma updateMemoryLayers_twice (segments : Segments) (mem : MemoryLayer) :
  NoDup (Js.map_keys segments) ->
  updateMemoryLayers segments (updateMemoryLayers segments mem)
  = updateMemoryLayers segments mem.
Proof.
  intros Hnd. unfold updateMemoryLayers.
  cbn [projectMemory educationalConcepts semanticCache].
  rewrite !memoryStep_layers; cbn [fst snd].
  rewrite !compressRedundantInfo_writes.
  rewrite !write_twice by exact Hnd.
  rewrite (conceptStep_fixed segments (fold_left conceptStep segments _)).
  - reflexivity.
  - intros topic turns Hin Hne. now apply (conceptStep_recorded _ _ topic turns).
Qed.

(** ** The assembly loop *)

Section AnyTokenizer.

Variable encode_length : string -> nat.
Variable JSON_stringify : list Decision -> string.

Local Abbreviation countTokens := (countTokens encode_length).
Local Abbreviation perTurnTokens := (perTurnTokens encode_length).
Local Abbreviation withinBudget := (withinBudget encode_length).
Local Abbreviation assemble := (assemble encode_length JSON_stringify).
Local Abbreviation compressContext := (compressContext encode_length JSON_stringify).

Lemma perTurnTokens_snoc (turns : list ConversationTurn) (t : ConversationTurn) :
  perTurnTokens (turns ++ [t]) = perTurnTokens turns + countTokens [t].
Proof.
  induction turns as [| x turns IH]; simpl.
  - lia.
  - unfold Compression.perTurnTokens in *; simpl; rewrite IH; lia.
Qed.

Lemma accept_withinBudget (maxTokens : Z) (a : Assembly) (t : ConversationTurn) :
  withinBudget maxTokens a ->
  (Z.of_nat (currentTokens a + countTokens [t]) <= maxTokens)%Z ->
  withinBudget maxTokens (accept a t (countTokens [t])).
Proof.
  intros [Hsum Hle] Hfits; split; cbn [out currentTokens accept].
  - rewrite perTurnTokens_snoc; lia.
  - exact Hfits.
Qed.

Lemma assemble_withinBudget (now : nat -> Z) (maxTokens : Z) (mem : MemoryLayer) :
  (0 <= maxTokens)%Z -> withinBudget maxTokens (assemble now maxTokens mem).
Proof.
  intros Hpos. unfold Compression.assemble.
  apply fold_left_invariant.
  { intros a [topic cached] Ha. unfold cacheTierStep.
    destruct (Z.leb_spec (10 * Z.of_nat (currentTokens (tick a) + countTokens [cacheTurn (now (clockReads a)) topic cached]))
                         (9 * maxTokens)) as [Hfits | _].
    - apply (accept_withinBudget maxTokens (tick a)); [exact Ha |].
      cbn [tick currentTokens] in *; lia.
    - exact Ha. }
  apply fold_left_invariant.
  { intros a [topic decisions] Ha. unfold projectStep.
    destruct (Z.leb_spec (Z.of_nat (currentTokens (tick a) + countTokens [summaryTurn JSON_stringify (now (clockReads a)) topic decisions]))
                         maxTokens) as [Hfits | _].
    - apply (accept_withinBudget maxTokens (tick a)); [exact Ha | exact Hfits].
    - exact Ha. }
  apply fold_left_invariant.
  { intros a t Ha. unfold activeStep.
    destruct (Z.leb_spec (Z.of_nat (currentTokens a + countTokens [t])) maxTokens)
      as [Hfits | _].
    - now apply accept_withinBudget.
    - exact Ha. }
  split; [reflexivity | exact Hpos].
Qed.

(** ** The clock only shows in the timestamps *)

Lemma turnLine_untimed (t : ConversationTurn) : turnLine (untimed t) = turnLine t.
Proof. reflexivity. Qed.

Lemma countTokens_untimed (turns : list ConversationTurn) :
  countTokens (map untimed turns) = countTokens turns.
Proof.
  unfold Compression.countTokens. rewrite map_map.
  rewrite (map_ext (fun t => turnLine (untimed t)) turnLine turnLine_untimed).
  reflexivity.
Qed.

Lemma accept_sameButTimes (a b : Assembly) (t u : ConversationTurn) (n : nat) :
  sameButTimes a b -> untimed t = untimed u ->
  sameButTimes (accept a t n) (accept b u n).
Proof.
  intros [Hout Hcur] Htu; split; cbn [accept out currentTokens].
  - rewrite !map_app, Hout; simpl; now rewrite Htu.
  - now rewrite Hcur.
Qed.

Lemma fold_sameButTimes {X : Type} (f g : Assembly -> X -> Assembly) (l : list X) :
  (forall a b x, sameButTimes a b -> sameButTimes (f a x) (g b x)) ->
  forall a b, sameButTimes a b -> sameButTimes (fold_left f l a) (fold_left g l b).
Proof.
  intros Hstep; induction l as [| x l IH]; intros a b Hab; simpl; auto.
Qed.

Lemma assemble_sameButTimes (now1 now2 : nat -> Z) (maxTokens : Z) (mem : MemoryLayer) :
  sameButTimes (assemble now1 maxTokens mem) (assemble now2 maxTokens mem).
Proof.
  unfold Compression.assemble.
  apply fold_sameButTimes.
  { intros a b [topic cached] Hab. unfold cacheTierStep.
    assert (sameButTimes (tick a) (tick b)) as Htick by exact Hab.
    destruct Hab as [_ Hcur]. cbn [tick currentTokens]. rewrite Hcur.
    change (countTokens [cacheTurn (now1 (clockReads a)) topic cached])
      with (countTokens [cacheTurn (now2 (clockReads b)) topic cached]).
    destruct (_ <=? _)%Z; [| exact Htick].
    now apply accept_sameButTimes. }
  apply fold_sameButTimes.
  { intros a b [topic decisions] Hab. unfold projectStep.
    assert (sameButTimes (tick a) (tick b)) as Htick by exact Hab.
    destruct Hab as [_ Hcur]. cbn [tick currentTokens]. rewrite Hcur.
    change (countTokens [summaryTurn JSON_stringify (now1 (clockReads a)) topic decisions])
      with (countTokens [summaryTurn JSON_stringify (now2 (clockReads b)) topic decisions]).
    destruct (_ <=? _)%Z; [| exact Htick].
    now apply accept_sameButTimes. }
  apply fold_sameButTimes.
  { intros a b t Hab. unfold activeStep.
    destruct (proj2 Hab).
    destruct (_ <=? _)%Z; [| exact Hab].
    now apply accept_sameButTimes. }
  split; reflexivity.
Qed.

Lemma compressContext_memory (now : nat -> Z) (history : list ConversationTurn)
      (maxTokens : Z) (mem : MemoryLayer) :
  snd (compressContext now history maxTokens mem)
  = updateMemoryLayers (segmentByTopics history) mem.
Proof. reflexivity. Qed.

Lemma compressContext_settled (now : nat -> Z) (history : list ConversationTurn)
      (maxTokens : Z) (mem : MemoryLayer) :
  updateMemoryLayers (segmentByTopics history)
                     (snd (compressContext now history maxTokens mem))
  = snd (compressContext now history maxTokens mem).
Proof.
  rewrite compressContext_memory.
  apply updateMemoryLayers_twice, segmentByTopics_NoDup.
Qed.

End AnyTokenizer.

(** ** Two runs side by side, and runs that return nothing *)

Section TwoRuns.

Variable encode_length : string -> nat.
Variable JSON_stringify : list Decision -> string.

Local Abbreviation countTokens := (countTokens encode_length).
Local Abbreviation assemble := (assemble encode_length JSON_stringify).
Local Abbreviation compressContext := (compressContext encode_length JSON_stringify).
Local Abbreviation activeStep := (activeStep encode_length).
Local Abbreviation projectStep := (projectStep encode_length JSON_stringify).
Local Abbreviation cacheTierStep := (cacheTierStep encode_length).
Local Abbreviation stampAll := (stampAll JSON_stringify).
Local Abbreviation sameButStamps := (sameButStamps JSON_stringify).
Local Abbreviation nothingFits := (nothingFits encode_length JSON_stringify).

(** ** What the clock can change *)

Lemma fold_left_related {X : Type} (R : Assembly -> Assembly -> Prop)
      (f g : Assembly -> X -> Assembly) (l : list X) :
  (forall a b x, R a b -> R (f a x) (g b x)) ->
  forall a b, R a b -> R (fold_left f l a) (fold_left g l b).
Proof.
  intros Hstep; induction l as [| x l IH]; intros a b Hab; simpl; auto.
Qed.

Lemma activeStep_keeps_a_subsequence (maxTokens : Z) (turns : list ConversationTurn)
      (a : Assembly) :
  exists kept,
    out (fold_left (activeStep maxTokens) turns a) = out a ++ kept
    /\ Subsequence kept turns.
Proof.
  revert a; induction turns as [| t turns IH]; intros a; cbn [fold_left].
  - exists []. rewrite app_nil_r. split; [reflexivity | constructor].
  - destruct (IH (activeStep maxTokens a t)) as (kept & Hout & Hsub).
    rewrite Hout. unfold Compression.activeStep.
    destruct (_ <=? _)%Z.
    + exists (t :: kept). cbn [accept out]. rewrite <- app_assoc.
      split; [reflexivity | now constructor].
    + exists kept. split; [reflexivity | now constructor].
Qed.

Lemma stampAll_snoc (now : nat -> Z) (plan : list (nat * Synthetic)) (k : nat)
      (s : Synthetic) :
  stampAll now (plan ++ [(k, s)]) = stampAll now plan ++ [stamped JSON_stringify (now k) s].
Proof. unfold Compression.stampAll. now rewrite map_app. Qed.

Lemma accept_sameButStamps (now1 now2 : nat -> Z) (kept : list ConversationTurn)
      (a b : Assembly) (s : Synthetic) (n : nat) :
  sameButStamps now1 now2 kept a b ->
  sameButStamps now1 now2 kept
    (accept (tick a) (stamped JSON_stringify (now1 (clockReads a)) s) n)
    (accept (tick b) (stamped JSON_stringify (now2 (clockReads b)) s) n).
Proof.
  intros (Hk & Hcur & plan & Ha & Hb).
  split; [cbn; now rewrite Hk |]. split; [cbn; now rewrite Hcur |].
  exists (plan ++ [(clockReads a, s)]).
  cbn [accept tick out]. rewrite !stampAll_snoc, Ha, Hb, <- !app_assoc, Hk.
  split; reflexivity.
Qed.

Lemma tick_sameButStamps (now1 now2 : nat -> Z) (kept : list ConversationTurn)
      (a b : Assembly) :
  sameButStamps now1 now2 kept a b -> sameButStamps now1 now2 kept (tick a) (tick b).
Proof.
  intros (Hk & Hcur & plan & Ha & Hb).
  split; [cbn; now rewrite Hk |]. split; [exact Hcur |].
  exists plan. split; assumption.
Qed.

Lemma summaries_sameButStamps (now1 now2 : nat -> Z) (maxTokens : Z)
      (mem : MemoryLayer) (kept : list ConversationTurn) (a : Assembly) :
  out a = kept ->
  sameButStamps now1 now2 kept
    (fold_left (cacheTierStep now1 maxTokens) (semanticCache mem)
       (fold_left (projectStep now1 maxTokens) (projectMemory mem) a))
    (fold_left (cacheTierStep now2 maxTokens) (semanticCache mem)
       (fold_left (projectStep now2 maxTokens) (projectMemory mem) a)).
Proof.
  intros Hkept.
  apply fold_left_related.
  { intros x y [topic cached] Hxy. unfold Compression.cacheTierStep.
    pose proof (tick_sameButStamps _ _ _ _ _ Hxy) as Htick.
    pose proof (accept_sameButStamps now1 now2 kept x y (CacheSummary topic cached)
                  (countTokens [cacheTurn (now1 (clockReads x)) topic cached]) Hxy)
      as Hacc.
    destruct Hxy as (_ & Hcur & _). cbn [tick currentTokens]. rewrite Hcur.
    change (countTokens [cacheTurn (now2 (clockReads y)) topic cached])
      with (countTokens [cacheTurn (now1 (clockReads x)) topic cached]).
    destruct (_ <=? _)%Z; [exact Hacc | exact Htick]. }
  apply fold_left_related.
  { intros x y [topic decisions] Hxy. unfold Compression.projectStep.
    pose proof (tick_sameButStamps _ _ _ _ _ Hxy) as Htick.
    pose proof (accept_sameButStamps now1 now2 kept x y (DecisionSummary topic decisions)
                  (countTokens [summaryTurn JSON_stringify (now1 (clockReads x))
                                            topic decisions]) Hxy)
      as Hacc.
    destruct Hxy as (_ & Hcur & _). cbn [tick currentTokens]. rewrite Hcur.
    change (countTokens [summaryTurn JSON_stringify (now2 (clockReads y)) topic decisions])
      with (countTokens [summaryTurn JSON_stringify (now1 (clockReads x)) topic decisions]).
    destruct (_ <=? _)%Z; [exact Hacc | exact Htick]. }
  split; [reflexivity |]. split; [reflexivity |].
  exists []. cbn. rewrite app_nil_r. split; exact Hkept.
Qed.

Lemma assemble_sameButStamps (now1 now2 : nat -> Z) (maxTokens : Z) (mem : MemoryLayer) :
  exists kept plan,
    Subsequence kept (activeContext mem)
    /\ out (assemble now1 maxTokens mem) = kept ++ stampAll now1 plan
    /\ out (assemble now2 maxTokens mem) = kept ++ stampAll now2 plan.
Proof.
  unfold Compression.assemble.
  destruct (activeStep_keeps_a_subsequence maxTokens (activeContext mem)
              (mkAssembly [] 0 0)) as (kept & Hout & Hsub).
  cbn [out app] in Hout.
  destruct (summaries_sameButStamps now1 now2 maxTokens mem kept _ Hout)
    as (_ & _ & plan & H1 & H2).
  exists kept, plan. split; [exact Hsub |]. split; assumption.
Qed.

(** ** When nothing is returned *)

Lemma fold_left_emptyHanded {X : Type} (step : Assembly -> X -> Assembly)
      (tooLarge : X -> Prop) (l : list X) :
  (forall a x, emptyHanded a -> emptyHanded (step a x)) ->
  (forall a x, emptyHanded a -> (out (step a x) = [] <-> out a = [] /\ tooLarge x)) ->
  forall a, emptyHanded a ->
    emptyHanded (fold_left step l a)
    /\ (out (fold_left step l a) = [] <-> out a = [] /\ Forall tooLarge l).
Proof.
  intros Hkeep Hstep; induction l as [| x l IH]; intros a Ha; cbn [fold_left].
  - split; [exact Ha |]. split; [intros H; split; [exact H | constructor] | tauto].
  - destruct (IH (step a x) (Hkeep a x Ha)) as [Hfin Hiff].
    split; [exact Hfin |]. rewrite Hiff, (Hstep a x Ha).
    split.
    + intros [[H1 H2] H3]. split; [exact H1 | now constructor].
    + intros [H1 H2]. inversion H2; subst. tauto.
Qed.

Lemma accept_not_empty (a : Assembly) (t : ConversationTurn) (n : nat) :
  out (accept a t n) <> [].
Proof. cbn [accept out]. intros H. now apply app_eq_nil in H as [_ H]. Qed.

Lemma activeStep_emptyHanded (maxTokens : Z) (a : Assembly) (t : ConversationTurn) :
  emptyHanded a ->
  emptyHanded (activeStep maxTokens a t)
  /\ (out (activeStep maxTokens a t) = []
      <-> out a = [] /\ (maxTokens < Z.of_nat (countTokens [t]))%Z).
Proof.
  intros Ha. unfold Compression.activeStep.
  destruct (Z.leb_spec (Z.of_nat (currentTokens a + countTokens [t])) maxTokens)
    as [Hfits | Hno].
  - split; [intros H; now apply accept_not_empty in H |].
    split; [intros H; now apply accept_not_empty in H |].
    intros [H Hlarge]. specialize (Ha H). lia.
  - split; [exact Ha |]. split; [| tauto].
    intros H. split; [exact H |]. specialize (Ha H). lia.
Qed.

Lemma projectStep_emptyHanded (now : nat -> Z) (maxTokens : Z) (a : Assembly)
      (entry : string * list Decision) :
  emptyHanded a ->
  emptyHanded (projectStep now maxTokens a entry)
  /\ (out (projectStep now maxTokens a entry) = []
      <-> out a = []
          /\ (maxTokens
              < Z.of_nat (countTokens [summaryTurn JSON_stringify 0 (fst entry)
                                                   (snd entry)]))%Z).
Proof.
  intros Ha. destruct entry as [topic decisions]. unfold Compression.projectStep.
  cbn [tick currentTokens fst snd].
  change (countTokens [summaryTurn JSON_stringify (now (clockReads a)) topic decisions])
    with (countTokens [summaryTurn JSON_stringify 0 topic decisions]).
  destruct (Z.leb_spec (Z.of_nat (currentTokens a
                                  + countTokens [summaryTurn JSON_stringify 0 topic
                                                             decisions])) maxTokens)
    as [Hfits | Hno].
  - split; [intros H; now apply accept_not_empty in H |].
    split; [intros H; now apply accept_not_empty in H |].
    intros [H Hlarge]. specialize (Ha H). lia.
  - split; [exact Ha |]. split; [| cbn; tauto].
    cbn [tick out]. intros H. split; [exact H |]. specialize (Ha H). lia.
Qed.

Lemma cacheTierStep_emptyHanded (now : nat -> Z) (maxTokens : Z) (a : Assembly)
      (entry : string * string) :
  emptyHanded a ->
  emptyHanded (cacheTierStep now maxTokens a entry)
  /\ (out (cacheTierStep now maxTokens a entry) = []
      <-> out a = []
          /\ (9 * maxTokens
              < 10 * Z.of_nat (countTokens [cacheTurn 0 (fst entry) (snd entry)]))%Z).
Proof.
  intros Ha. destruct entry as [topic cached]. unfold Compression.cacheTierStep.
  cbn [tick currentTokens fst snd].
  change (countTokens [cacheTurn (now (clockReads a)) topic cached])
    with (countTokens [cacheTurn 0 topic cached]).
  destruct (Z.leb_spec (10 * Z.of_nat (currentTokens a
                                       + countTokens [cacheTurn 0 topic cached]))
                       (9 * maxTokens)) as [Hfits | Hno].
  - split; [intros H; now apply accept_not_empty in H |].
    split; [intros H; now apply accept_not_empty in H |].
    intros [H Hlarge]. specialize (Ha H). lia.
  - split; [exact Ha |]. split; [| cbn; tauto].
    cbn [tick out]. intros H. split; [exact H |]. specialize (Ha H). lia.
Qed.

Lemma nothing_returned (now : nat -> Z) (maxTokens : Z) (mem : MemoryLayer) :
  priorityBasedCompression encode_length JSON_stringify now maxTokens mem = []
  <-> nothingFits maxTokens mem.
Proof.
  unfold priorityBasedCompression, Compression.assemble, Compression.nothingFits.
  assert (emptyHanded (mkAssembly [] 0 0)) as H0 by (intros _; reflexivity).
  destruct (fold_left_emptyHanded (activeStep maxTokens)
              (fun t => (maxTokens < Z.of_nat (countTokens [t]))%Z)
              (activeContext mem)
              (fun a x Ha => proj1 (activeStep_emptyHanded maxTokens a x Ha))
              (fun a x Ha => proj2 (activeStep_emptyHanded maxTokens a x Ha))
              _ H0) as [H1 Hi1].
  destruct (fold_left_emptyHanded (projectStep now maxTokens)
              (fun e => (maxTokens
                         < Z.of_nat (countTokens [summaryTurn JSON_stringify 0 (fst e)
                                                              (snd e)]))%Z)
              (projectMemory mem)
              (fun a x Ha => proj1 (projectStep_emptyHanded now maxTokens a x Ha))
              (fun a x Ha => proj2 (projectStep_emptyHanded now maxTokens a x Ha))
              _ H1) as [H2 Hi2].
  destruct (fold_left_emptyHanded (cacheTierStep now maxTokens)
              (fun e => (9 * maxTokens
                         < 10 * Z.of_nat (countTokens [cacheTurn 0 (fst e) (snd e)]))%Z)
              (semanticCache mem)
              (fun a x Ha => proj1 (cacheTierStep_emptyHanded now maxTokens a x Ha))
              (fun a x Ha => proj2 (cacheTierStep_emptyHanded now maxTokens a x Ha))
              _ H2) as [_ Hi3].
  rewrite Hi3, Hi2, Hi1. cbn [out]. rewrite !Forall_forall.
  split.
  - intros [[[_ Ha] Hp] Hc]. split; [exact Ha |]. split.
    + intros topic decisions Hin. exact (Hp _ Hin).
    + intros topic cached Hin. exact (Hc _ Hin).
  - intros (Ha & Hp & Hc). split; [split; [split; [reflexivity | exact Ha] |] |].
    + intros [topic decisions] Hin. exact (Hp _ _ Hin).
    + intros [topic cached] Hin. exact (Hc _ _ Hin).
Qed.

Lemma joined_lines_not_empty (t : ConversationTurn) (turns : list ConversationTurn) :
  Js.join Js.newline (map turnLine (t :: turns)) <> EmptyString.
Proof.
  destruct turns as [| u turns]; cbn [map Js.join]; unfold turnLine;
    destruct (role t); discriminate.
Qed.

Lemma countTokens_zero (turns : list ConversationTurn) :
  encode_length EmptyString = 0 ->
  (forall text, text <> EmptyString -> 0 < encode_length text) ->
  (countTokens turns = 0 <-> turns = []).
Proof.
  intros Hempty Hpos. unfold Compression.countTokens. split.
  - destruct turns as [| t turns]; [reflexivity |].
    intros H. pose proof (Hpos _ (joined_lines_not_empty t turns)). lia.
  - intros ->. exact Hempty.
Qed.

Lemma one_turn_counts (t : ConversationTurn) :
  (forall text, text <> EmptyString -> 0 < encode_length text) ->
  0 < countTokens [t].
Proof. intros Hpos. apply Hpos, (joined_lines_not_empty t []). Qed.

End TwoRuns.

(** ** Token budget *)

(** C2, as the specification states it, fails.  Ten turns [user: hi] fit
    their budget one by one, and the reported count, taken over the text
    joined with line breaks, is above the budget plus the size of any
    active-context turn: 39 against 30 + 3 with one token per word and
    punctuation mark, 23 against 20 + 2 with one token per four characters. *)
Lemma C2_counterexample :
  let byWords :=
    Scenario.compressByWords (Scenario.clockAt 0) Scenario.tenGreetings 30 emptyMemory in
  let byChars :=
    Scenario.compress (Scenario.clockAt 0) Scenario.tenGreetings 20 emptyMemory in
  ~ (exists t, In t (activeContext (snd byWords))
               /\ (Z.of_nat (tokenCount (fst byWords))
                   <= 30 + Z.of_nat (countTokens Scenario.wordTokens [t]))%Z)
  /\ ~ (exists t, In t (activeContext (snd byChars))
                  /\ (Z.of_nat (tokenCount (fst byChars))
                      <= 20 + Z.of_nat (countTokens Router.estimateTokens [t]))%Z).
Proof.
  intros byWords byChars; split; intros (t & Hin & Hle); vm_compute in Hin;
    repeat (destruct Hin as [<- | Hin];
            [apply Z.leb_le in Hle; vm_compute in Hle; discriminate Hle |]);
    exact Hin.
Qed.

(** C2, amended.  For every history and every budget B >= 0, the token sizes
    of the returned turns, each turn counted on its own as the budget loop
    counts it, add up to at most B; the reported tokenCount is the count of
    the returned turns joined with line breaks. *)
Theorem C2_accepted_turns_fit_the_budget
        (encode_length : string -> nat) (JSON_stringify : list Decision -> string)
        (now : nat -> Z) (history : list ConversationTurn) (maxTokens : Z)
        (mem : MemoryLayer) :
  (0 <= maxTokens)%Z ->
  let r := fst (compressContext encode_length JSON_stringify now history maxTokens mem) in
  (Z.of_nat (perTurnTokens encode_length (compressed r)) <= maxTokens)%Z
  /\ tokenCount r = countTokens encode_length (compressed r).
Proof.
  intros Hpos r; subst r; cbn [fst compressContext compressed tokenCount].
  split; [| reflexivity].
  destruct (assemble_withinBudget encode_length JSON_stringify now maxTokens
              (updateMemoryLayers (segmentByTopics history) mem) Hpos) as [Hsum Hle].
  unfold priorityBasedCompression. rewrite Hsum. exact Hle.
Qed.

Lemma C2_witness :
  (0 <= 20)%Z
  /\ (Z.of_nat (perTurnTokens Router.estimateTokens
                  (compressed (fst (Scenario.compress (Scenario.clockAt 0)
                                      Scenario.tenGreetings 20 emptyMemory))))
      <= 20)%Z.
Proof.
  split; [lia |].
  apply (C2_accepted_turns_fit_the_budget Router.estimateTokens
           Scenario.stringifyDecisions (Scenario.clockAt 0)
           Scenario.tenGreetings 20 emptyMemory).
  lia.
Defined.

(** ** Running twice *)

(** C3, as the specification states it, fails.  The second run stamps the
    summary turn it builds with the time of the second run. *)
Lemma C3_counterexample :
  let history := [Scenario.say "hi"; Scenario.say "hi"] in
  let first := Scenario.compress (Scenario.clockAt 1000) history 8000 emptyMemory in
  let second := Scenario.compress (Scenario.clockAt 2000) history 8000 (snd first) in
  compressed (fst second) <> compressed (fst first).
Proof.
  intros history first second H.
  vm_compute in H. discriminate H.
Qed.

(** C3, amended.  Running compress twice on one engine with the same history
    and budget leaves the engine's memory as the first run left it and yields
    the same compression ratio, preserved topics and token count.  Both
    turn sequences start with the same turns of the active context, with
    their own timestamps, and go on with the same planned summary turns;
    only the timestamp of a summary turn can differ, being the reading of
    the clock that each run makes for it.  With the same clock readings the
    second result is the first. *)
Theorem C3_second_run_repeats_the_first
        (encode_length : string -> nat) (JSON_stringify : list Decision -> string)
        (now1 now2 : nat -> Z) (history : list ConversationTurn) (maxTokens : Z)
        (mem : MemoryLayer) :
  let first := compressContext encode_length JSON_stringify now1 history maxTokens mem in
  let second :=
    compressContext encode_length JSON_stringify now2 history maxTokens (snd first) in
  snd second = snd first
  /\ (exists kept plan,
         Subsequence kept (activeContext (snd first))
         /\ compressed (fst first) = kept ++ stampAll JSON_stringify now1 plan
         /\ compressed (fst second) = kept ++ stampAll JSON_stringify now2 plan)
  /\ map untimed (compressed (fst second)) = map untimed (compressed (fst first))
  /\ compressionRatio (fst second) = compressionRatio (fst first)
  /\ preservedConcepts (fst second) = preservedConcepts (fst first)
  /\ tokenCount (fst second) = tokenCount (fst first)
  /\ compressContext encode_length JSON_stringify now1 history maxTokens (snd first)
     = first.
Proof.
  intros first second.
  pose proof (compressContext_settled encode_length JSON_stringify now1 history
                                      maxTokens mem) as Hsettled.
  fold first in Hsettled.
  assert (map untimed (compressed (fst second)) = map untimed (compressed (fst first)))
    as Hturns.
  { subst second. unfold compressContext at 1.
    cbn [fst compressed]. rewrite Hsettled.
    unfold priorityBasedCompression.
    exact (proj1 (assemble_sameButTimes encode_length JSON_stringify now2 now1
                    maxTokens (snd first))). }
  assert (countTokens encode_length (compressed (fst second))
          = countTokens encode_length (compressed (fst first))) as Hcount.
  { rewrite <- (countTokens_untimed encode_length (compressed (fst second))).
    rewrite Hturns. apply countTokens_untimed. }
  split; [subst second; rewrite compressContext_memory; exact Hsettled |].
  split.
  { destruct (assemble_sameButStamps encode_length JSON_stringify now1 now2 maxTokens
                (snd first)) as (kept & plan & Hsub & H1 & H2).
    exists kept, plan. split; [exact Hsub |]. split.
    - exact H1.
    - subst second. unfold compressContext at 1. cbn [fst compressed].
      rewrite Hsettled. exact H2. }
  split; [exact Hturns |].
  split.
  { change (Js.div_counts (countTokens encode_length (compressed (fst second)))
                          (countTokens encode_length history)
            = Js.div_counts (countTokens encode_length (compressed (fst first)))
                            (countTokens encode_length history)).
    now rewrite Hcount. }
  split.
  { change (educationalConcepts
              (updateMemoryLayers (segmentByTopics history) (snd first))
            = educationalConcepts (snd first)).
    now rewrite Hsettled. }
  split; [exact Hcount |].
  unfold compressContext at 1. rewrite Hsettled. reflexivity.
Qed.

(** ** The ratio *)




(** ** Project memory across calls *)

Lemma map_get_Some_In {V : Type} (k : string) (v : V) (m : list (string * V)) :
  Js.map_get k m = Some v -> In (k, v) m.
Proof.
  induction m as [| [k' v'] m IH]; simpl; [discriminate |].
  destruct (String.eqb k' k) eqn:E.
  - intros [= ->]. apply String.eqb_eq in E; subst; now left.
  - intros H; right; now apply IH.
Qed.

(** C9, as the specification states it, fails in its second half.  A first
    call stores one decision under "physics"; a second call on another history
    of the same topic stores its own decision there and the first one is gone. *)
Lemma C9_counterexample :
  let first :=
    Scenario.compress (Scenario.clockAt 0) Scenario.firstAsk 8000 emptyMemory in
  let second :=
    Scenario.compress (Scenario.clockAt 60) Scenario.secondAsk 8000 (snd first) in
  ~ (forall topic stored,
        Js.map_get topic (projectMemory (snd first)) = Some stored ->
        exists kept,
          Js.map_get topic (projectMemory (snd second)) = Some kept
          /\ incl stored kept).
Proof.
  intros first second Hmerge.
  destruct (Hmerge "physics"
                   [mkDecision "set the pendulum length to 2m" user (8 # 10)%Q])
    as (kept & Hkept & Hincl).
  { vm_compute. reflexivity. }
  vm_compute in Hkept. injection Hkept as <-.
  specialize (Hincl _ (or_introl eq_refl)).
  destruct Hincl as [Heq | []].
  discriminate Heq.
Qed.

(** C9, amended.  A topic that project memory holds before a compress call
    is still held after it.  Its decisions are left as they were when the call
    extracts no key decision for that topic, and are replaced by the newly
    extracted list when it extracts some. *)
Theorem C9_topics_stay_decisions_are_replaced
        (encode_length : string -> nat) (JSON_stringify : list Decision -> string)
        (now : nat -> Z) (history : list ConversationTurn) (maxTokens : Z)
        (mem : MemoryLayer) (topic : string) (stored : list Decision) :
  Js.map_get topic (projectMemory mem) = Some stored ->
  let mem' := snd (compressContext encode_length JSON_stringify now history maxTokens mem) in
  let extracted :=
    match Js.map_get topic (segmentByTopics history) with
    | Some turns => extractKeyDecisions turns
    | None => []
    end in
  Js.map_get topic (projectMemory mem')
  = Some (match extracted with [] => stored | _ :: _ => extracted end).
Proof.
  intros Hstored mem' extracted; subst mem' extracted.
  rewrite compressContext_memory.
  unfold updateMemoryLayers; cbn [projectMemory].
  rewrite memoryStep_layers; cbn [fst].
  pose proof (segmentByTopics_NoDup history) as Hnd.
  destruct (Js.map_get topic (segmentByTopics history)) as [turns |] eqn:Eseg.
  - apply map_get_Some_In in Eseg.
    destruct (extractKeyDecisions turns) as [| d ds] eqn:Edec.
    + rewrite (write_skipped wantsDecisions extractKeyDecisions topic turns)
        by (try assumption; unfold wantsDecisions; now rewrite Edec).
      exact Hstored.
    + rewrite (write_written wantsDecisions extractKeyDecisions topic turns)
        by (try assumption; unfold wantsDecisions; now rewrite Edec).
      now rewrite Edec.
  - rewrite write_untouched; [exact Hstored |].
    intros Hin. apply map_get_in_keys in Hin. congruence.
Qed.

Lemma C9_witness :
  let first :=
    Scenario.compress (Scenario.clockAt 0) Scenario.firstAsk 8000 emptyMemory in
  (exists stored, Js.map_get "physics" (projectMemory (snd first)) = Some stored)
  /\ Js.map_get "physics"
       (projectMemory
          (snd (Scenario.compress (Scenario.clockAt 60) Scenario.secondAsk 8000
                                  (snd first))))
     = Some [mkDecision "show the pendulum period" user (8 # 10)%Q].
Proof.
  split.
  - eexists. vm_compute. reflexivity.
  - exact (C9_topics_stay_decisions_are_replaced Router.estimateTokens
             Scenario.stringifyDecisions (Scenario.clockAt 60)
             Scenario.secondAsk 8000
             (snd (Scenario.compress (Scenario.clockAt 0) Scenario.firstAsk 8000
                                     emptyMemory))
             "physics"
             [mkDecision "set the pendulum length to 2m" user (8 # 10)%Q]
             eq_refl).
Defined.

(** ** Redundancy compression *)

Lemma ForallOrdPairs_snoc {A : Type} (R : A -> A -> Prop) (l : list A) (x : A) :
  ForallOrdPairs R l -> (forall a, In a l -> R a x) -> ForallOrdPairs R (l ++ [x]).
Proof.
  induction 1 as [| a l Ha Hl IH]; intros Hx; simpl.
  - constructor; constructor.
  - constructor.
    + apply Forall_app; split; [exact Ha |].
      constructor; [apply Hx; now left | constructor].
    + apply IH. intros b Hb; apply Hx; now right.
Qed.

Lemma ForallOrdPairs_weaken {A : Type} (R S : A -> A -> Prop) (l : list A) :
  (forall a b, R a b -> S a b) -> ForallOrdPairs R l -> ForallOrdPairs S l.
Proof.
  intros HRS; induction 1 as [| a l Ha Hl IH].
  - apply FOP_nil.
  - apply FOP_cons; [| exact IH].
    eapply Forall_impl; [| exact Ha]. intros b; apply HRS.
Qed.

(** The similarity is symmetric: both word sets enter the intersection and
    the union in the same way. *)
Lemma similarityCounts_sym (str1 str2 : string) :
  similarityCounts str1 str2 = similarityCounts str2 str1.
Proof.
  unfold similarityCounts. f_equal.
  - apply same_members_same_size; try apply set_of_list_NoDup.
    intros x. rewrite !set_of_list_In, !filter_In, !set_has_In. tauto.
  - apply same_members_same_size; try apply set_of_list_NoDup.
    intros x. rewrite !set_of_list_In, !in_app_iff. tauto.
Qed.

Lemma similar_sym (str1 str2 : string) : similar str1 str2 = similar str2 str1.
Proof.
  unfold similar, calculateSimilarity. now rewrite similarityCounts_sym.
Qed.

Lemma isDuplicate_false (s : string) (uniqueContents : list string) :
  isDuplicate s uniqueContents = false ->
  forall existing, In existing uniqueContents -> similar s existing = false.
Proof.
  unfold isDuplicate. intros H existing Hin.
  destruct (similar s existing) eqn:E; [| reflexivity].
  assert (existsb (fun e => similar s e) uniqueContents = true) as Habs
      by (apply existsb_exists; eauto).
  congruence.
Qed.

Lemma dedupLoop_invariant (turns : list ConversationTurn) :
  forall (uniqueContents : list string) (kept : list ConversationTurn),
    (forall a, In a kept -> In (simplified a) uniqueContents) ->
    ForallOrdPairs distinctEnough kept ->
    exists more,
      snd (dedupLoop turns uniqueContents kept) = kept ++ more
      /\ Subsequence more turns
      /\ ForallOrdPairs distinctEnough (kept ++ more).
Proof.
  induction turns as [| turn rest IH]; intros uniqueContents kept Hseen Hpairs.
  - exists []. rewrite app_nil_r. repeat split; [constructor | exact Hpairs].
  - cbn [dedupLoop].
    destruct (isDuplicate (simplifyContent (content turn)) uniqueContents) eqn:Edup.
    + destruct (IH uniqueContents kept Hseen Hpairs) as (more & Hout & Hsub & Hfop).
      exists more. repeat split; [exact Hout | now constructor | exact Hfop].
    + destruct (IH (Js.set_add (simplifyContent (content turn)) uniqueContents)
                   (kept ++ [turn])) as (more & Hout & Hsub & Hfop).
      * intros a Ha. apply set_add_In. apply in_app_or in Ha.
        destruct Ha as [Ha | [<- | []]]; [right; now apply Hseen | now left].
      * apply ForallOrdPairs_snoc; [exact Hpairs |].
        intros a Ha. unfold distinctEnough. rewrite similar_sym.
        apply (isDuplicate_false _ _ Edup). now apply Hseen.
      * exists (turn :: more). rewrite <- app_assoc in Hout, Hfop.
        repeat split; [exact Hout | now constructor | exact Hfop].
Qed.

Lemma retained_spec (turns : list ConversationTurn) :
  Subsequence (retained turns) turns
  /\ ForallOrdPairs distinctEnough (retained turns).
Proof.
  destruct (dedupLoop_invariant turns [] []) as (more & Hout & Hsub & Hfop).
  - intros a [].
  - constructor.
  - unfold retained. rewrite Hout. simpl in *. now split.
Qed.

(** Turns that all resemble the first one are all dropped. *)
Lemma dedupLoop_near_copies (t : ConversationTurn) (rest : list ConversationTurn) :
  (forall x, In x rest -> similar (simplified x) (simplified t) = true) ->
  dedupLoop rest [simplified t] [t] = ([simplified t], [t]).
Proof.
  induction rest as [| x rest IH]; intros Hall; [reflexivity |].
  cbn [dedupLoop]. unfold isDuplicate; cbn [existsb].
  fold (simplified x). rewrite (Hall x) by now left.
  cbn [orb]. apply IH. intros y Hy; apply Hall; now right.
Qed.

Lemma retained_near_copies (t : ConversationTurn) (rest : list ConversationTurn) :
  (forall x, In x rest -> similar (simplified x) (simplified t) = true) ->
  retained (t :: rest) = [t].
Proof.
  intros Hall. unfold retained. cbn [dedupLoop isDuplicate existsb].
  change (Js.set_add (simplifyContent (content t)) []) with [simplified t].
  cbn [app]. now rewrite dedupLoop_near_copies.
Qed.

(** C5.  Of the turns of one topic, redundancy compression retains a
    subsequence in which no two turns have normalized contents of word-set
    Jaccard similarity above 0.85: of two such turns at most one is retained.
    When a topic consists of a turn followed by one or more turns that all
    resemble it that closely (fifty near-identical turns, say), exactly the
    first turn is retained and the semantic cache gets an entry for the topic,
    the content of that turn. *)
Theorem C5_near_duplicates_collapse
        (encode_length : string -> nat) (JSON_stringify : list Decision -> string)
        (now : nat -> Z) (maxTokens : Z) (mem : MemoryLayer)
        (turns : list ConversationTurn)
        (t : ConversationTurn) (rest : list ConversationTurn) :
  (Subsequence (retained turns) turns
   /\ ForallOrdPairs
        (fun a b =>
           similar (simplifyContent (content a)) (simplifyContent (content b)) = false
           /\ similar (simplifyContent (content b)) (simplifyContent (content a)) = false)
        (retained turns))
  /\ (rest <> [] ->
      (forall x, In x rest ->
                 extractTopic x = extractTopic t
                 /\ similar (simplifyContent (content x)) (simplifyContent (content t))
                    = true) ->
      retained (t :: rest) = [t]
      /\ Js.map_get (extractTopic t)
           (semanticCache
              (snd (compressContext encode_length JSON_stringify now (t :: rest)
                                    maxTokens mem)))
         = Some (content t)).
Proof.
  split.
  - destruct (retained_spec turns) as [Hsub Hfop]. split; [exact Hsub |].
    apply (ForallOrdPairs_weaken distinctEnough); [| exact Hfop].
    intros a b Hab. split; [exact Hab | rewrite similar_sym; exact Hab].
  - intros Hrest Hall.
    assert (retained (t :: rest) = [t]) as Hkept
        by (apply retained_near_copies; intros x Hx; now apply Hall).
    split; [exact Hkept |].
    rewrite compressContext_memory.
    rewrite segmentByTopics_one_topic by (intros x Hx; now apply Hall).
    unfold updateMemoryLayers; cbn [semanticCache].
    unfold compressRedundantInfo; cbn [fold_left cacheStep].
    rewrite Hkept.
    destruct rest as [| x rest']; [congruence |].
    cbn [List.length Nat.ltb Nat.leb map Js.join].
    apply map_get_set_same.
Qed.

Lemma C5_witness :
  retained Scenario.fiftyRequests = [mkTurn user "set length to 2m" 0%Z None]
  /\ Js.map_get "general"
       (semanticCache
          (snd (Scenario.compress (Scenario.clockAt 0) Scenario.fiftyRequests
                                  8000 emptyMemory)))
     = Some "set length to 2m".
Proof.
  apply (C5_near_duplicates_collapse Router.estimateTokens
           Scenario.stringifyDecisions (Scenario.clockAt 0) 8000 emptyMemory
           Scenario.fiftyRequests
           (mkTurn user "set length to 2m" 0%Z None)
           (tl Scenario.fiftyRequests)).
  - discriminate.
  - intros x Hx. vm_compute in Hx.
    repeat (destruct Hx as [<- | Hx]; [split; vm_compute; reflexivity |]).
    destruct Hx.
Defined.

End CompressionFacts.

(* ================================================================== *)
(** * More on the compression engine *)
(* ================================================================== *)

Module CompressionMore.

Import Compression.
Import MapFacts.
Import CompressionFacts.

(** ** Segmentation *)

Lemma map_has_keys {V : Type} (k : string) (m : list (string * V)) :
  Js.map_has k m = Js.set_has k (Js.map_keys m).
Proof.
  unfold Js.map_has, Js.set_has.
  induction m as [| [k' v] m IH]; simpl; [reflexivity |].
  rewrite (String.eqb_sym k k').
  destruct (String.eqb k' k); simpl; [reflexivity | exact IH].
Qed.

Lemma map_set_new {V : Type} (k : string) (v : V) (m : list (string * V)) :
  Js.map_get k m = None -> Js.map_set k v m = m ++ [(k, v)].
Proof.
  induction m as [| [k' v'] m IH]; simpl; [reflexivity |].
  destruct (String.eqb k' k); [discriminate |].
  intros H; now rewrite IH.
Qed.

(** Two maps with the same keys in the same order and the same value under
    every key are the same map. *)
Lemma map_equal {V : Type} (m1 m2 : list (string * V)) :
  NoDup (Js.map_keys m1) ->
  Js.map_keys m1 = Js.map_keys m2 ->
  (forall k, Js.map_get k m1 = Js.map_get k m2) ->
  m1 = m2.
Proof.
  revert m2; induction m1 as [| [k v] m1 IH]; intros [| [k2 v2] m2] Hnd Hkeys Hget;
    try discriminate; [reflexivity |].
  simpl in Hkeys. injection Hkeys as <- Hkeys.
  inversion Hnd as [| ? ? Hnotin Hnd']; subst.
  pose proof (Hget k) as Hk. simpl in Hk. rewrite String.eqb_refl in Hk.
  injection Hk as <-.
  f_equal. apply IH; [exact Hnd' | exact Hkeys |].
  intros k'. specialize (Hget k'). simpl in Hget.
  destruct (String.eqb k k') eqn:E; [| exact Hget].
  apply String.eqb_eq in E; subst k'.
  assert (Js.map_get k m1 = None) as ->.
  { destruct (Js.map_get k m1) eqn:G; [| reflexivity].
    exfalso; apply Hnotin. apply map_get_in_keys. congruence. }
  destruct (Js.map_get k m2) eqn:G; [| reflexivity].
  exfalso; apply Hnotin. rewrite Hkeys. apply map_get_in_keys. congruence.
Qed.

Lemma segmentStep_get (segments : Segments) (turn : ConversationTurn) (k : string) :
  Js.map_get k (segmentStep segments turn) =
  if hasTopic k turn then Some (segmentOf segments k ++ [turn])
  else Js.map_get k segments.
Proof.
  unfold segmentStep, hasTopic, segmentOf, Js.map_has.
  destruct (Js.map_get (extractTopic turn) segments) as [turns |] eqn:G.
  - rewrite G.
    destruct (String.eqb (extractTopic turn) k) eqn:E.
    + apply String.eqb_eq in E; subst k. rewrite G. apply map_get_set_same.
    + apply String.eqb_neq in E. apply map_get_set_other; congruence.
  - rewrite map_get_set_same.
    destruct (String.eqb (extractTopic turn) k) eqn:E.
    + apply String.eqb_eq in E; subst k. rewrite G. apply map_get_set_same.
    + apply String.eqb_neq in E.
      rewrite !map_get_set_other by congruence. reflexivity.
Qed.

Lemma segmentStep_keys (segments : Segments) (turn : ConversationTurn) :
  Js.map_keys (segmentStep segments turn)
  = Js.set_add (extractTopic turn) (Js.map_keys segments).
Proof.
  unfold segmentStep, Js.set_add. rewrite <- map_has_keys. unfold Js.map_has.
  destruct (Js.map_get (extractTopic turn) segments) as [turns |] eqn:G.
  - rewrite G, map_keys_set. unfold Js.map_has. now rewrite G.
  - rewrite map_get_set_same, !map_keys_set. unfold Js.map_has.
    now rewrite map_get_set_same, G.
Qed.

Lemma fold_segmentStep_keys (history : list ConversationTurn) (segments : Segments) :
  Js.map_keys (fold_left segmentStep history segments)
  = fold_left (fun s x => Js.set_add x s) (map extractTopic history)
              (Js.map_keys segments).
Proof.
  revert segments; induction history as [| t history IH]; intros segments; simpl;
    [reflexivity |].
  now rewrite IH, segmentStep_keys.
Qed.

Lemma segmentOf_step (segments : Segments) (turn : ConversationTurn) (k : string) :
  segmentOf (segmentStep segments turn) k =
  if hasTopic k turn then segmentOf segments k ++ [turn] else segmentOf segments k.
Proof.
  unfold segmentOf at 1. rewrite segmentStep_get.
  destruct (hasTopic k turn); reflexivity.
Qed.

Lemma fold_segmentStep_get (history : list ConversationTurn) (segments : Segments)
      (k : string) :
  Js.map_get k (fold_left segmentStep history segments) =
  match Js.map_get k segments, filter (hasTopic k) history with
  | None, [] => None
  | _, found => Some (segmentOf segments k ++ found)
  end.
Proof.
  revert segments; induction history as [| t history IH]; intros segments.
  - cbn [fold_left filter]. unfold segmentOf.
    destruct (Js.map_get k segments); [| reflexivity].
    now rewrite app_nil_r.
  - cbn [fold_left filter]. rewrite IH, segmentStep_get, segmentOf_step.
    destruct (hasTopic k t).
    + rewrite <- app_assoc. cbn [app].
      destruct (Js.map_get k segments); reflexivity.
    + reflexivity.
Qed.

Lemma filter_hasTopic_nil (history : list ConversationTurn) (k : string) :
  filter (hasTopic k) history = [] <-> ~ In k (map extractTopic history).
Proof.
  induction history as [| t history IH]; simpl; [tauto |].
  unfold hasTopic at 1.
  destruct (String.eqb (extractTopic t) k) eqn:E.
  - apply String.eqb_eq in E. split; [discriminate | intros H; exfalso; apply H; now left].
  - apply String.eqb_neq in E. rewrite IH. tauto.
Qed.

Lemma map_get_tabulated {V : Type} (f : string -> V) (ks : list string) (k : string) :
  Js.map_get k (map (fun x => (x, f x)) ks)
  = if Js.set_has k ks then Some (f k) else None.
Proof.
  unfold Js.set_has.
  induction ks as [| x ks IH]; simpl; [reflexivity |].
  rewrite (String.eqb_sym k x).
  destruct (String.eqb x k) eqn:E; simpl; [| exact IH].
  apply String.eqb_eq in E; now subst.
Qed.

(** The turns of all segments, laid end to end, are the history reordered. *)
Lemma map_set_snoc_perm (segments : Segments) (k : string)
      (turns : list ConversationTurn) (t : ConversationTurn) :
  Js.map_get k segments = Some turns ->
  Permutation (List.concat (map snd (Js.map_set k (turns ++ [t]) segments)))
              (t :: List.concat (map snd segments)).
Proof.
  induction segments as [| [k' v'] segments IH]; simpl; [discriminate |].
  destruct (String.eqb k' k).
  - intros [= ->]. simpl. rewrite <- app_assoc. simpl.
    symmetry. apply Permutation_middle.
  - intros G. simpl.
    etransitivity; [apply Permutation_app_head, IH, G |].
    symmetry. apply Permutation_middle.
Qed.

Lemma segmentStep_perm (segments : Segments) (t : ConversationTurn) :
  Permutation (List.concat (map snd (segmentStep segments t)))
              (t :: List.concat (map snd segments)).
Proof.
  unfold segmentStep, Js.map_has.
  destruct (Js.map_get (extractTopic t) segments) as [turns |] eqn:G.
  - rewrite G. now apply map_set_snoc_perm.
  - rewrite map_get_set_same.
    etransitivity; [apply (map_set_snoc_perm _ _ []), map_get_set_same |].
    rewrite (map_set_new _ _ _ G), map_app, concat_app. simpl.
    now rewrite !app_nil_r.
Qed.

Lemma fold_segmentStep_perm (history : list ConversationTurn) (segments : Segments) :
  Permutation (List.concat (map snd (fold_left segmentStep history segments)))
              (List.concat (map snd segments) ++ history).
Proof.
  revert segments; induction history as [| t history IH]; intros segments; simpl.
  - now rewrite app_nil_r.
  - etransitivity; [apply IH |].
    etransitivity; [apply Permutation_app_tail, segmentStep_perm |].
    simpl. apply Permutation_middle.
Qed.

(** The segments are the history filtered topic by topic. *)
Lemma segmentByTopics_spec (history : list ConversationTurn) :
  segmentByTopics history
  = map (fun topic => (topic, filter (hasTopic topic) history))
        (Js.set_of_list (map extractTopic history))
  /\ Permutation (List.concat (map snd (segmentByTopics history))) history.
Proof.
  split.
  - apply map_equal.
    + apply segmentByTopics_NoDup.
    + unfold segmentByTopics. rewrite fold_segmentStep_keys.
      unfold Js.map_keys. rewrite map_map. simpl. now rewrite map_id.
    + intros k. unfold segmentByTopics.
      rewrite fold_segmentStep_get, map_get_tabulated. simpl.
      destruct (filter (hasTopic k) history) as [| t found] eqn:F.
      * pose proof (proj1 (filter_hasTopic_nil history k) F) as Hnone.
        destruct (Js.set_has k _) eqn:S; [| reflexivity].
        apply set_has_In in S. apply (proj1 (set_of_list_In _ _)) in S. contradiction.
      * assert (In k (map extractTopic history)) as Hin.
        { destruct (in_dec string_dec k (map extractTopic history)) as [H | H];
            [exact H |].
          pose proof (proj2 (filter_hasTopic_nil history k) H). congruence. }
        apply (proj2 (set_of_list_In _ _)) in Hin.
        apply (proj2 (set_has_In _ _)) in Hin. now rewrite Hin.
  - exact (fold_segmentStep_perm history []).
Qed.

(** X1.  Segmentation files every turn under exactly one topic: the segments
    are, for each topic in order of first appearance, the turns of that topic
    in their original order, and together they are the history reordered. *)
Theorem X1_segments_partition_the_history (history : list ConversationTurn) :
  segmentByTopics history
  = map (fun topic => (topic, filter (hasTopic topic) history))
        (Js.set_of_list (map extractTopic history))
  /\ Permutation (List.concat (map snd (segmentByTopics history))) history.
Proof. exact (segmentByTopics_spec history). Qed.

(** ** The active-context window *)

Lemma lastN_length {A : Type} (n : nat) (xs : list A) :
  List.length (lastN n xs) = Nat.min n (List.length xs).
Proof. unfold lastN. rewrite length_skipn. lia. Qed.

Lemma lastN_In {A : Type} (n : nat) (xs : list A) (x : A) :
  In x (lastN n xs) -> In x xs.
Proof.
  unfold lastN. intros H.
  rewrite <- (firstn_skipn (List.length xs - n) xs). apply in_or_app; now right.
Qed.

(** X2.  After a compress call the active context holds the last ten turns of
    the history regrouped by topic (topics in order of first appearance):
    it has min(10, |history|) turns, all of them turns of the history, and
    for a history of a single topic it is the last ten turns in order. *)
Theorem X2_active_context_window
        (encode_length : string -> nat) (JSON_stringify : list Decision -> string)
        (now : nat -> Z) (history : list ConversationTurn) (maxTokens : Z)
        (mem : MemoryLayer) :
  let active :=
    activeContext
      (snd (compressContext encode_length JSON_stringify now history maxTokens mem)) in
  active
  = lastN MAX_ACTIVE_TURNS
          (List.concat (map (fun topic => filter (hasTopic topic) history)
                            (Js.set_of_list (map extractTopic history))))
  /\ List.length active = Nat.min MAX_ACTIVE_TURNS (List.length history)
  /\ (forall t, In t active -> In t history)
  /\ ((forall a b, In a history -> In b history -> extractTopic a = extractTopic b) ->
      active = lastN MAX_ACTIVE_TURNS history).
Proof.
  intros active; subst active.
  rewrite compressContext_memory. unfold updateMemoryLayers; cbn [activeContext].
  destruct (segmentByTopics_spec history) as [Hseg Hperm].
  repeat split.
  - rewrite Hseg, map_map. reflexivity.
  - rewrite lastN_length. now rewrite (Permutation_length Hperm).
  - intros t Ht. apply lastN_In in Ht.
    now apply (Permutation_in _ Hperm).
  - intros Hsame. destruct history as [| t rest]; [reflexivity |].
    rewrite segmentByTopics_one_topic.
    + cbn [map snd List.concat]. now rewrite app_nil_r.
    + intros x Hx. apply Hsame; [now right | now left].
Qed.

Lemma X2_witness :
  activeContext (snd (Scenario.compress (Scenario.clockAt 0) Scenario.fiftyRequests
                                        8000 emptyMemory))
  = lastN MAX_ACTIVE_TURNS Scenario.fiftyRequests.
Proof.
  apply (X2_active_context_window Router.estimateTokens Scenario.stringifyDecisions
           (Scenario.clockAt 0) Scenario.fiftyRequests 8000 emptyMemory).
  intros a b Ha Hb.
  assert (forall x, In x Scenario.fiftyRequests -> extractTopic x = "general") as Hall.
  { intros x Hx. vm_compute in Hx.
    repeat (destruct Hx as [<- | Hx]; [vm_compute; reflexivity |]).
    destruct Hx. }
  now rewrite (Hall a Ha), (Hall b Hb).
Defined.

(** ** Similarity *)

Lemma wordSet_nonempty (s : string) : wordSet s <> [].
Proof.
  unfold wordSet, Js.split_space.
  assert (forall d t cur, Js.split_on d t cur <> []) as Hsplit.
  { intros d t; induction t as [| c t IH]; intros cur; simpl; [discriminate |].
    destruct (Ascii.eqb c d); [discriminate | apply IH]. }
  intros Hnil.
  destruct (Js.split_on " " s EmptyString) as [| w ws] eqn:E.
  - now apply Hsplit in E.
  - assert (In w (Js.set_of_list (w :: ws))) as Hin
        by (apply set_of_list_In; now left).
    rewrite Hnil in Hin. destruct Hin.
Qed.

Lemma similarityCounts_bounds (str1 str2 : string) :
  fst (similarityCounts str1 str2) <= snd (similarityCounts str1 str2)
  /\ 0 < snd (similarityCounts str1 str2).
Proof.
  unfold similarityCounts; cbn [fst snd]. split.
  - apply NoDup_incl_length; [apply set_of_list_NoDup |].
    intros x Hx. apply (proj1 (set_of_list_In _ _)) in Hx.
    apply filter_In in Hx. apply set_of_list_In, in_or_app. now left.
  - destruct (Js.set_of_list (wordSet str1 ++ wordSet str2)) as [| x l] eqn:E;
      [| simpl; lia].
    exfalso. destruct (wordSet str1) as [| w ws] eqn:W;
      [now apply wordSet_nonempty in W |].
    assert (In w (Js.set_of_list ((w :: ws) ++ wordSet str2))) as Hin
        by (apply set_of_list_In; now left).
    rewrite E in Hin. destruct Hin.
Qed.

Lemma similarityCounts_same (str : string) :
  fst (similarityCounts str str) = snd (similarityCounts str str).
Proof.
  unfold similarityCounts; cbn [fst snd].
  apply same_members_same_size; try apply set_of_list_NoDup.
  intros x. rewrite !set_of_list_In, filter_In, in_app_iff, set_has_In. tauto.
Qed.

(** X3.  The similarity of two strings is a quotient i/u of set sizes with
    0 <= i <= u and u >= 1, so it lies in [0, 1] and is never NaN; it does
    not depend on the order of its arguments, and a string is similar to
    itself (quotient 1, above the 0.85 threshold). *)
Theorem X3_similarity_is_a_symmetric_ratio (str1 str2 : string) :
  (exists i u,
      similarityCounts str1 str2 = (i, u) /\ i <= u /\ 0 < u
      /\ calculateSimilarity str1 str2 = Js.Finite (Z.of_nat i # Pos.of_nat u))
  /\ calculateSimilarity str1 str2 = calculateSimilarity str2 str1
  /\ similar str1 str2 = similar str2 str1
  /\ similar str1 str1 = true.
Proof.
  repeat split.
  - destruct (similarityCounts_bounds str1 str2) as [Hle Hpos].
    unfold calculateSimilarity.
    destruct (similarityCounts str1 str2) as [i u]; cbn [fst snd] in *.
    exists i, u. repeat split; try assumption.
    destruct u; [lia | reflexivity].
  - unfold calculateSimilarity. now rewrite similarityCounts_sym.
  - apply similar_sym.
  - pose proof (similarityCounts_same str1) as Hsame.
    destruct (similarityCounts_bounds str1 str1) as [_ Hpos].
    unfold similar, calculateSimilarity.
    destruct (similarityCounts str1 str1) as [i u]; cbn [fst snd] in *; subst u.
    destruct i as [| n]; [lia |].
    unfold exceeds085, Js.div_counts, Js.Qltb.
    destruct (Qle_bool _ _) eqn:E; [| reflexivity].
    apply Qle_bool_iff in E. unfold Qle in E; cbn [Qnum Qden] in E. lia.
Qed.

(** ** What redundancy compression keeps and what it caches *)

Lemma Subsequence_length {A : Type} (l1 l2 : list A) :
  Subsequence l1 l2 -> List.length l1 <= List.length l2.
Proof. induction 1; simpl; lia. Qed.

Lemma Subsequence_In {A : Type} (l1 l2 : list A) (x : A) :
  Subsequence l1 l2 -> In x l1 -> In x l2.
Proof.
  induction 1 as [| y l1 l2 _ IH | y l1 l2 _ IH]; simpl; [tauto | tauto |].
  intros [-> | H]; [now left | right; now apply IH].
Qed.

Lemma retained_head (t : ConversationTurn) (rest : list ConversationTurn) :
  exists more, retained (t :: rest) = t :: more /\ Subsequence more rest.
Proof.
  unfold retained. cbn [dedupLoop isDuplicate existsb app].
  destruct (dedupLoop_invariant rest (Js.set_add (simplifyContent (content t)) []) [t])
    as (more & Hout & Hsub & _).
  - intros a [<- | []]. apply set_add_In. now left.
  - constructor; constructor.
  - exists more. now rewrite Hout.
Qed.

(** X4.  Redundancy compression always retains the first turn of a topic
    and never more turns than the topic has; every retained turn is a turn
    of the topic. *)
Theorem X4_first_turn_is_retained (turns : list ConversationTurn) :
  hd_error (retained turns) = hd_error turns
  /\ List.length (retained turns) <= List.length turns
  /\ (forall t, In t (retained turns) -> In t turns).
Proof.
  destruct (retained_spec turns) as [Hsub _].
  repeat split.
  - destruct turns as [| t rest]; [reflexivity |].
    destruct (retained_head t rest) as (more & -> & _). reflexivity.
  - now apply Subsequence_length.
  - intros t. now apply Subsequence_In.
Qed.


Lemma X4_witness :
  In (Scenario.say "hi") (retained Scenario.tenGreetings)
  /\ In (Scenario.say "hi") Scenario.tenGreetings.
Proof.
  assert (In (Scenario.say "hi") (retained Scenario.tenGreetings)) as Hin
    by (vm_compute; left; reflexivity).
  split; [exact Hin |].
  exact (proj2 (proj2 (X4_first_turn_is_retained Scenario.tenGreetings)) _ Hin).
Defined.

Section AnyTokenizer.

Variable encode_length : string -> nat.
Variable JSON_stringify : list Decision -> string.

Local Abbreviation compressContext := (compressContext encode_length JSON_stringify).

Lemma compressContext_cache (now : nat -> Z) (history : list ConversationTurn)
      (maxTokens : Z) (mem : MemoryLayer) (topic : string) :
  Js.map_get topic (semanticCache (snd (compressContext now history maxTokens mem)))
  = if wantsCache (segmentOf (segmentByTopics history) topic)
    then Some (cacheValue (segmentOf (segmentByTopics history) topic))
    else Js.map_get topic (semanticCache mem).
Proof.
  rewrite compressContext_memory.
  unfold updateMemoryLayers; cbn [semanticCache].
  rewrite compressRedundantInfo_writes.
  pose proof (segmentByTopics_NoDup history) as Hnd.
  unfold segmentOf.
  destruct (Js.map_get topic (segmentByTopics history)) as [turns |] eqn:G.
  - apply map_get_Some_In in G.
    destruct (wantsCache turns) eqn:W.
    + now apply write_written.
    + now apply (write_skipped wantsCache cacheValue topic turns).
  - cbn. apply write_untouched.
    intros Hin. apply map_get_in_keys in Hin. congruence.
Qed.

Lemma compressContext_concepts (now : nat -> Z) (history : list ConversationTurn)
      (maxTokens : Z) (mem : MemoryLayer) (c : string) :
  In c (educationalConcepts (snd (compressContext now history maxTokens mem)))
  <-> In c (educationalConcepts mem)
      \/ (c <> "general" /\ In c (map extractTopic history)).
Proof.
  rewrite compressContext_memory.
  unfold updateMemoryLayers; cbn [educationalConcepts].
  rewrite memoryStep_layers; cbn [snd].
  assert (forall segments concepts,
             In c (fold_left conceptStep segments concepts)
             <-> In c concepts \/ (c <> "general" /\ In c (Js.map_keys segments)))
    as Hfold.
  { induction segments as [| [k ts] segments IH]; intros concepts; simpl; [tauto |].
    rewrite IH. unfold conceptStep; cbn [fst].
    destruct (String.eqb k "general") eqn:E; cbn [negb].
    - apply String.eqb_eq in E; subst k. intuition congruence.
    - apply String.eqb_neq in E. rewrite set_add_In. intuition congruence. }
  rewrite Hfold.
  destruct (segmentByTopics_spec history) as [Hseg _].
  rewrite Hseg at 1. unfold Js.map_keys. rewrite map_map; cbn [fst]. rewrite map_id.
  now rewrite set_of_list_In.
Qed.

End AnyTokenizer.

(** X5.  The semantic cache after a compress call: a topic's entry is
    rewritten, to the retained turns' contents joined by line breaks, exactly
    when redundancy compression dropped a turn of that topic in this call;
    every other entry, present or absent, is left as it was, so that a topic
    once cached is never removed. *)
Theorem X5_cache_written_only_on_a_drop
        (encode_length : string -> nat) (JSON_stringify : list Decision -> string)
        (now : nat -> Z) (history : list ConversationTurn) (maxTokens : Z)
        (mem : MemoryLayer) (topic : string) :
  let turns := filter (hasTopic topic) history in
  Js.map_get topic
    (semanticCache
       (snd (compressContext encode_length JSON_stringify now history maxTokens mem)))
  = if List.length (retained turns) <? List.length turns
    then Some (Js.join Js.newline (map content (retained turns)))
    else Js.map_get topic (semanticCache mem).
Proof.
  intros turns. rewrite compressContext_cache.
  assert (segmentOf (segmentByTopics history) topic = turns) as ->.
  { unfold segmentOf, segmentByTopics.
    rewrite fold_segmentStep_get. cbn [Js.map_get]. subst turns.
    destruct (filter (hasTopic topic) history); reflexivity. }
  reflexivity.
Qed.

(** X6.  The concept set after a compress call holds what it held before and
    every topic of the history other than "general", and nothing else; no
    entry is duplicated if none was.  The result reports exactly this set. *)
Theorem X6_concepts_grow_by_the_topics_seen
        (encode_length : string -> nat) (JSON_stringify : list Decision -> string)
        (now : nat -> Z) (history : list ConversationTurn) (maxTokens : Z)
        (mem : MemoryLayer) :
  let run := compressContext encode_length JSON_stringify now history maxTokens mem in
  (forall c, In c (educationalConcepts (snd run))
             <-> In c (educationalConcepts mem)
                 \/ (c <> "general" /\ exists t, In t history /\ extractTopic t = c))
  /\ (NoDup (educationalConcepts mem) -> NoDup (educationalConcepts (snd run)))
  /\ preservedConcepts (fst run) = educationalConcepts (snd run).
Proof.
  intros run; subst run. repeat split.
  - intros H. apply compressContext_concepts in H.
    destruct H as [H | [Hne H]]; [now left | right; split; [exact Hne |]].
    apply in_map_iff in H. destruct H as (t & <- & Ht). now exists t.
  - intros H. apply compressContext_concepts.
    destruct H as [H | [Hne (t & Ht & <-)]]; [now left | right; split; [exact Hne |]].
    now apply in_map.
  - intros Hnd. rewrite compressContext_memory.
    unfold updateMemoryLayers; cbn [educationalConcepts].
    rewrite memoryStep_layers; cbn [snd].
    apply fold_left_invariant; [| exact Hnd].
    intros concepts [k ts] Hc. unfold conceptStep; cbn [fst].
    destruct (negb _); [now apply set_add_NoDup | exact Hc].
Qed.

Lemma X6_witness :
  NoDup (educationalConcepts
           (snd (Scenario.compress (Scenario.clockAt 0) Scenario.firstAsk 8000
                                   emptyMemory))).
Proof.
  apply (X6_concepts_grow_by_the_topics_seen Router.estimateTokens
           Scenario.stringifyDecisions (Scenario.clockAt 0) Scenario.firstAsk 8000
           emptyMemory).
  constructor.
Defined.

(** ** The shape of the result *)

Section Assembling.

Variable encode_length : string -> nat.
Variable JSON_stringify : list Decision -> string.

Local Abbreviation countTokens := (countTokens encode_length).
Local Abbreviation perTurnTokens := (perTurnTokens encode_length).
Local Abbreviation activeStep := (activeStep encode_length).
Local Abbreviation projectStep := (projectStep encode_length JSON_stringify).
Local Abbreviation cacheTierStep := (cacheTierStep encode_length).
Local Abbreviation summaryTurn := (summaryTurn JSON_stringify).

Lemma active_tier (maxTokens : Z) (turns : list ConversationTurn) (a : Assembly) :
  exists kept,
    out (fold_left (activeStep maxTokens) turns a) = out a ++ kept
    /\ Subsequence kept turns.
Proof.
  revert a; induction turns as [| t turns IH]; intros a; cbn [fold_left].
  - exists []. rewrite app_nil_r. split; [reflexivity | constructor].
  - destruct (IH (activeStep maxTokens a t)) as (kept & Hout & Hsub).
    rewrite Hout. unfold Compression.activeStep.
    destruct (_ <=? _)%Z.
    + exists (t :: kept). cbn [accept out]. rewrite <- app_assoc.
      split; [reflexivity | now constructor].
    + exists kept. split; [reflexivity | now constructor].
Qed.

Lemma active_tier_all_fit (maxTokens : Z) (turns : list ConversationTurn) (a : Assembly) :
  (Z.of_nat (currentTokens a + perTurnTokens turns) <= maxTokens)%Z ->
  out (fold_left (activeStep maxTokens) turns a) = out a ++ turns.
Proof.
  revert a; induction turns as [| t turns IH]; intros a Hfit; cbn [fold_left].
  - now rewrite app_nil_r.
  - change (perTurnTokens (t :: turns))
      with (countTokens [t] + perTurnTokens turns) in Hfit.
    unfold Compression.activeStep at 2.
    destruct (Z.leb_spec (Z.of_nat (currentTokens a + countTokens [t])) maxTokens)
      as [_ | Hno]; [| lia].
    rewrite IH.
    + cbn [accept out]. now rewrite <- app_assoc.
    + cbn [accept currentTokens]. lia.
Qed.

Lemma project_tier (now : nat -> Z) (maxTokens : Z)
      (entries : list (string * list Decision)) (a : Assembly) :
  exists summaries,
    out (fold_left (projectStep now maxTokens) entries a) = out a ++ summaries
    /\ List.length summaries <= List.length entries
    /\ Forall (fun t => exists stamp topic decisions,
                   In (topic, decisions) entries
                   /\ t = summaryTurn stamp topic decisions) summaries.
Proof.
  revert a; induction entries as [| [topic decisions] entries IH]; intros a;
    cbn [fold_left].
  - exists []. rewrite app_nil_r. repeat split; [simpl; lia | constructor].
  - destruct (IH (projectStep now maxTokens a (topic, decisions)))
      as (more & Hout & Hlen & Hall).
    assert (Forall (fun t => exists stamp topic0 decisions0,
                        In (topic0, decisions0) ((topic, decisions) :: entries)
                        /\ t = summaryTurn stamp topic0 decisions0) more) as Hall'.
    { eapply Forall_impl; [| exact Hall].
      intros t (stamp & k & ds & Hin & ->). exists stamp, k, ds.
      split; [now right | reflexivity]. }
    rewrite Hout. unfold Compression.projectStep.
    destruct (_ <=? _)%Z.
    + eexists (_ :: more). cbn [accept tick out]. rewrite <- app_assoc.
      split; [reflexivity |]. split; [simpl; lia |].
      constructor; [| exact Hall'].
      eexists _, topic, decisions. split; [now left | reflexivity].
    + exists more. cbn [tick out].
      split; [reflexivity |]. split; [simpl; lia | exact Hall'].
Qed.

Lemma cache_tier (now : nat -> Z) (maxTokens : Z)
      (entries : list (string * string)) (a : Assembly) :
  exists summaries,
    out (fold_left (cacheTierStep now maxTokens) entries a) = out a ++ summaries
    /\ List.length summaries <= List.length entries
    /\ Forall (fun t => exists stamp topic cached,
                   In (topic, cached) entries
                   /\ t = cacheTurn stamp topic cached) summaries.
Proof.
  revert a; induction entries as [| [topic cached] entries IH]; intros a;
    cbn [fold_left].
  - exists []. rewrite app_nil_r. repeat split; [simpl; lia | constructor].
  - destruct (IH (cacheTierStep now maxTokens a (topic, cached)))
      as (more & Hout & Hlen & Hall).
    assert (Forall (fun t => exists stamp topic0 cached0,
                        In (topic0, cached0) ((topic, cached) :: entries)
                        /\ t = cacheTurn stamp topic0 cached0) more) as Hall'.
    { eapply Forall_impl; [| exact Hall].
      intros t (stamp & k & c & Hin & ->). exists stamp, k, c.
      split; [now right | reflexivity]. }
    rewrite Hout. unfold Compression.cacheTierStep.
    destruct (_ <=? _)%Z.
    + eexists (_ :: more). cbn [accept tick out]. rewrite <- app_assoc.
      split; [reflexivity |]. split; [simpl; lia |].
      constructor; [| exact Hall'].
      eexists _, topic, cached. split; [now left | reflexivity].
    + exists more. cbn [tick out].
      split; [reflexivity |]. split; [simpl; lia | exact Hall'].
Qed.

Lemma assemble_nothing_fits (now : nat -> Z) (maxTokens : Z) (mem : MemoryLayer) :
  (maxTokens < 0)%Z ->
  out (assemble encode_length JSON_stringify now maxTokens mem) = [].
Proof.
  intros Hneg. unfold assemble.
  apply (fold_left_invariant (fun a => out a = [])).
  { intros a [topic cached] Ha. unfold Compression.cacheTierStep.
    destruct (Z.leb_spec (10 * Z.of_nat (currentTokens (tick a) + countTokens [cacheTurn (now (clockReads a)) topic cached])) (9 * maxTokens));
      [lia | exact Ha]. }
  apply (fold_left_invariant (fun a => out a = [])).
  { intros a [topic decisions] Ha. unfold Compression.projectStep.
    destruct (Z.leb_spec (Z.of_nat (currentTokens (tick a) + countTokens [summaryTurn (now (clockReads a)) topic decisions])) maxTokens);
      [lia | exact Ha]. }
  apply (fold_left_invariant (fun a => out a = [])).
  { intros a t Ha. unfold Compression.activeStep.
    destruct (Z.leb_spec (Z.of_nat (currentTokens a + countTokens [t])) maxTokens);
      [lia | exact Ha]. }
  reflexivity.
Qed.

End Assembling.

(** X7.  The turns compress returns are, in this order: turns of the active
    context, in their order there; then summary turns of project-memory
    topics; then summary turns of semantic-cache topics, at most one per
    stored topic.  No turn of the history outside the active context is ever
    returned, and the result has at most 10 + |project memory| + |cache|
    turns. *)
Theorem X7_result_is_active_turns_then_summaries
        (encode_length : string -> nat) (JSON_stringify : list Decision -> string)
        (now : nat -> Z) (history : list ConversationTurn) (maxTokens : Z)
        (mem : MemoryLayer) :
  let run := compressContext encode_length JSON_stringify now history maxTokens mem in
  exists kept decided cached,
    compressed (fst run) = kept ++ decided ++ cached
    /\ Subsequence kept (activeContext (snd run))
    /\ Forall (fun t => exists stamp topic decisions,
                   In (topic, decisions) (projectMemory (snd run))
                   /\ t = summaryTurn JSON_stringify stamp topic decisions) decided
    /\ Forall (fun t => exists stamp topic text,
                   In (topic, text) (semanticCache (snd run))
                   /\ t = cacheTurn stamp topic text) cached
    /\ List.length (compressed (fst run))
       <= MAX_ACTIVE_TURNS + List.length (projectMemory (snd run))
          + List.length (semanticCache (snd run)).
Proof.
  intros run; subst run.
  cbn [fst snd compressContext compressed].
  set (mem' := updateMemoryLayers (segmentByTopics history) mem).
  unfold priorityBasedCompression, assemble.
  destruct (active_tier encode_length maxTokens (activeContext mem') (mkAssembly [] 0 0))
    as (kept & H1 & Hsub).
  destruct (project_tier encode_length JSON_stringify now maxTokens (projectMemory mem')
              (fold_left (activeStep encode_length maxTokens) (activeContext mem')
                         (mkAssembly [] 0 0)))
    as (decided & H2 & Hlen2 & Hall2).
  destruct (cache_tier encode_length now maxTokens (semanticCache mem')
              (fold_left (projectStep encode_length JSON_stringify now maxTokens)
                         (projectMemory mem')
                         (fold_left (activeStep encode_length maxTokens)
                                    (activeContext mem') (mkAssembly [] 0 0))))
    as (cached & H3 & Hlen3 & Hall3).
  exists kept, decided, cached.
  rewrite H3, H2, H1. cbn [out app]. rewrite <- app_assoc.
  repeat split; try assumption.
  rewrite !length_app.
  pose proof (Subsequence_length _ _ Hsub) as Hk.
  assert (List.length (activeContext mem') <= MAX_ACTIVE_TURNS) as Ha.
  { subst mem'. unfold updateMemoryLayers; cbn [activeContext].
    rewrite lastN_length. lia. }
  lia.
Qed.

(** X8.  When the turns of the active context, each counted on its own, fit
    the budget together, the result starts with the whole active context,
    verbatim and in order. *)
Theorem X8_active_context_kept_whole_when_it_fits
        (encode_length : string -> nat) (JSON_stringify : list Decision -> string)
        (now : nat -> Z) (history : list ConversationTurn) (maxTokens : Z)
        (mem : MemoryLayer) :
  let run := compressContext encode_length JSON_stringify now history maxTokens mem in
  (Z.of_nat (perTurnTokens encode_length (activeContext (snd run))) <= maxTokens)%Z ->
  exists summaries,
    compressed (fst run) = activeContext (snd run) ++ summaries.
Proof.
  intros run Hfit; subst run.
  cbn [fst snd compressContext compressed] in *.
  set (mem' := updateMemoryLayers (segmentByTopics history) mem) in *.
  unfold priorityBasedCompression, assemble.
  pose proof (active_tier_all_fit encode_length maxTokens (activeContext mem')
                (mkAssembly [] 0 0) Hfit) as H1.
  destruct (project_tier encode_length JSON_stringify now maxTokens (projectMemory mem')
              (fold_left (activeStep encode_length maxTokens) (activeContext mem')
                         (mkAssembly [] 0 0)))
    as (decided & H2 & _).
  destruct (cache_tier encode_length now maxTokens (semanticCache mem')
              (fold_left (projectStep encode_length JSON_stringify now maxTokens)
                         (projectMemory mem')
                         (fold_left (activeStep encode_length maxTokens)
                                    (activeContext mem') (mkAssembly [] 0 0))))
    as (cached & H3 & _).
  exists (decided ++ cached).
  rewrite H3, H2, H1. cbn [out app]. now rewrite <- app_assoc.
Qed.

Lemma X8_witness :
  exists summaries,
    compressed (fst (Scenario.compress (Scenario.clockAt 0) Scenario.tenGreetings
                                       20 emptyMemory))
    = Scenario.tenGreetings ++ summaries.
Proof.
  apply (X8_active_context_kept_whole_when_it_fits Router.estimateTokens
           Scenario.stringifyDecisions (Scenario.clockAt 0) Scenario.tenGreetings
           20 emptyMemory).
  apply Z.leb_le. vm_compute. reflexivity.
Defined.

(** X9.  With a negative budget nothing is returned: the turn sequence is
    empty and the token count is that of the empty text; the memory is
    updated all the same, exactly as under any other budget. *)
Theorem X9_negative_budget_returns_nothing
        (encode_length : string -> nat) (JSON_stringify : list Decision -> string)
        (now : nat -> Z) (history : list ConversationTurn) (maxTokens other : Z)
        (mem : MemoryLayer) :
  (maxTokens < 0)%Z ->
  let run := compressContext encode_length JSON_stringify now history maxTokens mem in
  compressed (fst run) = []
  /\ tokenCount (fst run) = encode_length EmptyString
  /\ snd run
     = snd (compressContext encode_length JSON_stringify now history other mem).
Proof.
  intros Hneg run; subst run.
  cbn [fst snd compressContext compressed tokenCount].
  unfold priorityBasedCompression.
  rewrite (assemble_nothing_fits encode_length JSON_stringify now maxTokens _ Hneg).
  repeat split.
Qed.

Lemma X9_witness :
  (-1 < 0)%Z
  /\ compressed (fst (Scenario.compress (Scenario.clockAt 0) Scenario.tenGreetings
                                        (-1) emptyMemory)) = [].
Proof.
  split; [lia |].
  apply (X9_negative_budget_returns_nothing Router.estimateTokens
           Scenario.stringifyDecisions (Scenario.clockAt 0) Scenario.tenGreetings
           (-1) 0 emptyMemory).
  lia.
Defined.

(** X10.  Compressing an empty history clears the active context and leaves
    project memory, semantic cache and concept set untouched.  With a
    tokenizer that counts no token in the empty text, the compression ratio
    is then a division by zero: NaN when nothing is returned, Infinity when
    summaries of earlier calls are. *)
Theorem X10_empty_history
        (encode_length : string -> nat) (JSON_stringify : list Decision -> string)
        (now : nat -> Z) (maxTokens : Z) (mem : MemoryLayer) :
  let run := compressContext encode_length JSON_stringify now [] maxTokens mem in
  snd run = mkMemory [] (projectMemory mem) (semanticCache mem)
                     (educationalConcepts mem)
  /\ (encode_length EmptyString = 0 ->
      compressionRatio (fst run)
      = match tokenCount (fst run) with O => Js.NaN | S _ => Js.Infinity end).
Proof.
  intros run; subst run. split; [reflexivity |].
  intros Hzero.
  cbn [fst compressContext compressionRatio tokenCount].
  change (countTokens encode_length []) with (encode_length EmptyString).
  rewrite Hzero. reflexivity.
Qed.

Lemma X10_witness :
  Router.estimateTokens EmptyString = 0
  /\ compressionRatio
       (fst (Scenario.compress (Scenario.clockAt 0) [] 8000 emptyMemory))
     = Js.NaN.
Proof.
  split; [reflexivity |].
  exact (proj2 (X10_empty_history Router.estimateTokens Scenario.stringifyDecisions
                  (Scenario.clockAt 0) 8000 emptyMemory) eq_refl).
Defined.

(** ** Snapshots *)

(** X11.  restoreMemoryState replaces exactly the layers that the state it
    is given holds and leaves the others as they are, for every partial
    state; restoring the same state again changes nothing.  A snapshot taken
    with getMemoryState and handed back whole reinstates the memory whatever
    the engine has done since, in particular after any run of compress, and
    the engine then answers compress as it did at the time of the snapshot. *)
Theorem X11_snapshot_round_trip
        (encode_length : string -> nat) (JSON_stringify : list Decision -> string)
        (now later : nat -> Z) (history other : list ConversationTurn)
        (maxTokens budget : Z) (mem engine : MemoryLayer) (state : PartialMemory) :
  let restored := restoreMemoryState state engine in
  let snapshot := getMemoryState mem in
  let after :=
    snd (compressContext encode_length JSON_stringify later other budget mem) in
  ((forall a, savedActiveContext state = Some a -> activeContext restored = a)
   /\ (savedActiveContext state = None -> activeContext restored = activeContext engine))
  /\ ((forall p, savedProjectMemory state = Some p -> projectMemory restored = p)
      /\ (savedProjectMemory state = None ->
          projectMemory restored = projectMemory engine))
  /\ ((forall c, savedSemanticCache state = Some c -> semanticCache restored = c)
      /\ (savedSemanticCache state = None ->
          semanticCache restored = semanticCache engine))
  /\ ((forall e, savedEducationalConcepts state = Some e ->
                 educationalConcepts restored = e)
      /\ (savedEducationalConcepts state = None ->
          educationalConcepts restored = educationalConcepts engine))
  /\ restoreMemoryState state restored = restored
  /\ restoreMemoryState (allLayers snapshot) engine = mem
  /\ restoreMemoryState (allLayers snapshot) after = mem
  /\ compressContext encode_length JSON_stringify now history maxTokens
       (restoreMemoryState (allLayers snapshot) after)
     = compressContext encode_length JSON_stringify now history maxTokens mem.
Proof.
  cbv zeta.
  assert (forall m, restoreMemoryState (allLayers (getMemoryState mem)) m = mem) as Hback
      by (intros m; destruct mem; reflexivity).
  unfold restoreMemoryState at 1 2 3 4 5 6 7 8.
  destruct state as [[a |] [p |] [c |] [e |]]; cbn;
    (split; [split; [intros x Hx; congruence | intros Hx; congruence] |]);
    (split; [split; [intros x Hx; congruence | intros Hx; congruence] |]);
    (split; [split; [intros x Hx; congruence | intros Hx; congruence] |]);
    (split; [split; [intros x Hx; congruence | intros Hx; congruence] |]);
    (split; [reflexivity |]);
    (split; [apply Hback |]);
    (split; [apply Hback |]);
    now rewrite Hback.
Qed.

Lemma X11_witness :
  projectMemory
    (restoreMemoryState
       (mkPartial None (Some [("physics", [mkDecision "set g" user (8 # 10)%Q])])
                  None None)
       emptyMemory)
  = [("physics", [mkDecision "set g" user (8 # 10)%Q])].
Proof.
  apply (proj1 (proj1 (proj2 (X11_snapshot_round_trip
                                Router.estimateTokens Scenario.stringifyDecisions
                                (Scenario.clockAt 0) (Scenario.clockAt 0) [] []
                                8000 8000 emptyMemory emptyMemory
                                (mkPartial None
                                           (Some [("physics",
                                                   [mkDecision "set g" user (8 # 10)%Q])])
                                           None None))))).
  reflexivity.
Defined.

(** ** Key decisions *)

(** X12.  extractKeyDecisions yields one decision per turn that matches a
    parameter, formula or visualization pattern, in order, typed with the
    role of its turn; the stored importance is never 0 (a missing or zero
    importance is replaced by 0.8). *)
Theorem X12_one_decision_per_key_turn (turns : list ConversationTurn) :
  map dec_type (extractKeyDecisions turns) = map role (filter isKeyTurn turns)
  /\ map dec_content (extractKeyDecisions turns)
     = map (fun t => extractCoreInformation (content t)) (filter isKeyTurn turns)
  /\ Forall (fun d => ~ (dec_importance d == 0)%Q) (extractKeyDecisions turns).
Proof.
  induction turns as [| t turns (IH1 & IH2 & IH3)]; cbn [extractKeyDecisions filter map].
  - repeat split. constructor.
  - destruct (isKeyTurn t); cbn [map dec_type dec_content].
    + rewrite IH1, IH2. repeat split. constructor; [| exact IH3].
      cbn [dec_importance]. unfold decisionImportance.
      destruct (metadata t) as [m |]; [| discriminate].
      destruct (importance m) as [q |]; [| discriminate].
      destruct (Qeq_bool q 0) eqn:E; [discriminate |].
      intros H. apply Qeq_bool_iff in H. congruence.
    + repeat split; assumption.
Qed.

End CompressionMore.

(* ================================================================== *)
(** * More on the model router *)
(* ================================================================== *)

Module RouterMore.

Import Router.

(** X13.  With the built-in catalog the tier route picks depends on the task
    type alone: simple adjustments and visualization generation go to the
    fast tier and interactive features to the educational tier, both with a
    fallback reason; complex concepts and scientific validation stay on the
    validation tier.  The prompt, the context and the optimization goal only
    enter the cost estimate, which is the token estimate of prompt plus
    context times the tier's cost per token. *)
Theorem X13_tier_depends_on_the_task_type_only
        (taskType : TaskType) (userPrompt context : string)
        (optimizationGoal : OptimizationGoal) (usage : UsageMetrics) :
  exists d u,
    route taskType userPrompt context optimizationGoal usage = Some (d, u)
    /\ models_get initializeModels
         (match taskType with
          | simple_parameter_adjustment | visualization_generation => fast
          | interactive_features => educational
          | complex_educational_concept | scientific_validation => validation
          end) = Some (chosen d)
    /\ indicatesFallback (reason d)
       = (match taskType with
          | complex_educational_concept | scientific_validation => false
          | _ => true
          end)
    /\ estimatedCost d
       = (inject_Z (Z.of_nat (estimateTokens (userPrompt +++ context)))
          * costPerToken (chosen d))%Q
    /\ estimatedLatency d = latency (chosen d)
    /\ u = updateMetrics (name (chosen d)) (estimatedCost d) usage.
Proof.
  destruct taskType; RouterFacts.run_route;
    cbn [estimatedCost estimatedLatency costPerToken latency]; repeat split.
Qed.

(** X14.  Whatever the tier, the task type and the complexity, the confidence
    is one of 0.5, 0.7, 0.8 and 1.0: it is at least 0.5, at most 1, and at
    least 0.8 exactly when the tier declares the task type. *)
Theorem X14_confidence_values (m : ModelConfig) (taskType : TaskType) (complexity : Q) :
  let c := calculateConfidence m taskType complexity in
  ((c == 5 # 10) \/ (c == 7 # 10) \/ (c == 8 # 10) \/ (c == 1))%Q
  /\ (5 # 10 <= c)%Q /\ (c <= 1)%Q
  /\ (has (capabilities m) taskType = true <-> (8 # 10 <= c)%Q).
Proof.
  unfold calculateConfidence.
  destruct (has (capabilities m) taskType);
    destruct (Js.Qltb complexity (3 # 10) && Js.includes "fast" (name m));
    try destruct (Js.Qltb (7 # 10) complexity && Js.includes "validation" (name m));
    cbv zeta;
    (split;
     [first [left; reflexivity | right; left; reflexivity
            | right; right; left; reflexivity | right; right; right; reflexivity] |]);
    (split; [apply Qle_bool_iff; reflexivity |]);
    (split; [apply Qle_bool_iff; reflexivity |]);
    (split;
     [first [intros _; apply Qle_bool_iff; reflexivity | discriminate]
     | first [reflexivity
             | intros H; apply Qle_bool_iff in H; vm_compute in H; discriminate H]]).
Qed.

(** ** The token estimate *)

(** X15.  The estimate is the length divided by four, rounded up: it is 0
    for the empty text only, four times the estimate covers the text with
    fewer than four characters to spare, and a longer text never gets a
    smaller estimate. *)
Theorem X15_estimate_is_a_quarter_rounded_up (text other : string) :
  String.length text <= 4 * estimateTokens text
  /\ 4 * estimateTokens text < String.length text + 4
  /\ (estimateTokens text = 0 <-> text = EmptyString)
  /\ (String.length text <= String.length other ->
      estimateTokens text <= estimateTokens other).
Proof.
  unfold estimateTokens.
  pose proof (Nat.div_mod_eq (String.length text + 3) 4) as H.
  pose proof (Nat.mod_upper_bound (String.length text + 3) 4) as Hm.
  repeat split; try lia.
  - intros H0. destruct text; [reflexivity | simpl in *; lia].
  - intros ->. reflexivity.
  - intros Hle. apply Nat.Div0.div_le_mono. lia.
Qed.

Lemma X15_witness :
  String.length "abcde" <= String.length "abcdefghi"
  /\ estimateTokens "abcde" <= estimateTokens "abcdefghi".
Proof.
  split; [simpl; lia |].
  apply (X15_estimate_is_a_quarter_rounded_up "abcde" "abcdefghi").
  simpl; lia.
Defined.

(** ** Usage metrics *)

Lemma route_cost (taskType : TaskType) (userPrompt context : string)
      (optimizationGoal : OptimizationGoal) (usage : UsageMetrics) :
  exists d u,
    route taskType userPrompt context optimizationGoal usage = Some (d, u)
    /\ estimatedCost d
       = (inject_Z (Z.of_nat (estimateTokens (userPrompt +++ context)))
          * costPerToken (chosen d))%Q
    /\ (0 <= costPerToken (chosen d))%Q
    /\ u = updateMetrics (name (chosen d)) (estimatedCost d) usage.
Proof.
  destruct taskType; RouterFacts.run_route;
    cbn [estimatedCost costPerToken]; repeat split; discriminate.
Qed.

Lemma usage_counted (modelName : string) (usage : list (string * nat)) :
  list_sum (map snd (Js.map_set modelName (usageOf modelName usage + 1) usage))
  = S (list_sum (map snd usage)).
Proof.
  unfold usageOf.
  induction usage as [| [k n] usage IH]; [reflexivity |].
  cbn [Js.map_get Js.map_set]. destruct (String.eqb k modelName) eqn:E.
  - simpl. lia.
  - change (n + list_sum (map snd (Js.map_set modelName
              (match Js.map_get modelName usage with Some n0 => n0 | None => 0 end + 1)
              usage))
            = S (n + list_sum (map snd usage))).
    rewrite IH. lia.
Qed.

Lemma route_metrics (taskType : TaskType) (userPrompt context : string)
      (optimizationGoal : OptimizationGoal) (usage : UsageMetrics) :
  exists d u,
    route taskType userPrompt context optimizationGoal usage = Some (d, u)
    /\ totalRequests u = S (totalRequests usage)
    /\ list_sum (map snd (modelUsage u)) = S (list_sum (map snd (modelUsage usage)))
    /\ (totalCost usage <= totalCost u)%Q
    /\ averageLatency u = averageLatency usage.
Proof.
  destruct (route_cost taskType userPrompt context optimizationGoal usage)
    as (d & u & Hroute & Hcost & Hpos & Hu).
  exists d, u. split; [exact Hroute |]. rewrite Hu.
  cbn [updateMetrics totalRequests modelUsage totalCost averageLatency].
  repeat split.
  - apply usage_counted.
  - rewrite <- (Qplus_0_r (totalCost usage)) at 1.
    apply Qplus_le_r. rewrite Hcost.
    apply Qmult_le_0_compat; [| exact Hpos].
    unfold Qle; simpl. lia.
Qed.

(** X16.  Starting from a new router, after any sequence of routed requests
    the request counter equals the number of requests and also the sum of
    the per-model usage counts; the total cost is non-negative; the average
    latency is still 0, since routing never measures one. *)
Theorem X16_usage_counts_add_up
        (requests : list (TaskType * string * string * OptimizationGoal)) :
  let serve usage request :=
    match route (fst (fst (fst request))) (snd (fst (fst request)))
                (snd (fst request)) (snd request) usage with
    | Some (_, usage') => usage'
    | None => usage
    end in
  let final := fold_left serve requests initialMetrics in
  totalRequests final = List.length requests
  /\ list_sum (map snd (modelUsage final)) = List.length requests
  /\ (0 <= totalCost final)%Q
  /\ averageLatency final = 0%Q.
Proof.
  intros serve final; subst final.
  assert (forall reqs usage,
             let final := fold_left serve reqs usage in
             totalRequests final = totalRequests usage + List.length reqs
             /\ list_sum (map snd (modelUsage final))
                = list_sum (map snd (modelUsage usage)) + List.length reqs
             /\ (totalCost usage <= totalCost final)%Q
             /\ averageLatency final = averageLatency usage) as Hgen.
  { induction reqs as [| [[[taskType userPrompt] context] goal] reqs IH];
      intros usage; cbn [fold_left List.length].
    - repeat split; try lia. apply Qle_refl.
    - destruct (route_metrics taskType userPrompt context goal usage)
        as (d & u & Hroute & Hn & Hsum & Hcost & Hlat).
      assert (serve usage (taskType, userPrompt, context, goal) = u) as ->
          by (unfold serve; cbn [fst snd]; now rewrite Hroute).
      destruct (IH u) as (IHn & IHsum & IHcost & IHlat).
      repeat split; try lia.
      + eapply Qle_trans; eassumption.
      + congruence. }
  destruct (Hgen requests initialMetrics) as (Hn & Hsum & Hcost & Hlat).
  repeat split; assumption.
Qed.

(** ** Any catalog *)

Lemma findCapableModel_Some (models : list (ModelType * ModelConfig))
      (taskType : TaskType) (m : ModelConfig) :
  findCapableModel models taskType = Some m ->
  (exists k, In (k, m) models) /\ has (capabilities m) taskType = true.
Proof.
  induction models as [| [k m'] models IH]; simpl; [discriminate |].
  destruct (has (capabilities m') taskType) eqn:E.
  - intros [= <-]. split; [exists k; now left | exact E].
  - intros H. destruct (IH H) as [[k' Hin] Hcap].
    split; [exists k'; now right | exact Hcap].
Qed.

Lemma findCapableModel_None (models : list (ModelType * ModelConfig))
      (taskType : TaskType) :
  findCapableModel models taskType = None
  <-> (forall k m, In (k, m) models -> has (capabilities m) taskType = false).
Proof.
  induction models as [| [k m'] models IH]; simpl.
  - split; [intros _ ? ? [] | reflexivity].
  - destruct (has (capabilities m') taskType) eqn:E.
    + split; [discriminate |]. intros H. specialize (H k m' (or_introl eq_refl)).
      congruence.
    + rewrite IH. split.
      * intros H k0 m0 [[= <- <-] | Hin]; [exact E | now apply (H k0)].
      * intros H k0 m0 Hin. apply (H k0). now right.
Qed.

(** X17.  On any catalog: routeRequest fails only when the tier it first
    picks is missing from the catalog.  When it answers, the chosen tier
    declares the task type, unless no tier of the catalog does; in that case
    the first pick is kept and the reason says "Fallback:".  findCapableModel
    returns a tier of the catalog that declares the task type, and none only
    when there is none. *)
Theorem X17_fallback_on_any_catalog
        (models : list (ModelType * ModelConfig)) (taskType : TaskType)
        (userPrompt context : string) (optimizationGoal : OptimizationGoal)
        (usage : UsageMetrics) :
  let firstPick := fst (firstChoice taskType userPrompt optimizationGoal) in
  (routeRequest models taskType userPrompt context optimizationGoal usage = None
   <-> models_get models firstPick = None)
  /\ (forall d u,
         routeRequest models taskType userPrompt context optimizationGoal usage
         = Some (d, u) ->
         has (capabilities (chosen d)) taskType = true
         \/ (indicatesFallback (reason d) = true
             /\ models_get models firstPick = Some (chosen d)
             /\ forall k m, In (k, m) models -> has (capabilities m) taskType = false))
  /\ (forall m, findCapableModel models taskType = Some m ->
                (exists k, In (k, m) models) /\ has (capabilities m) taskType = true).
Proof.
  intros firstPick; subst firstPick. unfold routeRequest.
  destruct (firstChoice taskType userPrompt optimizationGoal) as [tier reason0].
  cbn [fst].
  split; [| split; [| apply findCapableModel_Some]].
  - destruct (models_get models tier) as [selected0 |].
    + split; [| discriminate].
      destruct (negb (has (capabilities selected0) taskType)); discriminate.
    + split; reflexivity.
  - intros d u.
    destruct (models_get models tier) as [selected0 |]; [| discriminate].
    destruct (has (capabilities selected0) taskType) eqn:Ecap; cbn [negb].
    + intros [= <- _]. left. exact Ecap.
    + destruct (findCapableModel models taskType) as [m |] eqn:Efind.
      * intros [= <- _]. left. cbn [chosen].
        now apply (findCapableModel_Some models taskType m).
      * intros [= <- _]. right. cbn [chosen reason].
        split; [reflexivity |]. split; [reflexivity |].
        now apply findCapableModel_None.
Qed.

Lemma X17_witness :
  exists d u,
    routeRequest [(validation,
                   mkModel "gpt-4" openai "gpt-4" (3 # 100)%Q 800
                           [scientific_validation])]
                 interactive_features "add a slider" EmptyString balanced
                 initialMetrics = Some (d, u)
    /\ indicatesFallback (reason d) = true.
Proof.
  eexists; eexists. split; [reflexivity |].
  destruct (proj1 (proj2 (X17_fallback_on_any_catalog
                            [(validation,
                              mkModel "gpt-4" openai "gpt-4" (3 # 100)%Q 800
                                      [scientific_validation])]
                            interactive_features "add a slider" EmptyString balanced
                            initialMetrics)) _ _ eq_refl) as [Hcap | [Hfb _]].
  - discriminate Hcap.
  - exact Hfb.
Defined.

End RouterMore.

(* ================================================================== *)
(** * More on the streaming validator *)
(* ================================================================== *)

Module ValidatorMore.

Import Validator.

Lemma append_empty (s : string) : s +++ EmptyString = s.
Proof. induction s as [| c s IH]; simpl; [reflexivity | now rewrite IH]. Qed.

Lemma append_assoc (a b c : string) : (a +++ b) +++ c = a +++ (b +++ c).
Proof. induction a as [| x a IH]; simpl; [reflexivity | now rewrite IH]. Qed.

Section AnyParser.

Variable acorn_parse : ParseOptions -> string -> ParseOutcome.

Local Abbreviation validateIncremental := (validateIncremental acorn_parse).
Local Abbreviation transformStream := (transformStream acorn_parse).
Local Abbreviation writeAll := (writeAll acorn_parse).

(** The code a chunk adds to the buffer. *)
Local Abbreviation added :=
  (fun chunk : StreamValidationChunk =>
     match chunkType chunk, chunkContent chunk with
     | code, Some text => text
     | _, _ => EmptyString
     end).

Lemma validateIncremental_validator (this : Stream) (fragment : string) :
  validator (snd (validateIncremental this fragment)) = validator this.
Proof.
  unfold Validator.validateIncremental.
  destruct (if looksLikeCompleteStatement fragment then _ else _) as [ok errs].
  destruct (checkPerformancePatterns _ _) as [issues lastIndex'].
  reflexivity.
Qed.

Lemma transformStream_validator (this : Stream) (chunk : StreamValidationChunk) :
  validator (fst (transformStream this chunk))
  = mkValidator (codeBuffer (validator this) +++ added chunk)
                (validationResults (validator this)).
Proof.
  unfold Validator.transformStream.
  destruct (chunkType chunk); destruct (chunkContent chunk) as [[| c s] |];
    cbn [fst]; try (rewrite append_empty; now destruct (validator this)).
  pose proof (validateIncremental_validator
                (mkStream (mkValidator (codeBuffer (validator this) +++ String c s)
                                       (validationResults (validator this)))
                          (selectionsLastIndex this)) (String c s)) as H.
  destruct (validateIncremental _ _) as [feedback after]. exact H.
Qed.

Lemma writeAll_validator (chunks : list StreamValidationChunk) (this : Stream) :
  validator (fst (writeAll this chunks))
  = mkValidator (codeBuffer (validator this) +++ String.concat EmptyString (map added chunks))
                (validationResults (validator this))
  /\ List.length (snd (writeAll this chunks)) = List.length chunks.
Proof.
  revert this; induction chunks as [| chunk chunks IH]; intros this.
  - cbn. rewrite append_empty. split; [now destruct (validator this) | reflexivity].
  - cbn [Validator.writeAll].
    pose proof (transformStream_validator this chunk) as Hstep.
    destruct (transformStream this chunk) as [this1 emitted]. cbn [fst] in Hstep.
    destruct (IH this1) as [Hrest Hlen].
    destruct (writeAll this1 chunks) as [this2 more]. cbn [fst snd] in *.
    rewrite Hrest, Hstep. cbn [codeBuffer validationResults].
    split; [| simpl; now rewrite Hlen].
    f_equal. rewrite append_assoc. f_equal.
    cbn [map]. destruct chunks as [| c2 chunks]; cbn [String.concat map].
    + now rewrite append_empty.
    + reflexivity.
Qed.

End AnyParser.

(** X18.  Whatever chunks are written to the validation stream, the buffer
    afterwards is the buffer before followed by the contents of the code
    chunks in order; chunks of other kinds and code chunks without content
    add nothing; one chunk comes out per chunk written.  A validator that is
    not reset between two generations therefore judges their code
    concatenated. *)
Theorem X18_buffer_is_the_code_written_so_far
        (acorn_parse : ParseOptions -> string -> ParseOutcome)
        (this : Stream) (chunks : list StreamValidationChunk) :
  let after := fst (writeAll acorn_parse this chunks) in
  codeBuffer (validator after)
  = codeBuffer (validator this)
    +++ String.concat EmptyString
          (map (fun chunk =>
                  match chunkType chunk, chunkContent chunk with
                  | code, Some text => text
                  | _, _ => EmptyString
                  end) chunks)
  /\ List.length (snd (writeAll acorn_parse this chunks)) = List.length chunks
  /\ codeBuffer (validator (resetStream after)) = EmptyString.
Proof.
  intros after; subst after.
  destruct (writeAll_validator acorn_parse chunks this) as [Hv Hlen].
  rewrite Hv. cbn [codeBuffer]. repeat split. exact Hlen.
Qed.

(** X19.  getCurrentValidation never reports a finding: the stored results
    are written by reset only, so after a reset and any chunks, a completion
    signal included, it still returns the empty, valid result. *)
Theorem X19_current_validation_is_always_empty
        (acorn_parse : ParseOptions -> string -> ParseOutcome)
        (this : Stream) (chunks : list StreamValidationChunk) :
  getCurrentValidation (fst (writeAll acorn_parse (resetStream this) chunks))
  = emptyResults
  /\ getCurrentValidation (fst (writeAll acorn_parse this chunks))
     = getCurrentValidation this.
Proof.
  unfold getCurrentValidation.
  rewrite !(proj1 (writeAll_validator acorn_parse chunks _)).
  split; reflexivity.
Qed.

(** X20.  The feedback on a fragment: it is invalid exactly when the fragment
    ends (after trimming) in ";", "}" or ")" and the buffer fails to parse,
    and then the final verdict on the same buffer is invalid too; its errors
    are syntax errors; it warns "No D3.js usage detected yet" exactly when the
    buffer is longer than 100 characters and matches neither "d3." nor
    "import...d3"; it carries no suggestion and no sub-score. *)
Theorem X20_feedback_on_a_fragment
        (acorn_parse : ParseOptions -> string -> ParseOutcome)
        (this : Stream) (fragment : string) :
  let buf := codeBuffer (validator this) in
  let feedback := fst (validateIncremental acorn_parse this fragment) in
  (isValid feedback = false
   <-> looksLikeCompleteStatement fragment = true
       /\ exists msg loc, acorn_parse syntaxOptions buf = SyntaxError msg loc)
  /\ (isValid feedback = false ->
      isValid (validateComplete acorn_parse (validator this)) = false)
  /\ (forall e, In e (errors feedback) -> type e = syntax)
  /\ (In (mkError semantic warning "No D3.js usage detected yet" None None None)
         (warnings feedback)
      <-> Re.test usesD3 buf = false /\ 100 < String.length buf)
  /\ suggestions feedback = []
  /\ scientificAccuracy feedback = None
  /\ pedagogicalQuality feedback = None.
Proof.
  intros buf feedback; subst buf feedback.
  unfold validateIncremental, checkSyntax.
  destruct (checkPerformancePatterns (selectionsLastIndex this) fragment)
    as [issues lastIndex'] eqn:Eperf.
  assert (forall e, In e issues -> type e = performance) as Hperf.
  { unfold checkPerformancePatterns in Eperf.
    destruct (Re.test_global _ _ _) as [found li]. injection Eperf as <- _.
    intros e He. apply in_app_or in He.
    destruct found, (heavyAnimations fragment); simpl in He;
      repeat (destruct He as [He | He]); subst; try reflexivity; tauto. }
  assert (In (mkError semantic warning "No D3.js usage detected yet" None None None)
             ((if negb (Re.test usesD3 (codeBuffer (validator this)))
                  && (100 <? String.length (codeBuffer (validator this)))
               then [mkError semantic warning "No D3.js usage detected yet" None None None]
               else []) ++ issues)
          <-> Re.test usesD3 (codeBuffer (validator this)) = false
              /\ 100 < String.length (codeBuffer (validator this))) as Hd3.
  { destruct (Re.test usesD3 (codeBuffer (validator this))); cbn [negb andb].
    - split; [| intros [H _]; discriminate H].
      intros H. apply Hperf in H. discriminate H.
    - destruct (Nat.ltb_spec 100 (String.length (codeBuffer (validator this)))).
      + split; [intros _; split; [reflexivity | assumption] | intros _; now left].
      + split; [| intros [_ H']; lia].
        intros H'. apply Hperf in H'. discriminate H'. }
  pose proof (ValidatorFacts.validateComplete_rejected acorn_parse (validator this))
    as Hfinal.
  destruct (looksLikeCompleteStatement fragment);
    [destruct (acorn_parse syntaxOptions (codeBuffer (validator this)))
       as [calls | msg loc] eqn:Eparse |];
    cbn [fst isValid errors warnings suggestions scientificAccuracy pedagogicalQuality].
  - split; [| split; [| split; [| split; [exact Hd3 | repeat split]]]].
    + split; [discriminate | intros [_ (msg & loc & H)]; discriminate H].
    + discriminate.
    + intros e [].
  - split; [| split; [| split; [| split; [exact Hd3 | repeat split]]]].
    + split; [intros _; split; [reflexivity | now exists msg, loc] | reflexivity].
    + intros _. now rewrite (Hfinal msg loc eq_refl).
    + intros e [<- | []]. reflexivity.
  - split; [| split; [| split; [| split; [exact Hd3 | repeat split]]]].
    + split; [discriminate | intros [H _]; discriminate H].
    + discriminate.
    + intros e [].
Qed.


Lemma X20_witness :
  isValid (fst (validateIncremental Scenario.tabulated
                  (mkStream (Scenario.holding Scenario.unclosed) 0)
                  ".append('svg');")) = false
  /\ isValid (validateComplete Scenario.tabulated (Scenario.holding Scenario.unclosed))
     = false.
Proof.
  assert (isValid (fst (validateIncremental Scenario.tabulated
                          (mkStream (Scenario.holding Scenario.unclosed) 0)
                          ".append('svg');")) = false) as Hbad
    by (vm_compute; reflexivity).
  split; [exact Hbad |].
  exact (proj1 (proj2 (X20_feedback_on_a_fragment
                         Scenario.tabulated
                         (mkStream (Scenario.holding Scenario.unclosed) 0)
                         ".append('svg');")) Hbad).
Defined.

(** ** The structural pass *)

Lemma visitCall_adds (text : string) (node : CallExpression)
      (found found' : list ValidationError) :
  visitCall text node found = Some found' ->
  exists extra,
    found' = found ++ extra
    /\ List.length extra <= 2
    /\ Forall (fun w => type w = semantic /\ severity w = warning
                        /\ line w = startLine node
                        /\ (message w = "Data binding without enter/update/exit pattern"
                            -> Js.includes ".join(" text = false
                               /\ Js.includes ".enter(" text = false)) extra.
Proof.
  unfold visitCall.
  destruct (isName "data" (calleeProperty node)
            && negb (Js.includes ".join(" text) && negb (Js.includes ".enter(" text))
    eqn:Edata.
  - apply andb_prop in Edata. destruct Edata as [Edata He].
    apply andb_prop in Edata. destruct Edata as [_ Hj].
    apply negb_true_iff in He, Hj.
    destruct (isName "select" (calleeProperty node));
      [destruct (firstArgument node) as [| selector |];
       [| destruct (Js.startsWith "#" selector && negb (Re.matches idSelector selector)) |] |];
      try discriminate; intros [= <-];
      first [eexists [_]; split; [reflexivity |]
            | eexists [_; _]; rewrite <- app_assoc; split; [reflexivity |]];
      (split; [simpl; lia |]);
      repeat constructor; try assumption;
      match goal with H : message _ = _ |- _ => cbn in H; discriminate H end.
  - destruct (isName "select" (calleeProperty node));
      [destruct (firstArgument node) as [| selector |];
       [| destruct (Js.startsWith "#" selector && negb (Re.matches idSelector selector)) |] |];
      try discriminate; intros [= <-];
      first [exists []; rewrite app_nil_r; split; [reflexivity |]
            | eexists [_]; split; [reflexivity |]];
      (split; [simpl; lia |]);
      repeat constructor;
      match goal with H : message _ = _ |- _ => cbn in H; discriminate H end.
Qed.

Lemma walkCalls_adds (text : string) (nodes : list CallExpression)
      (found : list ValidationError) :
  exists extra,
    walkCalls text nodes found = found ++ extra
    /\ List.length extra <= 2 * List.length nodes
    /\ Forall (fun w => type w = semantic /\ severity w = warning
                        /\ (exists node, In node nodes /\ line w = startLine node)
                        /\ (message w = "Data binding without enter/update/exit pattern"
                            -> Js.includes ".join(" text = false
                               /\ Js.includes ".enter(" text = false)) extra.
Proof.
  revert found; induction nodes as [| node nodes IH]; intros found; cbn [walkCalls].
  - exists []. rewrite app_nil_r. repeat split; [simpl; lia | constructor].
  - destruct (visitCall text node found) as [found' |] eqn:Evisit.
    + destruct (visitCall_adds _ _ _ _ Evisit) as (first & -> & Hlen1 & Hall1).
      destruct (IH (found ++ first)) as (rest & -> & Hlen2 & Hall2).
      exists (first ++ rest). rewrite app_assoc.
      split; [reflexivity |]. split; [rewrite length_app; simpl; lia |].
      apply Forall_app. split.
      * eapply Forall_impl; [| exact Hall1].
        intros w (H1 & H2 & H3 & H4).
        split; [exact H1 | split; [exact H2 | split; [| exact H4]]].
        exists node. split; [now left | exact H3].
      * eapply Forall_impl; [| exact Hall2].
        intros w (H1 & H2 & (n & Hn & H3) & H4).
        split; [exact H1 | split; [exact H2 | split; [| exact H4]]].
        exists n. split; [now right | exact H3].
    + exists []. rewrite app_nil_r. repeat split; [simpl; lia | constructor].
Qed.

(** X21.  The structural pass never reports an error.  What it reports are
    warnings of category semantic, at most two per call expression of the
    tree, each at the line of a call; none at all when the second parse
    fails; and it warns about data binding only if the code contains neither
    ".join(" nor ".enter(". *)
Theorem X21_structural_pass_only_warns
        (acorn_parse : ParseOptions -> string -> ParseOutcome) (text : string) :
  let r := performASTValidation acorn_parse text in
  fst r = []
  /\ Forall (fun w => type w = semantic /\ severity w = warning) (snd r)
  /\ (forall calls,
         acorn_parse walkOptions text = Parsed calls ->
         List.length (snd r) <= 2 * List.length calls
         /\ Forall (fun w => exists node, In node calls /\ line w = startLine node)
                   (snd r))
  /\ (forall msg loc, acorn_parse walkOptions text = SyntaxError msg loc -> snd r = [])
  /\ (Js.includes ".join(" text = true \/ Js.includes ".enter(" text = true ->
      Forall (fun w => message w <> "Data binding without enter/update/exit pattern")
             (snd r)).
Proof.
  intros r; subst r. unfold performASTValidation.
  destruct (acorn_parse walkOptions text) as [calls | msg loc]; cbn [fst snd].
  - destruct (walkCalls_adds text calls []) as (extra & -> & Hlen & Hall).
    cbn [app].
    split; [reflexivity |].
    split; [eapply Forall_impl; [| exact Hall]; intros w (H1 & H2 & _); now split |].
    split; [intros calls' [= <-]; split; [exact Hlen |];
            eapply Forall_impl; [| exact Hall]; intros w (_ & _ & H3 & _); exact H3 |].
    split; [discriminate |].
    intros Hjoin. eapply Forall_impl; [| exact Hall].
    intros w (_ & _ & _ & H4) Hmsg. destruct (H4 Hmsg) as [Hj He].
    destruct Hjoin; congruence.
  - split; [reflexivity |]. split; [constructor |].
    split; [discriminate |]. split; [reflexivity |]. intros _; constructor.
Qed.

Lemma X21_witness :
  Forall (fun w => message w <> "Data binding without enter/update/exit pattern")
         (snd (performASTValidation
                 (fun _ _ => Parsed [mkCall (Some "data") NoValue (Some 1)])
                 "g.data(rows).join('circle')")).
Proof.
  apply (X21_structural_pass_only_warns
           (fun _ _ => Parsed [mkCall (Some "data") NoValue (Some 1)])
           "g.data(rows).join('circle')").
  left. reflexivity.
Defined.

(** ** The quality scores *)

(** X22.  The pedagogical quality is 1 exactly when the buffer shows the
    container, an event binding and a text label; it is always above 0, so
    that the clamp at 0 never applies, and at most 1.  The scientific
    accuracy is 1 or the double 1 - 0.2, printed 0.8, and the latter only for
    a buffer that mentions "gravity" or "9.8" without a gravitational
    constant of 9.8, 9.80, 9.81 or 10.  All in binary64, as the code
    computes them. *)
Theorem X22_quality_scores (this : StreamingValidator) :
  let buf := codeBuffer this in
  let q := snd (checkEducationalQuality this) in
  let a := snd (checkScientificAccuracy this) in
  PrimFloat.ltb 0%float q = true /\ PrimFloat.leb q 1%float = true
  /\ (q = 1%float <-> Re.test hasVisualizationContainer buf = true
                      /\ Re.test hasInteractivity buf = true
                      /\ Re.test hasLabels buf = true)
  /\ (a = 1%float \/ a = 0x1.999999999999ap-1%float)
  /\ (a = 0x1.999999999999ap-1%float
      <-> (Js.includes "gravity" buf || Js.includes "9.8" buf) = true
          /\ Re.test gravity buf = false).
Proof.
  intros buf q a; subst buf q a.
  unfold checkEducationalQuality, checkScientificAccuracy.
  destruct (Re.test hasVisualizationContainer (codeBuffer this));
    destruct (Re.test hasInteractivity (codeBuffer this));
    destruct (Re.test hasLabels (codeBuffer this));
    destruct (Js.includes "gravity" (codeBuffer this) || Js.includes "9.8" (codeBuffer this));
    destruct (Re.test gravity (codeBuffer this));
    cbn [negb andb snd fst];
    (split; [vm_compute; reflexivity |]);
    (split; [vm_compute; reflexivity |]);
    (split;
     [split;
      [first [solve [intros _; repeat split]
             | intros H; apply (f_equal (fun z => PrimFloat.eqb z 1%float)) in H;
               vm_compute in H; discriminate H]
      | first [solve [intros _; vm_compute; reflexivity]
              | intros (H1 & H2 & H3); congruence]] |]);
    (split; [first [left; vm_compute; reflexivity | right; vm_compute; reflexivity] |]);
    (split;
     [first [solve [intros _; repeat split]
            | intros H;
              apply (f_equal (fun z => PrimFloat.eqb z 0x1.999999999999ap-1%float)) in H;
              vm_compute in H; discriminate H]
     | first [solve [intros _; vm_compute; reflexivity]
             | intros (H1 & H2); congruence]]).
Qed.

End ValidatorMore.

(* ================================================================== *)
(** * Properties of the orchestrator's use of router and validator *)
(* ================================================================== *)

Module OrchestratorFacts.

Import Validator.
Import Orchestrator.
Import ValidatorMore.

(** ** Chunking *)

Local Abbreviation visible := (fun c : ascii => negb (Js.is_line_terminator c)).
Local Abbreviation strip := (Compression.filterChars visible).

Lemma rev_string_acc_append (s acc : string) :
  Js.rev_string_acc s acc = Js.rev_string s +++ acc.
Proof.
  unfold Js.rev_string.
  revert acc; induction s as [| c s IH]; intros acc; simpl; [reflexivity |].
  rewrite IH, (IH (String c EmptyString)), append_assoc. reflexivity.
Qed.

Lemma rev_string_cons (c : ascii) (s : string) :
  Js.rev_string (String c s) = Js.rev_string s +++ String c EmptyString.
Proof. unfold Js.rev_string at 1. simpl. apply rev_string_acc_append. Qed.

Lemma length_append (a b : string) :
  String.length (a +++ b) = String.length a + String.length b.
Proof. induction a as [| c a IH]; simpl; [reflexivity | now rewrite IH]. Qed.

Lemma rev_string_length (s : string) :
  String.length (Js.rev_string s) = String.length s.
Proof.
  induction s as [| c s IH]; [reflexivity |].
  rewrite rev_string_cons, length_append, IH. simpl. lia.
Qed.

Lemma strip_append (a b : string) : strip (a +++ b) = strip a +++ strip b.
Proof.
  induction a as [| c a IH]; simpl; [reflexivity |].
  destruct (negb (Js.is_line_terminator c)); simpl; now rewrite IH.
Qed.

Lemma strip_rev (s : string) : strip s = s -> strip (Js.rev_string s) = Js.rev_string s.
Proof.
  induction s as [| c s IH]; [reflexivity |].
  intros H. rewrite rev_string_cons, strip_append.
  simpl in H. destruct (negb (Js.is_line_terminator c)) eqn:E.
  - injection H as H. rewrite (IH H). simpl. now rewrite E.
  - exfalso.
    assert (forall t, String.length (strip t) <= String.length t) as Hlen.
    { induction t as [| x t IHt]; simpl; [lia |].
      destruct (negb (Js.is_line_terminator x)); simpl; lia. }
    pose proof (Hlen s) as Hs. rewrite H in Hs. simpl in Hs. lia.
Qed.

Lemma concat_cons (x : string) (l : list string) :
  String.concat EmptyString (x :: l) = x +++ String.concat EmptyString l.
Proof. destruct l; simpl; [now rewrite append_empty | reflexivity]. Qed.

Lemma chunksFrom_spec (s cur : string) (n : nat) :
  n = String.length cur -> n <= 100 -> strip cur = cur ->
  String.concat EmptyString (chunksFrom s cur n) = Js.rev_string cur +++ strip s
  /\ Forall (fun chunk => 1 <= String.length chunk <= 100 /\ strip chunk = chunk)
            (chunksFrom s cur n).
Proof.
  revert cur n; induction s as [| c s IH]; intros cur n Hn Hle Hcur; cbn [chunksFrom].
  - destruct (Nat.eqb_spec n 0) as [H0 | H0].
    + destruct cur; [| simpl in Hn; lia]. split; [reflexivity | constructor].
    + cbn. rewrite append_empty. split; [reflexivity |].
      constructor; [| constructor]. rewrite rev_string_length.
      split; [lia | now apply strip_rev].
  - cbn [Compression.filterChars].
    destruct (Js.is_line_terminator c) eqn:Eterm; cbn [negb].
    + destruct (IH EmptyString 0 eq_refl (Nat.le_0_l _) eq_refl) as [Hcat Hall].
      destruct (Nat.eqb_spec n 0) as [H0 | H0].
      * destruct cur; [| simpl in Hn; lia]. split; [exact Hcat | exact Hall].
      * rewrite concat_cons, Hcat. split; [reflexivity |].
        constructor; [| exact Hall]. rewrite rev_string_length.
        split; [lia | now apply strip_rev].
    + destruct (Nat.eqb_spec n 100) as [H100 | H100].
      * destruct (IH (String c EmptyString) 1 eq_refl) as [Hcat Hall];
          [lia | simpl; now rewrite Eterm |].
        rewrite concat_cons, Hcat. split; [reflexivity |].
        constructor; [| exact Hall]. rewrite rev_string_length.
        split; [lia | now apply strip_rev].
      * destruct (IH (String c cur) (S n)) as [Hcat Hall];
          [simpl; lia | lia | simpl; rewrite Eterm; simpl; now rewrite Hcur |].
        rewrite Hcat, rev_string_cons, append_assoc. split; [reflexivity | exact Hall].
Qed.

Lemma codeChunks_spec (fullCode : string) :
  String.concat EmptyString (codeChunks fullCode) = strip fullCode
  /\ Forall (fun chunk => 1 <= String.length chunk <= 100 /\ strip chunk = chunk)
            (codeChunks fullCode).
Proof.
  exact (chunksFrom_spec fullCode EmptyString 0 eq_refl (Nat.le_0_l _) eq_refl).
Qed.

(** X23.  The chunks in which generated code is streamed are non-empty, at
    most 100 characters long and free of line terminators; put together they
    are the code without its line terminators, not the code. *)
Theorem X23_chunks_drop_the_line_breaks (fullCode : string) :
  String.concat EmptyString (codeChunks fullCode)
  = Compression.filterChars (fun c => negb (Js.is_line_terminator c)) fullCode
  /\ Forall (fun chunk =>
              1 <= String.length chunk <= 100
              /\ Compression.filterChars (fun c => negb (Js.is_line_terminator c)) chunk
                 = chunk)
           (codeChunks fullCode).
Proof.
  exact (codeChunks_spec fullCode).
Qed.

(** ** A streamed generation *)

Section AnyParser.

Variable acorn_parse : ParseOptions -> string -> ParseOutcome.

Lemma written_spec (chunks : list string) (this : Stream)
      (acc : string * option ValidationResult) :
  Forall (fun chunk => 1 <= String.length chunk) chunks ->
  let run :=
    writeAll acorn_parse this
             (map (fun chunk => mkChunk code (Some chunk) None None) chunks
              ++ [mkChunk complete None None None]) in
  let buffer := codeBuffer (validator this) +++ String.concat EmptyString chunks in
  fold_left onData (snd run) acc
  = (fst acc +++ String.concat EmptyString chunks,
     Some (validateComplete acorn_parse
             (mkValidator buffer (validationResults (validator this)))))
  /\ validator (fst run) = mkValidator buffer (validationResults (validator this)).
Proof.
  revert this acc; induction chunks as [| chunk chunks IH]; intros this acc Hall.
  - cbn. rewrite !append_empty. destruct (validator this); split; reflexivity.
  - inversion Hall as [| ? ? Hlen Hall']; subst.
    destruct chunk as [| c s]; [simpl in Hlen; lia |].
    cbn [map app Validator.writeAll].
    pose proof (transformStream_validator acorn_parse this
                  (mkChunk code (Some (String c s)) None None)) as Hstep.
    unfold Validator.transformStream in *.
    cbn [chunkType chunkContent position] in *.
    destruct (Validator.validateIncremental acorn_parse _ (String c s))
      as [feedback this1].
    cbn [fst] in Hstep.
    specialize (IH this1 (onData acc (mkChunk code (Some (String c s)) (Some feedback) None))
                   Hall').
    cbv zeta in IH.
    destruct (Validator.writeAll acorn_parse this1 _) as [this2 more].
    cbn [fst snd fold_left] in *.
    destruct IH as [IHdata IHv].
    rewrite IHdata, IHv, Hstep. cbn [codeBuffer validationResults onData chunkType
                                      chunkContent chunkValidation fst snd].
    rewrite concat_cons, !append_assoc. split; reflexivity.
Qed.

End AnyParser.

(** X24.  A streamed generation resolves with the model's text stripped of
    its line terminators, and with the final verdict on the validator's
    buffer, which is what the buffer held before (the validator is not reset
    first) followed by that stripped text. *)
Theorem X24_streamed_code_and_verdict
        (acorn_parse : ParseOptions -> string -> ParseOutcome)
        (this : Stream) (fullCode : string) :
  let stripped :=
    Compression.filterChars (fun c => negb (Js.is_line_terminator c)) fullCode in
  let buffer := codeBuffer (validator this) +++ stripped in
  let run := generateWithStreaming acorn_parse this fullCode in
  fst run
  = (stripped,
     Some (validateComplete acorn_parse
             (mkValidator buffer (validationResults (validator this)))))
  /\ codeBuffer (validator (snd run)) = buffer.
Proof.
  intros stripped buffer run; subst stripped buffer run.
  destruct (codeChunks_spec fullCode) as [Hcat Hall].
  unfold generateWithStreaming, written.
  assert (Forall (fun chunk => 1 <= String.length chunk) (codeChunks fullCode)) as Hne.
  { eapply Forall_impl; [| exact Hall]. intros chunk [[H _] _]. exact H. }
  pose proof (written_spec acorn_parse (codeChunks fullCode) this (EmptyString, None) Hne)
    as Hrun.
  cbv zeta in Hrun.
  destruct (writeAll acorn_parse this _) as [after emitted].
  cbn [fst snd] in *. destruct Hrun as [Hdata Hv].
  rewrite Hdata, Hv, Hcat. split; reflexivity.
Qed.

(** ** From the prompt to the tier *)

Lemma lower_char_idempotent (c : ascii) :
  Js.lower_char (Js.lower_char c) = Js.lower_char c.
Proof. destruct c as [[] [] [] [] [] [] [] []]; reflexivity. Qed.

Lemma toLowerCase_idempotent (s : string) :
  Js.toLowerCase (Js.toLowerCase s) = Js.toLowerCase s.
Proof.
  induction s as [| c s IH]; simpl; [reflexivity |].
  now rewrite lower_char_idempotent, IH.
Qed.

(** X25.  In the orchestrator the tier is decided by keywords of the prompt,
    read without regard to case and in this order: "adjust" or "change
    parameter" leads to the fast tier; else "interactive" or "animation" to
    the educational tier; else "prove", "derive", "complex" or "advanced" to
    the validation tier; a prompt with none of them goes to the fast tier. *)
Theorem X25_prompt_keywords_decide_the_tier
        (userPrompt context : string) (optimizationGoal : Router.OptimizationGoal)
        (usage : Router.UsageMetrics) :
  let mentions keyword := Js.includes keyword (Js.toLowerCase userPrompt) in
  analyzeTaskType (Js.toLowerCase userPrompt) = analyzeTaskType userPrompt
  /\ exists d u,
      Router.route (analyzeTaskType userPrompt) userPrompt context optimizationGoal usage
      = Some (d, u)
      /\ Router.models_get Router.initializeModels
           (if mentions "adjust" || mentions "change parameter" then Router.fast
            else if mentions "interactive" || mentions "animation"
                 then Router.educational
            else if mentions "prove" || mentions "derive" || mentions "complex"
                    || mentions "advanced"
                 then Router.validation
            else Router.fast)
         = Some (Router.chosen d).
Proof.
  intros mentions; subst mentions. cbv beta.
  split; [unfold analyzeTaskType; now rewrite toLowerCase_idempotent |].
  unfold analyzeTaskType.
  destruct (Js.includes "adjust" _ || Js.includes "change parameter" _);
    [| destruct (Js.includes "interactive" _ || Js.includes "animation" _);
       [| destruct (Js.includes "prove" _); cbn [orb];
          [| destruct (Js.includes "derive" _); cbn [orb];
             [| destruct (Js.includes "complex" _ ); cbn [orb];
                [| destruct (Js.includes "advanced" _)]]]]];
    RouterFacts.run_route; reflexivity.
Qed.

End OrchestratorFacts.

(* ================================================================== *)
(** * Properties of the educational validator *)
(* ================================================================== *)

Module EducationalFacts.

Import Educational.

(** ** Validity *)

Lemma snoc_not_nil {A : Type} (l : list A) (x : A) : l ++ [x] <> [].
Proof. destruct l; discriminate. Qed.

Lemma reported_none {A B : Type} (test : B -> bool) (report : B -> A)
      (items : list B) (found : list A) :
  fold_left (fun errs item => if test item then errs ++ [report item] else errs)
            items found = []
  <-> found = [] /\ forall item, In item items -> test item = false.
Proof.
  revert found; induction items as [| item items IH]; intros found; cbn [fold_left].
  - split; [intros ->; split; [reflexivity | intros ? []] | tauto].
  - rewrite IH. destruct (test item) eqn:E.
    + split.
      * intros [H _]. now apply snoc_not_nil in H.
      * intros [_ H]. specialize (H item (or_introl eq_refl)). congruence.
    + split.
      * intros [-> H]. split; [reflexivity |].
        intros x [<- | Hx]; [exact E | now apply H].
      * intros [-> H]. split; [reflexivity |]. intros x Hx. apply H. now right.
Qed.

Lemma validateSecurity_none (text : string) :
  validateSecurity text [] = []
  <-> (forall pattern, In pattern DANGEROUS_PATTERNS -> Js.includes pattern text = false)
      /\ Re.test externalLoading text = false.
Proof.
  unfold validateSecurity.
  pose proof (reported_none (fun pattern => Js.includes pattern text)
                (fun pattern => mkError security
                                  ("Potentially dangerous pattern detected: " +++ pattern))
                DANGEROUS_PATTERNS []) as Hfold.
  destruct (Re.test externalLoading text).
  - split; [intros H; now apply snoc_not_nil in H | intros [_ H]; discriminate H].
  - rewrite Hfold. split; [intros [_ H]; now split | intros [H _]; now split].
Qed.

Lemma validateSyntax_none (text : string) (found : list ValidationError) :
  validateSyntax text found = []
  <-> found = []
      /\ (Js.includes "d3." text = true \/ Js.includes "d3[" text = true)
      /\ Js.includes "#visualization" text = true
      /\ countChar "{" text = countChar "}" text.
Proof.
  unfold validateSyntax.
  destruct (Js.includes "d3." text), (Js.includes "d3[" text),
    (Js.includes "#visualization" text),
    (Nat.eqb_spec (countChar "{" text) (countChar "}" text));
    cbn [negb andb];
    (split;
     [intros H; try (now apply snoc_not_nil in H); subst; repeat split; auto
     | intros (H1 & H2 & H3 & H4); subst; try reflexivity;
       try discriminate; try contradiction; destruct H2; discriminate]).
Qed.

Lemma validate_errors (text : string) (context : option Context) :
  errors (validate text context)
  = validateSyntax (cleanCode text) (validateSecurity (cleanCode text) [])
  /\ isValid (validate text context)
     = Nat.eqb (List.length (errors (validate text context))) 0.
Proof.
  unfold validate.
  destruct (assessPedagogicalQuality (cleanCode text) []) as [p sg1].
  destruct (assessInteractivity (cleanCode text) sg1) as [i sg2].
  destruct (assessCodeQuality (cleanCode text) _) as [c w2].
  split; reflexivity.
Qed.

(** The other validator of the repository rejects the text that the
    streaming validator lets pass for want of an error: a text without the
    container is invalid for it. *)
Lemma missing_container_is_an_error_elsewhere :
  isValid (validate Scenario.bodyDiv None) = false
  /\ In (mkError syntax "Code must target the #visualization container")
        (errors (validate Scenario.bodyDiv None)).
Proof. split; [vm_compute; reflexivity | vm_compute; left; reflexivity]. Qed.

(** X26.  The educational validator accepts a text exactly when, after the
    Markdown fences are removed and the text is trimmed, it contains none of
    the eight dangerous patterns and no external loading, uses "d3." or
    "d3[", mentions "#visualization", and has as many opening as closing
    braces.  Warnings and scores never affect validity. *)
Theorem X26_validity_of_a_text (text : string) (context : option Context) :
  let cleaned := cleanCode text in
  isValid (validate text context) = true
  <-> (forall pattern, In pattern DANGEROUS_PATTERNS ->
                       Js.includes pattern cleaned = false)
      /\ Re.test externalLoading cleaned = false
      /\ (Js.includes "d3." cleaned = true \/ Js.includes "d3[" cleaned = true)
      /\ Js.includes "#visualization" cleaned = true
      /\ countChar "{" cleaned = countChar "}" cleaned.
Proof.
  intros cleaned; subst cleaned.
  destruct (validate_errors text context) as [Herr ->].
  rewrite Herr.
  assert (forall l : list ValidationError, Nat.eqb (List.length l) 0 = true <-> l = [])
    as Hnil by (intros [| x l]; simpl; split; congruence).
  rewrite Hnil, validateSyntax_none, validateSecurity_none. tauto.
Qed.


Lemma X26_witness :
  isValid (validate "```javascript d3.select('#visualization').append('svg'); ```" None)
  = true.
Proof.
  apply (proj2 (X26_validity_of_a_text
                  "```javascript d3.select('#visualization').append('svg'); ```" None)).
  split.
  - intros pattern Hin.
    repeat (destruct Hin as [<- | Hin]; [vm_compute; reflexivity |]).
    destruct Hin.
  - split; [vm_compute; reflexivity |].
    split; [left; vm_compute; reflexivity |].
    split; vm_compute; reflexivity.
Defined.

(** ** Scores *)

Lemma scientific_values (text : string) (context : option Context) :
  In (validateScientificAccuracy text context) [65; 75; 80; 85; 90; 95; 100].
Proof.
  unfold validateScientificAccuracy.
  destruct (isPhysics context);
    [destruct (Js.includes "pendulum" text && negb (Js.includes "Math.sqrt" text));
     destruct (negb (Re.test hasUnits text)) |];
    destruct (Js.includes "Math." text); simpl; tauto.
Qed.

Lemma pedagogical_values (text : string) (suggestions0 : list string) :
  In (fst (assessPedagogicalQuality text suggestions0)) [60; 70; 80; 90; 100].
Proof.
  unfold assessPedagogicalQuality.
  destruct (Re.test hasComments text), (Re.test hasLabels text),
    (Re.test hasParameters text), (Re.test hasAnimation text); simpl; tauto.
Qed.

Lemma interactivity_values (text : string) (suggestions0 : list string) :
  In (fst (assessInteractivity text suggestions0)) [40; 50; 60; 70; 80; 90; 100].
Proof.
  unfold assessInteractivity; cbn [fst].
  assert (interactiveCount text <= 6) as Hn.
  { unfold interactiveCount.
    etransitivity; [apply filter_length_le | reflexivity]. }
  destruct (interactiveCount text) as [| [| [| [| [| [| [| n]]]]]]]; simpl; try tauto.
  lia.
Qed.

Lemma quality_values (text : string) (warnings0 : list ValidationWarning) :
  In (fst (assessCodeQuality text warnings0)) [60; 70; 80; 90; 100].
Proof.
  unfold assessCodeQuality.
  destruct (100 * List.length (lines text) <? String.length text),
    (existsb _ (lines text)), (Re.test hasResponsiveDesign text),
    (Js.includes "try" text || Js.includes "catch" text); simpl; tauto.
Qed.

Lemma overall_within :
  forallb (fun s =>
    forallb (fun p =>
      forallb (fun i =>
        forallb (fun c => within s p i c) [60; 70; 80; 90; 100])
              [40; 50; 60; 70; 80; 90; 100])
            [60; 70; 80; 90; 100])
          [65; 75; 80; 85; 90; 95; 100] = true.
Proof. vm_compute. reflexivity. Qed.

Lemma validate_score (text : string) (context : option Context) :
  let cleaned := cleanCode text in
  let sc := score (validate text context) in
  scientificAccuracy sc = validateScientificAccuracy cleaned context
  /\ pedagogicalQuality sc = fst (assessPedagogicalQuality cleaned [])
  /\ interactivity sc
     = fst (assessInteractivity cleaned (snd (assessPedagogicalQuality cleaned [])))
  /\ codeQuality sc
     = fst (assessCodeQuality cleaned (validateEducationalRequirements cleaned []))
  /\ overall sc
     = calculateOverallScore (scientificAccuracy sc) (pedagogicalQuality sc)
                             (interactivity sc) (codeQuality sc).
Proof.
  unfold validate.
  destruct (assessPedagogicalQuality (cleanCode text) []) as [p sg1].
  cbn [fst snd].
  destruct (assessInteractivity (cleanCode text) sg1) as [i sg2].
  destruct (assessCodeQuality (cleanCode text) _) as [c w2].
  repeat split.
Qed.

(** X27.  Whatever the text and the context, the scores of a verdict are
    bounded: scientific accuracy between 65 and 100, pedagogical quality
    between 60 and 100, interactivity between 40 and 100, code quality
    between 60 and 100, all multiples of 5; the overall score, the weighted
    average computed in double precision and rounded, lies between the least
    and the greatest of the four. *)
Theorem X27_scores_are_bounded (text : string) (context : option Context) :
  let sc := score (validate text context) in
  In (scientificAccuracy sc) [65; 75; 80; 85; 90; 95; 100]
  /\ In (pedagogicalQuality sc) [60; 70; 80; 90; 100]
  /\ In (interactivity sc) [40; 50; 60; 70; 80; 90; 100]
  /\ In (codeQuality sc) [60; 70; 80; 90; 100]
  /\ Nat.min (Nat.min (scientificAccuracy sc) (pedagogicalQuality sc))
             (Nat.min (interactivity sc) (codeQuality sc))
     <= overall sc
     <= Nat.max (Nat.max (scientificAccuracy sc) (pedagogicalQuality sc))
                (Nat.max (interactivity sc) (codeQuality sc)).
Proof.
  intros sc; subst sc.
  destruct (validate_score text context) as (Hs & Hp & Hi & Hc & Ho).
  pose proof (scientific_values (cleanCode text) context) as Hs'.
  pose proof (pedagogical_values (cleanCode text) []) as Hp'.
  pose proof (interactivity_values (cleanCode text)
                (snd (assessPedagogicalQuality (cleanCode text) []))) as Hi'.
  pose proof (quality_values (cleanCode text)
                (validateEducationalRequirements (cleanCode text) [])) as Hc'.
  rewrite <- Hs in Hs'. rewrite <- Hp in Hp'. rewrite <- Hi in Hi'. rewrite <- Hc in Hc'.
  split; [exact Hs' |]. split; [exact Hp' |]. split; [exact Hi' |]. split; [exact Hc' |].
  rewrite Ho.
  pose proof overall_within as Hall.
  rewrite forallb_forall in Hall. specialize (Hall _ Hs').
  rewrite forallb_forall in Hall. specialize (Hall _ Hp').
  rewrite forallb_forall in Hall. specialize (Hall _ Hi').
  rewrite forallb_forall in Hall. specialize (Hall _ Hc').
  unfold within in Hall. apply andb_prop in Hall. destruct Hall as [Hlo Hhi].
  apply Nat.leb_le in Hlo, Hhi. split; assumption.
Qed.

(** ** The improvement prompt *)

(** X28.  getImprovementPrompt asks for nothing, returning the empty text,
    exactly when scientific accuracy and pedagogical quality are at least
    80, interactivity is at least 70 and there is no error; otherwise its
    answer starts with "Please improve the visualization by: ". *)
Theorem X28_no_prompt_for_a_good_verdict (r : ValidationResult) :
  (getImprovementPrompt r = EmptyString
   <-> 80 <= scientificAccuracy (score r)
       /\ 80 <= pedagogicalQuality (score r)
       /\ 70 <= interactivity (score r)
       /\ errors r = [])
  /\ (getImprovementPrompt r = EmptyString
      \/ Js.startsWith "Please improve the visualization by: " (getImprovementPrompt r)
         = true).
Proof.
  unfold getImprovementPrompt, improvements.
  destruct (Nat.ltb_spec (scientificAccuracy (score r)) 80);
    destruct (Nat.ltb_spec (pedagogicalQuality (score r)) 80);
    destruct (Nat.ltb_spec (interactivity (score r)) 70);
    destruct (errors r) as [| e es]; cbn [List.length Nat.ltb Nat.leb app].
  all: split; [| first [left; reflexivity | right; reflexivity]].
  all: split.
  all: try (solve [intros _; repeat split; assumption]).
  all: try (solve [intros _; reflexivity]).
  all: try (solve [intros (Ga & Gb & Gc & Gd); exfalso; first [lia | discriminate Gd]]).
  all: intros Hempty; cbn in Hempty; discriminate Hempty.
Qed.


Lemma X28_witness :
  getImprovementPrompt (mkValidation true [] [] (mkScore 84 80 90 70 100) [])
  = EmptyString.
Proof.
  apply (proj2 (proj1 (X28_no_prompt_for_a_good_verdict
                         (mkValidation true [] [] (mkScore 84 80 90 70 100) [])))).
  cbn. repeat split; lia.
Defined.

End EducationalFacts.

(* ================================================================== *)
(** * More on the texts that redundancy compression compares *)
(* ================================================================== *)

Module SimplifyFacts.

Import Compression.
Import ValidatorMore.
Import OrchestratorFacts.

Local Abbreviation blank := (Js.is_space).

(** *** Reversal and trimming *)

Lemma rev_string_append (a b : string) :
  Js.rev_string (a +++ b) = Js.rev_string b +++ Js.rev_string a.
Proof.
  induction a as [| c a IH]; simpl.
  - now rewrite append_empty.
  - now rewrite !rev_string_cons, IH, append_assoc.
Qed.

Lemma rev_string_involutive (s : string) : Js.rev_string (Js.rev_string s) = s.
Proof.
  induction s as [| c s IH]; [reflexivity |].
  now rewrite rev_string_cons, rev_string_append, IH.
Qed.

Lemma trimStart_spec (s : string) :
  exists p, s = p +++ Js.trimStart s /\ headIs blank (Js.trimStart s) = false.
Proof.
  induction s as [| c s (p & Hp & Hh)].
  - exists EmptyString. split; reflexivity.
  - simpl. destruct (Js.is_space c) eqn:E.
    + exists (String c p). simpl. split; [now rewrite <- Hp | exact Hh].
    + exists EmptyString. split; [reflexivity | exact E].
Qed.

Lemma trimStart_fixed (s : string) : headIs blank s = false -> Js.trimStart s = s.
Proof. destruct s as [| c s]; simpl; [reflexivity | now intros ->]. Qed.

Lemma headIs_append (p : ascii -> bool) (a b : string) :
  headIs p a = true -> headIs p (a +++ b) = true.
Proof. destruct a; simpl; [discriminate | trivial]. Qed.

Lemma trim_spec (s : string) :
  exists p q,
    s = p +++ Js.trim s +++ q
    /\ headIs blank (Js.trim s) = false
    /\ headIs blank (Js.rev_string (Js.trim s)) = false.
Proof.
  unfold Js.trim.
  destruct (trimStart_spec s) as (p & Hp & Hm).
  destruct (trimStart_spec (Js.rev_string (Js.trimStart s))) as (q & Hq & Hm').
  set (m := Js.trimStart s) in *.
  set (m' := Js.trimStart (Js.rev_string m)) in *.
  assert (m = Js.rev_string m' +++ Js.rev_string q) as Hmid.
  { rewrite <- (rev_string_involutive m), Hq. apply rev_string_append. }
  exists p, (Js.rev_string q). split; [| split].
  - now rewrite <- Hmid.
  - destruct (headIs blank (Js.rev_string m')) eqn:E; [| reflexivity].
    apply (headIs_append _ _ (Js.rev_string q)) in E.
    rewrite <- Hmid in E. congruence.
  - now rewrite rev_string_involutive.
Qed.

Lemma trim_fixed (s : string) :
  headIs blank s = false -> headIs blank (Js.rev_string s) = false -> Js.trim s = s.
Proof.
  intros H1 H2. unfold Js.trim.
  now rewrite (trimStart_fixed s H1), (trimStart_fixed _ H2), rev_string_involutive.
Qed.

(** *** Characters and adjacent blanks under concatenation *)

Lemma allChars_append (p : ascii -> bool) (a b : string) :
  allChars p (a +++ b) = allChars p a && allChars p b.
Proof.
  induction a as [| c a IH]; simpl; [reflexivity |].
  now rewrite IH, andb_assoc.
Qed.

Lemma startsWith_append (x a b : string) :
  Js.startsWith x a = true -> Js.startsWith x (a +++ b) = true.
Proof.
  revert a; induction x as [| c x IH]; intros a; [reflexivity |].
  destruct a as [| d a]; simpl; [discriminate |].
  intros H. apply andb_prop in H. destruct H as [-> H]. now apply IH.
Qed.

Lemma includes_append_l (x a b : string) :
  Js.includes x a = true -> Js.includes x (a +++ b) = true.
Proof.
  induction a as [| c a IH].
  - destruct x; [destruct b; reflexivity | discriminate].
  - cbn [Js.includes]. intros H. apply orb_prop in H.
    change (String c a +++ b) with (String c (a +++ b)). cbn [Js.includes].
    apply orb_true_intro. destruct H as [H | H].
    + left. now apply (startsWith_append _ (String c a) b).
    + right. now apply IH.
Qed.

Lemma includes_append_r (x a b : string) :
  Js.includes x b = true -> Js.includes x (a +++ b) = true.
Proof.
  intros H. induction a as [| c a IH]; [exact H |].
  change (String c a +++ b) with (String c (a +++ b)). cbn [Js.includes].
  rewrite IH. apply orb_true_r.
Qed.

Lemma includes_infix (x p s q : string) :
  Js.includes x (p +++ s +++ q) = false -> Js.includes x s = false.
Proof.
  intros H. destruct (Js.includes x s) eqn:E; [| reflexivity].
  rewrite (includes_append_r x p _ (includes_append_l x s q E)) in H. discriminate H.
Qed.

(** *** The four passes *)

Lemma lowered_kept_char (c : ascii) :
  keepWordOrSpace (Js.lower_char c) = true ->
  plainChar (Js.lower_char c) || Js.is_space (Js.lower_char c) = true.
Proof. destruct c as [[] [] [] [] [] [] [] []]; vm_compute; trivial. Qed.

Lemma plainChar_fixed (c : ascii) :
  plainChar c = true -> Js.lower_char c = c /\ keepWordOrSpace c = true.
Proof.
  destruct c as [[] [] [] [] [] [] [] []]; vm_compute; intros H;
    first [discriminate H | split; reflexivity].
Qed.

Lemma plain_blank (c : ascii) :
  plainChar c = true -> Js.is_space c = true -> c = " "%char.
Proof.
  destruct c as [[] [] [] [] [] [] [] []]; vm_compute; intros H1 H2;
    first [discriminate H1 | discriminate H2 | reflexivity].
Qed.

Lemma not_blank (c : ascii) : Js.is_space c = false -> Ascii.eqb " " c = false.
Proof. destruct (Ascii.eqb_spec " " c) as [<- |]; [discriminate | reflexivity]. Qed.

Lemma filtered_chars (text : string) :
  allChars (fun c => plainChar c || Js.is_space c)
           (filterChars keepWordOrSpace (Js.toLowerCase text)) = true.
Proof.
  induction text as [| c text IH]; simpl; [reflexivity |].
  destruct (keepWordOrSpace (Js.lower_char c)) eqn:E; [| exact IH].
  simpl. now rewrite (lowered_kept_char c E), IH.
Qed.

Lemma collapseSpaces_shape (t : string) (inRun : bool) :
  allChars (fun c => plainChar c || Js.is_space c) t = true ->
  allChars plainChar (collapseSpaces inRun t) = true
  /\ Js.includes "  " (collapseSpaces inRun t) = false
  /\ (inRun = true -> Js.startsWith " " (collapseSpaces inRun t) = false).
Proof.
  revert inRun; induction t as [| c t IH]; intros inRun H.
  - simpl. repeat split; reflexivity.
  - simpl in H. apply andb_prop in H. destruct H as [Hc Ht].
    cbn [collapseSpaces]. destruct (Js.is_space c) eqn:E.
    + destruct (IH true Ht) as (Ha & Hi & Hs). specialize (Hs eq_refl).
      destruct inRun.
      * split; [exact Ha |]. split; [exact Hi | intros _; exact Hs].
      * split; [simpl; exact Ha |]. split; [| discriminate].
        cbn [Js.includes]. rewrite Hi, orb_false_r.
        change (Js.startsWith "  " (String " " (collapseSpaces true t)))
          with (Ascii.eqb " " " " && Js.startsWith " " (collapseSpaces true t)).
        now rewrite Hs, andb_false_r.
    + destruct (IH false Ht) as (Ha & Hi & _).
      assert (plainChar c = true) as Hp by (now rewrite orb_false_r in Hc).
      pose proof (not_blank c E) as Hn.
      split; [simpl; now rewrite Hp, Ha |]. split.
      * cbn [Js.includes Js.startsWith]. now rewrite Hn, Hi.
      * intros _. cbn [Js.startsWith]. now rewrite Hn.
Qed.

Lemma toLowerCase_fixed (s : string) :
  allChars plainChar s = true -> Js.toLowerCase s = s.
Proof.
  induction s as [| c s IH]; simpl; [reflexivity |].
  intros H. apply andb_prop in H. destruct H as [Hc Hs].
  now rewrite (proj1 (plainChar_fixed c Hc)), (IH Hs).
Qed.

Lemma filterChars_fixed (s : string) :
  allChars plainChar s = true -> filterChars keepWordOrSpace s = s.
Proof.
  induction s as [| c s IH]; simpl; [reflexivity |].
  intros H. apply andb_prop in H. destruct H as [Hc Hs].
  now rewrite (proj2 (plainChar_fixed c Hc)), (IH Hs).
Qed.

Lemma collapseSpaces_fixed (s : string) (inRun : bool) :
  allChars plainChar s = true ->
  Js.includes "  " s = false ->
  (inRun = true -> headIs blank s = false) ->
  collapseSpaces inRun s = s.
Proof.
  revert inRun; induction s as [| c s IH]; intros inRun Hall Hinc Hrun; [reflexivity |].
  simpl in Hall. apply andb_prop in Hall. destruct Hall as [Hc Hs].
  cbn [Js.includes] in Hinc. apply orb_false_elim in Hinc. destruct Hinc as [Hst Hinc].
  cbn [collapseSpaces]. destruct (Js.is_space c) eqn:E.
  - destruct inRun; [specialize (Hrun eq_refl); simpl in Hrun; congruence |].
    pose proof (plain_blank c Hc E) as ->.
    f_equal. apply IH; [exact Hs | exact Hinc |]. intros _.
    destruct s as [| d s]; [reflexivity |]. cbn [headIs].
    destruct (Js.is_space d) eqn:Ed; [| reflexivity].
    simpl in Hs. apply andb_prop in Hs. destruct Hs as [Hd _].
    pose proof (plain_blank d Hd Ed) as ->.
    vm_compute in Hst. discriminate Hst.
  - f_equal. apply IH; [exact Hs | exact Hinc | discriminate].
Qed.

Lemma headIs_blank_startsWith (s : string) :
  headIs blank s = false -> Js.startsWith " " s = false.
Proof.
  destruct s as [| c s]; [reflexivity |]. cbn [headIs Js.startsWith]. intros H.
  now rewrite (not_blank c H).
Qed.

Lemma simplifyContent_shape (text : string) :
  allChars plainChar (simplifyContent text) = true
  /\ Js.includes "  " (simplifyContent text) = false
  /\ headIs blank (simplifyContent text) = false
  /\ headIs blank (Js.rev_string (simplifyContent text)) = false.
Proof.
  unfold simplifyContent.
  destruct (collapseSpaces_shape _ false (filtered_chars text)) as (Ha & Hi & _).
  destruct (trim_spec (collapseSpaces false
                         (filterChars keepWordOrSpace (Js.toLowerCase text))))
    as (p & q & Heq & Hh & Hl).
  set (t := collapseSpaces false _) in *.
  rewrite Heq in Ha, Hi.
  rewrite !allChars_append in Ha.
  apply andb_prop in Ha. destruct Ha as [_ Ha].
  apply andb_prop in Ha. destruct Ha as [Ha _].
  split; [exact Ha |]. split; [exact (includes_infix _ _ _ _ Hi) |].
  split; assumption.
Qed.

(** X29.  The text that redundancy compression compares is in a normal
    form: simplifyContent returns only lower-case letters, digits,
    underscores and single blanks, with no blank at either end; simplifying
    a simplified text changes nothing, and the case of the letters of the
    original does not matter. *)
Theorem X29_simplified_text_is_normal (text : string) :
  let s := simplifyContent text in
  allChars plainChar s = true
  /\ Js.includes "  " s = false
  /\ Js.startsWith " " s = false
  /\ Js.endsWith " " s = false
  /\ simplifyContent s = s
  /\ simplifyContent (Js.toLowerCase text) = s.
Proof.
  cbv zeta.
  destruct (simplifyContent_shape text) as (Ha & Hi & Hh & Hl).
  split; [exact Ha |]. split; [exact Hi |].
  split; [now apply headIs_blank_startsWith |].
  split; [now apply (headIs_blank_startsWith (Js.rev_string (simplifyContent text))) |].
  split.
  - unfold simplifyContent at 1.
    rewrite (toLowerCase_fixed _ Ha), (filterChars_fixed _ Ha).
    rewrite (collapseSpaces_fixed _ false Ha Hi) by discriminate.
    now apply trim_fixed.
  - unfold simplifyContent. now rewrite toLowerCase_idempotent.
Qed.

End SimplifyFacts.

(* ================================================================== *)
(** * More on the checks made while the code arrives *)
(* ================================================================== *)

Module PerformanceFacts.

Import Validator.

(** *** The search of a pattern with the g flag *)

Lemma longest_None (r : Re.regex) (s : string) (n : nat) (best : option nat) :
  Re.longest r s n best = None -> best = None /\ Re.matches_prefix r s = false.
Proof.
  revert r n best; induction s as [| c s IH]; intros r n best; cbn [Re.longest Re.matches_prefix].
  - destruct (Re.nullable r); [discriminate |]. intros ->. split; reflexivity.
  - destruct (Re.is_void r) eqn:Ev.
    + destruct (Re.nullable r); [discriminate |]. intros ->. split; reflexivity.
    + intros H. apply IH in H. destruct H as [Hb Hm].
      destruct (Re.nullable r); [discriminate |]. split; [exact Hb | exact Hm].
Qed.

Lemma longest_Some (r : Re.regex) (s : string) (n : nat) (best : option nat) (m : nat) :
  Re.longest r s n best = Some m ->
  best = Some m
  \/ (Re.matches_prefix r s = true /\ n <= m <= n + String.length s
      /\ (Re.nullable r = false -> n < m)).
Proof.
  revert r n best; induction s as [| c s IH]; intros r n best; cbn [Re.longest Re.matches_prefix].
  - destruct (Re.nullable r); [| now left].
    intros H. injection H as <-. right. simpl. repeat split; try lia; try discriminate.
  - destruct (Re.is_void r) eqn:Ev.
    + destruct (Re.nullable r); [| now left].
      intros H. injection H as <-. right. simpl. repeat split; try lia; try discriminate.
    + intros H. apply IH in H. destruct H as [H | (Hm & Hle & _)].
      * destruct (Re.nullable r); [| now left].
        injection H as <-. right. simpl. repeat split; try lia; try discriminate.
      * right. rewrite Hm, orb_true_r. simpl. repeat split; lia.
Qed.

Lemma search_end_None (r : Re.regex) (s : string) (i : nat) :
  Re.search_end r s i = None -> Re.test r s = false.
Proof.
  revert i; induction s as [| c s IH]; intros i; cbn [Re.search_end Re.test];
    unfold Re.longest_prefix;
    destruct (Re.longest r _ 0 None) eqn:E; try discriminate;
    apply longest_None in E; destruct E as [_ ->]; [reflexivity |].
  intros H. now rewrite (IH _ H).
Qed.

Lemma search_end_Some (r : Re.regex) (s : string) (i e : nat) :
  Re.search_end r s i = Some e ->
  Re.test r s = true /\ i <= e <= i + String.length s
  /\ (Re.nullable r = false -> i < e).
Proof.
  revert i; induction s as [| c s IH]; intros i; cbn [Re.search_end Re.test];
    unfold Re.longest_prefix;
    destruct (Re.longest r _ 0 None) eqn:E; try discriminate.
  - intros H. injection H as <-.
    apply longest_Some in E. destruct E as [E | (Hm & Hle & Hn)]; [discriminate |].
    rewrite Hm. simpl in *. repeat split; try lia; intros Hr; specialize (Hn Hr); lia.
  - intros H. injection H as <-.
    apply longest_Some in E. destruct E as [E | (Hm & Hle & Hn)]; [discriminate |].
    rewrite Hm. simpl in *. repeat split; try lia; intros Hr; specialize (Hn Hr); lia.
  - intros H. apply IH in H. destruct H as (Ht & Hle & Hn).
    rewrite Ht, orb_true_r. simpl. repeat split; try lia; intros Hr; specialize (Hn Hr); lia.
Qed.

Lemma dropChars_Some (n : nat) (s rest : string) :
  Js.dropChars n s = Some rest ->
  String.length s = n + String.length rest
  /\ forall r, Re.test r rest = true -> Re.test r s = true.
Proof.
  revert s; induction n as [| n IH]; intros s; cbn [Js.dropChars].
  - intros H. injection H as <-. split; [reflexivity | trivial].
  - destruct s as [| c s]; [discriminate |].
    intros H. apply IH in H. destruct H as [Hlen Ht]. split; [simpl; lia |].
    intros r Hr. cbn [Re.test]. rewrite (Ht r Hr). apply orb_true_r.
Qed.

Lemma dropChars_None (n : nat) (s : string) :
  Js.dropChars n s = None <-> String.length s < n.
Proof.
  revert s; induction n as [| n IH]; intros s; cbn [Js.dropChars].
  - split; [discriminate | lia].
  - destruct s as [| c s]; simpl; [split; [lia | reflexivity] |].
    rewrite IH. lia.
Qed.

Lemma test_global_spec (r : Re.regex) (lastIndex : nat) (s : string) :
  Re.nullable r = false ->
  (fst (Re.test_global r lastIndex s) = true
   <-> exists rest, Js.dropChars lastIndex s = Some rest /\ Re.test r rest = true)
  /\ (fst (Re.test_global r lastIndex s) = true ->
      lastIndex < snd (Re.test_global r lastIndex s) <= String.length s)
  /\ (fst (Re.test_global r lastIndex s) = false ->
      snd (Re.test_global r lastIndex s) = 0).
Proof.
  intros Hr. unfold Re.test_global.
  destruct (Js.dropChars lastIndex s) as [rest |] eqn:Ed.
  - destruct (dropChars_Some _ _ _ Ed) as [Hlen _].
    destruct (Re.search_end r rest lastIndex) as [e |] eqn:Es; cbn [fst snd].
    + destruct (search_end_Some _ _ _ _ Es) as (Ht & Hle & Hn). specialize (Hn Hr).
      split; [| split].
      * split; [intros _; now exists rest | reflexivity].
      * intros _. lia.
      * discriminate.
    + pose proof (search_end_None _ _ _ Es) as Ht.
      split; [| split].
      * split; [discriminate |]. intros (rest' & Hrest & Hm).
        injection Hrest as <-. congruence.
      * discriminate.
      * reflexivity.
  - cbn [fst snd]. split; [| split].
    + split; [discriminate |]. intros (rest & Hrest & _). discriminate Hrest.
    + discriminate.
    + reflexivity.
Qed.

(** X30.  The pattern behind the warning on repeated selections carries
    the g flag, so each test starts where the last match on an earlier
    fragment ended.  The warning is given exactly when the fragment, from
    that index on, has two selections on one line.  Hence a warning is
    always justified by the fragment, and with the index at 0 none is
    missed; but after a match a fragment no longer than the index is passed
    without warning whatever it contains.  The index then returns to 0, and
    after a match it lies beyond the old one, within the fragment. *)
Theorem X30_selection_warning_depends_on_earlier_fragments
        (acorn_parse : ParseOptions -> string -> ParseOutcome)
        (this : Stream) (codeFragment : string) :
  let multiple :=
    mkError performance warning "Multiple D3 selections detected" None None
            (Some "Chain selections or cache them in variables") in
  let run := validateIncremental acorn_parse this codeFragment in
  let warned := In multiple (warnings (fst run)) in
  let lastIndex := selectionsLastIndex this in
  (warned <-> exists rest,
       Js.dropChars lastIndex codeFragment = Some rest
       /\ Re.test inefficientSelections rest = true)
  /\ (warned -> Re.test inefficientSelections codeFragment = true)
  /\ (lastIndex = 0 -> (warned <-> Re.test inefficientSelections codeFragment = true))
  /\ (String.length codeFragment <= lastIndex -> ~ warned)
  /\ (warned ->
      lastIndex < selectionsLastIndex (snd run) <= String.length codeFragment)
  /\ (~ warned -> selectionsLastIndex (snd run) = 0)
  /\ validator (snd run) = validator this.
Proof.
  cbv zeta.
  assert (Re.nullable inefficientSelections = false) as Hr by reflexivity.
  destruct (test_global_spec inefficientSelections (selectionsLastIndex this)
                             codeFragment Hr) as (Hiff & Hpos & Hzero).
  assert (In (mkError performance warning "Multiple D3 selections detected" None None
                      (Some "Chain selections or cache them in variables"))
             (warnings (fst (validateIncremental acorn_parse this codeFragment)))
          <-> fst (Re.test_global inefficientSelections (selectionsLastIndex this)
                                  codeFragment) = true) as Hw.
  { unfold validateIncremental, checkPerformancePatterns.
    destruct (Re.test_global _ _ _) as [found idx].
    destruct (if looksLikeCompleteStatement codeFragment then _ else _) as [ok errs].
    cbn [fst snd warnings].
    destruct (negb _ && _); destruct found; destruct (heavyAnimations codeFragment);
      cbn [app In]; split; intros H;
      first [ reflexivity
            | discriminate H
            | solve [auto 6]
            | exfalso; repeat (destruct H as [H | H]; [discriminate H |]); exact H ]. }
  assert (selectionsLastIndex (snd (validateIncremental acorn_parse this codeFragment))
          = snd (Re.test_global inefficientSelections (selectionsLastIndex this)
                                codeFragment)
          /\ validator (snd (validateIncremental acorn_parse this codeFragment))
             = validator this) as [Hidx Hval].
  { unfold validateIncremental, checkPerformancePatterns.
    destruct (Re.test_global _ _ _) as [found idx].
    destruct (if looksLikeCompleteStatement codeFragment then _ else _) as [ok errs].
    split; reflexivity. }
  split; [now rewrite Hw |].
  split.
  { intros H. apply Hw, Hiff in H. destruct H as (rest & Hd & Ht).
    exact (proj2 (dropChars_Some _ _ _ Hd) _ Ht). }
  split.
  { intros H0. rewrite Hw, Hiff, H0. cbn [Js.dropChars].
    split; [intros (rest & Hd & Ht); now injection Hd as <- | intros Ht; now eexists]. }
  split.
  { intros Hlen H. apply Hw in H. pose proof (Hpos H) as Hp. lia. }
  split.
  { intros H. rewrite Hidx. apply Hpos, Hw, H. }
  split; [| exact Hval].
  intros H. rewrite Hidx. apply Hzero.
  destruct (fst (Re.test_global _ _ _)); [| reflexivity].
  exfalso. apply H, Hw. reflexivity.
Qed.

Lemma X30_witness :
  let first := "var a = d3.select('#visualization'); var b = d3.select('svg');" in
  let second := "d3.select('a'); d3.select('b');" in
  let later :=
    snd (validateIncremental Scenario.tabulated (mkStream (Scenario.holding first) 0)
                             first) in
  Re.test inefficientSelections second = true
  /\ ~ In (mkError performance warning "Multiple D3 selections detected" None None
                   (Some "Chain selections or cache them in variables"))
          (warnings (fst (validateIncremental Scenario.tabulated later second))).
Proof.
  cbv zeta. split; [vm_compute; reflexivity |].
  apply (X30_selection_warning_depends_on_earlier_fragments
           Scenario.tabulated
           (snd (validateIncremental
                   Scenario.tabulated
                   (mkStream
                      (Scenario.holding
                         "var a = d3.select('#visualization'); var b = d3.select('svg');")
                      0)
                   "var a = d3.select('#visualization'); var b = d3.select('svg');"))
           "d3.select('a'); d3.select('b');").
  vm_compute. lia.
Defined.

End PerformanceFacts.
